(** * SmartCSV: the cleaning pipeline (etl.py), the insight engine
      (insights.py) and the upload checks (utils/validators.py), embedded
      and verified.

    Conventions of the embedding.
    - A Python [str] is a Rocq [string]; a character is a code point below
      256.
    - A pandas DataFrame is a list of named, typed columns; labels are meant
      to be unique (pandas indexes by label) and theorems that depend on it
      say so.  A frame without columns has no rows.  A cell is a [value]:
      a finite number is the rational it denotes, kept in lowest terms,
      with the infinities and the missing marker as separate constructors.
      Comparisons are exact; every sum, difference, product, quotient and
      [round] is rounded to the nearest float64 ([Float.binary64]), so a
      computation on float64 cells gives the float64 the program gets.
      There is one zero, and a sum is taken from left to right.
    - pandas, numpy and scipy routines whose result is not a rational
      function of the cells or not elementwise (skewness, standard
      deviation, correlation coefficients and their p-values, date parsing,
      float narrowing, histograms, number formatting) are fields of the
      classes [Pandas] and [Analytics]: every theorem holds for all their
      implementations.  A coefficient or p-value is NaN or the real number
      it denotes.
    - [ETLPipeline] is the class of etl.py with its state passed explicitly;
      the functions of insights.py live in a small state monad over the
      DataFrame object they receive.  *)

From Stdlib Require Import List String Ascii Bool Arith ZArith QArith Lia.
From Stdlib Require Import Qround Qabs Reals Lra Sorted Permutation.
Import ListNotations.

Local Close Scope Q_scope.
Local Open Scope string_scope.
Local Open Scope list_scope.
Local Open Scope nat_scope.

(* ================================================================== *)
(** * Python strings *)
(* ================================================================== *)

Module PyStr.

(** [c.isspace()] for code points below 256. *)
Definition isspace (c : ascii) : bool :=
  let n := nat_of_ascii c in
  ((9 <=? n) && (n <=? 13)) || ((28 <=? n) && (n <=? 32))
  || (n =? 133) || (n =? 160).

(** [c.lower()] for code points below 256 (A-Z and the Latin-1 capitals). *)
Definition lower_char (c : ascii) : ascii :=
  let n := nat_of_ascii c in
  if ((65 <=? n) && (n <=? 90))
     || ((192 <=? n) && (n <=? 222) && negb (n =? 215))
  then ascii_of_nat (n + 32) else c.

Fixpoint lower (s : string) : string :=
  match s with
  | EmptyString => EmptyString
  | String c s' => String (lower_char c) (lower s')
  end.

Fixpoint lstrip_by (p : ascii -> bool) (s : string) : string :=
  match s with
  | EmptyString => EmptyString
  | String c s' => if p c then lstrip_by p s' else s
  end.

Fixpoint rstrip_by (p : ascii -> bool) (s : string) : string :=
  match s with
  | EmptyString => EmptyString
  | String c s' =>
      match rstrip_by p s' with
      | EmptyString => if p c then EmptyString else String c EmptyString
      | r => String c r
      end
  end.

Definition strip_by (p : ascii -> bool) (s : string) : string :=
  rstrip_by p (lstrip_by p s).

(** [s.strip()] *)
Definition strip (s : string) : string := strip_by isspace s.

Definition is_underscore (c : ascii) : bool := Ascii.eqb c "_"%char.

(** [s.strip("_")] *)
Definition strip_underscores (s : string) : string := strip_by is_underscore s.

(** The character class [[a-z0-9_]]. *)
Definition word_char (c : ascii) : bool :=
  let n := nat_of_ascii c in
  ((97 <=? n) && (n <=? 122)) || ((48 <=? n) && (n <=? 57)) || (n =? 95).

(** [re.sub(r"[^a-z0-9_]", "_", s)] *)
Fixpoint sub_nonword (s : string) : string :=
  match s with
  | EmptyString => EmptyString
  | String c s' => String (if word_char c then c else "_"%char) (sub_nonword s')
  end.

(** [re.sub(r"_+", "_", s)]: an underscore followed by an underscore is
    dropped, so each run keeps its last one. *)
Fixpoint sub_underscore_runs (s : string) : string :=
  match s with
  | EmptyString => EmptyString
  | String c s' =>
      match s' with
      | EmptyString => s
      | String c' _ =>
          if is_underscore c && is_underscore c'
          then sub_underscore_runs s'
          else String c (sub_underscore_runs s')
      end
  end.

Fixpoint all_chars (p : ascii -> bool) (s : string) : bool :=
  match s with
  | EmptyString => true
  | String c s' => p c && all_chars p s'
  end.

(** [s.startswith(pre)] *)
Fixpoint startswith (pre s : string) : bool :=
  match pre, s with
  | EmptyString, _ => true
  | String a pre', String b s' => Ascii.eqb a b && startswith pre' s'
  | String _ _, EmptyString => false
  end.

(** [s.endswith(suf)] *)
Fixpoint endswith (suf s : string) : bool :=
  String.eqb suf s
  || match s with
     | EmptyString => false
     | String _ s' => endswith suf s'
     end.

(** [pat in s] *)
Fixpoint contains (pat s : string) : bool :=
  startswith pat s
  || match s with
     | EmptyString => false
     | String _ s' => contains pat s'
     end.

(** [re.fullmatch(r"[a-z0-9_]+", s)] *)
Definition is_identifier_token (s : string) : bool :=
  negb (String.eqb s ""%string) && all_chars word_char s.

(** The first character satisfies [p]; the last one does. *)
Definition head_is (p : ascii -> bool) (s : string) : bool :=
  match s with
  | String c _ => p c
  | EmptyString => false
  end.

Fixpoint last_is (p : ascii -> bool) (s : string) : bool :=
  match s with
  | EmptyString => false
  | String c EmptyString => p c
  | String _ s' => last_is p s'
  end.

(** Two underscores stand side by side. *)
Fixpoint double_underscore (s : string) : bool :=
  match s with
  | EmptyString => false
  | String c s' =>
      (is_underscore c && head_is is_underscore s') || double_underscore s'
  end.

(** No whitespace at either end. *)
Definition trimmed (s : string) : bool :=
  negb (head_is isspace s) && negb (last_is isspace s).

End PyStr.

(* ================================================================== *)
(** * Cells, columns and DataFrames *)
(* ================================================================== *)

(** A pandas Timestamp: calendar date and the nanoseconds elapsed in that
    day.  Timestamps are ordered field by field. *)
Record Timestamp : Type := mkTimestamp
  { ts_year : Z; ts_month : Z; ts_day : Z; ts_nanos : Z }.

(** A cell.  [NA] is NaN, None and NaT; [Obj] is a Python object that is not
    a [str], given by its [str()]. *)
Inductive value : Type :=
| NA
| Num (q : Q)
| Inf (negative : bool)
| Str (s : string)
| Obj (repr : string)
| Ts (t : Timestamp).

Inductive dtype : Type :=
| Int8 | Int16 | Int32 | Int64
| Float32 | Float64
| Bool
| Object
| Datetime (tz_aware : bool).

Record column : Type := mkColumn
  { label : string; col_dtype : dtype; cells : list value }.

Definition DataFrame : Type := list column.

Definition dtype_eqb (a b : dtype) : bool :=
  match a, b with
  | Int8, Int8 | Int16, Int16 | Int32, Int32 | Int64, Int64
  | Float32, Float32 | Float64, Float64 | Bool, Bool | Object, Object => true
  | Datetime x, Datetime y => Bool.eqb x y
  | _, _ => false
  end.

(** [pd.api.types.is_numeric_dtype]: integers, floats and bool. *)
Definition is_numeric_dtype (d : dtype) : bool :=
  match d with
  | Int8 | Int16 | Int32 | Int64 | Float32 | Float64 | Bool => true
  | Object | Datetime _ => false
  end.

(** [pd.api.types.is_datetime64_any_dtype] *)
Definition is_datetime64_any_dtype (d : dtype) : bool :=
  match d with Datetime _ => true | _ => false end.

(** Membership in [select_dtypes(include=[np.number])]: bool is excluded. *)
Definition is_np_number (d : dtype) : bool :=
  match d with
  | Int8 | Int16 | Int32 | Int64 | Float32 | Float64 => true
  | _ => false
  end.

Definition is_object (d : dtype) : bool :=
  match d with Object => true | _ => false end.

Definition isna (v : value) : bool :=
  match v with NA => true | _ => false end.

Definition notna (v : value) : bool := negb (isna v).

Definition is_inf (v : value) : bool :=
  match v with Inf _ => true | _ => false end.

(** [df.columns] *)
Definition df_columns (df : DataFrame) : list string := map label df.

(** [len(df)] *)
Definition df_len (df : DataFrame) : nat :=
  match df with
  | [] => 0
  | c :: _ => List.length (cells c)
  end.

(** Every column has one cell per row. *)
Definition rectangular (df : DataFrame) : Prop :=
  Forall (fun c => List.length (cells c) = df_len df) df.

(** [df[col]] for a label that is present. *)
Definition df_get (df : DataFrame) (col : string) : option column :=
  find (fun c => String.eqb (label c) col) df.

(** The cells of [df[col]]; an absent label has no cells. *)
Definition df_cells (df : DataFrame) (col : string) : list value :=
  match df_get df col with
  | Some c => cells c
  | None => []
  end.

Definition df_dtype (df : DataFrame) (col : string) : dtype :=
  match df_get df col with
  | Some c => col_dtype c
  | None => Object
  end.

Definition has_column (df : DataFrame) (col : string) : bool :=
  existsb (fun c => String.eqb (label c) col) df.

(** [df[col] = series]: overwrite in place, or append a new last column. *)
Fixpoint df_set (df : DataFrame) (col : string) (d : dtype) (vs : list value)
  : DataFrame :=
  match df with
  | [] => [mkColumn col d vs]
  | c :: rest =>
      if String.eqb (label c) col
      then mkColumn col d vs :: rest
      else c :: df_set rest col d vs
  end.

(** [df.select_dtypes(include=...).columns.tolist()] *)
Definition select_dtypes (include : dtype -> bool) (df : DataFrame)
  : list string :=
  map label (filter (fun c => include (col_dtype c)) df).

(** Boolean indexing of a series, [s[mask]]. *)
Fixpoint select_mask {A : Type} (mask : list bool) (xs : list A) : list A :=
  match mask, xs with
  | m :: mask', x :: xs' =>
      if m then x :: select_mask mask' xs' else select_mask mask' xs'
  | _, _ => []
  end.

(** Keep the rows of [df] selected by [mask] (and reset the index). *)
Definition df_filter_rows (mask : list bool) (df : DataFrame) : DataFrame :=
  map (fun c => mkColumn (label c) (col_dtype c) (select_mask mask (cells c))) df.

(** The rows of a frame, each a list with one cell per column. *)
Fixpoint df_rows_aux (n : nat) (df : DataFrame) : list (list value) :=
  match n with
  | O => []
  | S n' =>
      map (fun c => hd NA (cells c)) df
      :: df_rows_aux n'
           (map (fun c => mkColumn (label c) (col_dtype c) (tl (cells c))) df)
  end.

Definition df_rows (df : DataFrame) : list (list value) :=
  df_rows_aux (df_len df) df.

(** Dictionaries, in insertion order: [d[k] = v] and [d.get(k)]. *)
Fixpoint dict_set {V : Type} (d : list (string * V)) (k : string) (v : V)
  : list (string * V) :=
  match d with
  | [] => [(k, v)]
  | (k', v') :: rest =>
      if String.eqb k' k then (k, v) :: rest else (k', v') :: dict_set rest k v
  end.

Fixpoint dict_get {V : Type} (d : list (string * V)) (k : string) : option V :=
  match d with
  | [] => None
  | (k', v) :: rest => if String.eqb k' k then Some v else dict_get rest k
  end.

(** The place of a label in a list of labels (its length when absent). *)
Fixpoint position (col : string) (cols : list string) : nat :=
  match cols with
  | [] => 0
  | c :: rest => if String.eqb c col then 0 else S (position col rest)
  end.

(* ================================================================== *)
(** * Numbers *)
(* ================================================================== *)

Module Float.

Definition of_nat (n : nat) : value := Num (inject_Z (Z.of_nat n)).
Definition of_Z (z : Z) : value := Num (inject_Z z).

Definition qzero (q : Q) : bool := Qeq_bool q 0%Q.
Definition qneg (q : Q) : bool := negb (Qle_bool 0%Q q).

(** Round half to even to an integer. *)
Definition round_half_even (q : Q) : Z :=
  let f := Qfloor q in
  let d := (q - inject_Z f)%Q in
  match Qcompare d (1 # 2) with
  | Lt => f
  | Gt => (f + 1)%Z
  | Eq => if Z.even f then f else (f + 1)%Z
  end.

(** [2 ** k] for an integer [k] of either sign. *)
Definition pow2 (k : Z) : Q :=
  if (0 <=? k)%Z then inject_Z (2 ^ k)
  else (1 # Pos.pow 2 (Z.to_pos (- k)))%Q.

(** The exponent [e] with [2 ** e <= q < 2 ** (e + 1)], for [q > 0]. *)
Definition exponent (q : Q) : Z :=
  let e := (Z.log2 (Qnum q) - Z.log2 (Zpos (Qden q)))%Z in
  if Qle_bool (pow2 e) q then e else (e - 1)%Z.

(** The float64 nearest to [q]: 53 significant bits, ties to the even
    mantissa, gradual underflow below [2 ** -1022], and an infinity when
    the rounded magnitude reaches [2 ** 1024].  Every arithmetic result
    below goes through it, as IEEE 754 prescribes for [+ - * /]. *)
Definition binary64 (q : Q) : value :=
  if qzero q then Num 0%Q
  else
    let a := Qabs q in
    let ulp := pow2 (Z.max (exponent a - 52) (-1074)) in
    let r := (inject_Z (round_half_even (a / ulp)) * ulp)%Q in
    if Qle_bool (pow2 1024) r then Inf (qneg q)
    else Num (Qred (if qneg q then - r else r)).

Definition neg (a : value) : value :=
  match a with
  | Num x => Num (Qred (- x)%Q)
  | Inf s => Inf (negb s)
  | _ => NA
  end.

Definition add (a b : value) : value :=
  match a, b with
  | Num x, Num y => binary64 (x + y)
  | Inf s, Num _ | Num _, Inf s => Inf s
  | Inf s, Inf t => if Bool.eqb s t then Inf s else NA
  | _, _ => NA
  end.

Definition sub (a b : value) : value := add a (neg b).

Definition mul (a b : value) : value :=
  match a, b with
  | Num x, Num y => binary64 (x * y)
  | Inf s, Num y | Num y, Inf s =>
      if qzero y then NA else Inf (xorb s (qneg y))
  | Inf s, Inf t => Inf (xorb s t)
  | _, _ => NA
  end.

(** True division; a finite non-zero number over zero is an infinity, and
    so is a quotient too large for a float64. *)
Definition div (a b : value) : value :=
  match a, b with
  | Num x, Num y =>
      if qzero y then (if qzero x then NA else Inf (qneg x))
      else binary64 (x / y)
  | Num _, Inf _ => Num 0%Q
  | Inf s, Num y => Inf (xorb s (qneg y))
  | _, _ => NA
  end.

(** [a < b], false as soon as one side is NaN or not a number. *)
Definition ltb (a b : value) : bool :=
  match a, b with
  | Num x, Num y => negb (Qle_bool y x)
  | Inf true, Num _ | Num _, Inf false | Inf true, Inf false => true
  | _, _ => false
  end.

Definition gtb (a b : value) : bool := ltb b a.

(** [a == b] on numbers. *)
Definition eqb (a b : value) : bool :=
  match a, b with
  | Num x, Num y => Qeq_bool x y
  | Inf s, Inf t => Bool.eqb s t
  | _, _ => false
  end.

(** [a <= b] *)
Definition leb (a b : value) : bool := ltb a b || eqb a b.

(** [abs(a)] *)
Definition abs (a : value) : value :=
  match a with
  | Num x => Num (Qred (Qabs x))
  | Inf _ => Inf false
  | _ => NA
  end.

(** [round(x, digits)] on a float: the exact value of [x] is rounded half
    to even at [10 ** -digits], and the float64 nearest to that decimal is
    returned. *)
Definition round (digits : nat) (a : value) : value :=
  match a with
  | Num x =>
      let scale := inject_Z (10 ^ Z.of_nat digits) in
      binary64 (inject_Z (round_half_even (x * scale)%Q) / scale)
  | other => other
  end.

End Float.

(* ================================================================== *)
(** * Series operations *)
(* ================================================================== *)

(** A stable insertion sort; [list.sort] and pandas' sorts are modelled by
    it. *)
Fixpoint insert_by {A : Type} (le : A -> A -> bool) (x : A) (l : list A)
  : list A :=
  match l with
  | [] => [x]
  | y :: l' => if le x y then x :: l else y :: insert_by le x l'
  end.

Definition sort_by {A : Type} (le : A -> A -> bool) (l : list A) : list A :=
  fold_right (insert_by le) [] l.

Definition timestamp_leb (a b : Timestamp) : bool :=
  match (ts_year a ?= ts_year b)%Z with
  | Lt => true | Gt => false
  | Eq =>
    match (ts_month a ?= ts_month b)%Z with
    | Lt => true | Gt => false
    | Eq =>
      match (ts_day a ?= ts_day b)%Z with
      | Lt => true | Gt => false
      | Eq => (ts_nanos a <=? ts_nanos b)%Z
      end
    end
  end.

Definition timestamp_eqb (a b : Timestamp) : bool :=
  (ts_year a =? ts_year b)%Z && (ts_month a =? ts_month b)%Z
  && (ts_day a =? ts_day b)%Z && (ts_nanos a =? ts_nanos b)%Z.

(** Equality of cells as [duplicated] and [value_counts] see it: missing
    equals missing. *)
Definition value_eqb (a b : value) : bool :=
  match a, b with
  | NA, NA => true
  | Num x, Num y => Qeq_bool x y
  | Inf s, Inf t => Bool.eqb s t
  | Str s, Str t => String.eqb s t
  | Obj s, Obj t => String.eqb s t
  | Ts s, Ts t => timestamp_eqb s t
  | _, _ => false
  end.

Definition value_rank (a : value) : nat :=
  match a with
  | Inf true => 0 | Num _ => 1 | Inf false => 2
  | Ts _ => 3 | Str _ => 4 | Obj _ => 5 | NA => 6
  end.

(** The order used to sort the values of one column: numbers by size,
    timestamps by time, strings by code points. *)
Definition value_leb (a b : value) : bool :=
  match a, b with
  | Num x, Num y => Qle_bool x y
  | Ts s, Ts t => timestamp_leb s t
  | Str s, Str t => String.leb s t
  | Obj s, Obj t => String.leb s t
  | _, _ => value_rank a <=? value_rank b
  end.

Fixpoint list_eqb {A : Type} (eqb : A -> A -> bool) (l1 l2 : list A) : bool :=
  match l1, l2 with
  | [], [] => true
  | x :: l1', y :: l2' => eqb x y && list_eqb eqb l1' l2'
  | _, _ => false
  end.

Module Series.

(** [s.dropna()] *)
Definition dropna (xs : list value) : list value := filter notna xs.

(** [int(s.isna().sum())] *)
Definition count_na (xs : list value) : nat := List.length (filter isna xs).

(** [s.fillna(fill)]; filling with NaN changes nothing. *)
Definition fillna (fill : value) (xs : list value) : list value :=
  map (fun v => if isna v then fill else v) xs.

(** [s.ffill()]: a leading gap stays missing. *)
Fixpoint ffill_from (last : value) (xs : list value) : list value :=
  match xs with
  | [] => []
  | v :: xs' =>
      if isna v then last :: ffill_from last xs'
      else v :: ffill_from v xs'
  end.

Definition ffill (xs : list value) : list value := ffill_from NA xs.

(** [s.sum()], the cells added from left to right. *)
Definition sum (xs : list value) : value :=
  fold_left Float.add xs (Num 0%Q).

(** [s.mean()], missing values skipped; NaN when nothing is left. *)
Definition mean (xs : list value) : value :=
  let ys := dropna xs in
  Float.div (sum ys) (Float.of_nat (List.length ys)).

Definition sorted_values (xs : list value) : list value :=
  sort_by value_leb (dropna xs).

(** [s.median()] *)
Definition median (xs : list value) : value :=
  let ys := sorted_values xs in
  let n := List.length ys in
  match n with
  | O => NA
  | _ =>
      if Nat.even n
      then Float.div (Float.add (nth (n / 2 - 1) ys NA) (nth (n / 2) ys NA))
                     (Num 2%Q)
      else nth (n / 2) ys NA
  end.

(** [s.quantile(q)], linear interpolation between the two closest ranks by
    numpy's two-sided formula: [a + (b - a) * t] for a fraction [t] under
    one half and [b - (b - a) * (1 - t)] from there on, each operation
    rounded.  The rank [q * (n - 1)] is exact for the quartiles. *)
Definition quantile (q : Q) (xs : list value) : value :=
  let ys := sorted_values xs in
  let n := List.length ys in
  match n with
  | O => NA
  | S m =>
      let pos := (q * inject_Z (Z.of_nat m))%Q in
      let lo := Z.to_nat (Qfloor pos) in
      let hi := Nat.min (lo + 1) m in
      let frac := Qred (pos - inject_Z (Qfloor pos))%Q in
      let a := nth lo ys NA in
      let b := nth hi ys NA in
      let d := Float.sub b a in
      if Qle_bool (1 # 2) frac
      then Float.sub b (Float.mul d (Num (Qred (1 - frac)%Q)))
      else Float.add a (Float.mul d (Num frac))
  end.

(** [s.min()] and [s.max()] *)
Definition min (xs : list value) : value := hd NA (sorted_values xs).
Definition max (xs : list value) : value := last (sorted_values xs) NA.

Definition count_occ_value (v : value) (xs : list value) : nat :=
  List.length (filter (value_eqb v) xs).

(** The distinct values of a list, in order of first appearance. *)
Fixpoint unique (xs : list value) : list value :=
  match xs with
  | [] => []
  | v :: xs' => v :: filter (fun w => negb (value_eqb v w)) (unique xs')
  end.

(** [s.value_counts()]: distinct non-missing values with their counts, most
    frequent first, ties in order of first appearance. *)
Definition value_counts (xs : list value) : list (value * nat) :=
  let ys := dropna xs in
  sort_by (fun a b => snd b <=? snd a)
          (map (fun v => (v, count_occ_value v ys)) (unique ys)).

(** [s.nunique()] *)
Definition nunique (xs : list value) : nat := List.length (unique (dropna xs)).

(** [s.mode()]: the most frequent values, sorted. *)
Definition mode (xs : list value) : list value :=
  let vc := value_counts xs in
  match vc with
  | [] => []
  | (_, top) :: _ =>
      sort_by value_leb (map fst (filter (fun p => snd p =? top) vc))
  end.

(** [df.duplicated()] over rows: true at a row equal to an earlier one. *)
Fixpoint duplicated_from (seen : list (list value)) (rows : list (list value))
  : list bool :=
  match rows with
  | [] => []
  | r :: rows' =>
      existsb (list_eqb value_eqb r) seen :: duplicated_from (r :: seen) rows'
  end.

Definition duplicated (rows : list (list value)) : list bool :=
  duplicated_from [] rows.

End Series.

(* ================================================================== *)
(** * Library routines taken as given *)
(* ================================================================== *)

(** pandas routines the pipeline calls whose results are not rational
    functions of the cells or depend on the whole series. *)
Class Pandas : Type := {
  (** [Series.skew()] *)
  series_skew : list value -> value;
  (** [pd.to_datetime(series, errors="coerce", infer_datetime_format=True)]:
      whether the result is timezone-aware and its cells, or [None] when the
      call raises. *)
  to_datetime : list value -> option (bool * list value);
  (** [pd.to_numeric(series, downcast="float")] on a float64 series. *)
  downcast_float : list value -> dtype * list value;
  (** [str(v)] for a cell of an object column that is a number or a
      timestamp. *)
  str_of_scalar : value -> string
}.

(** An implementation of [Pandas] in which skewness is undefined, no text
    parses as a date, and narrowing a float column only changes its dtype;
    concrete runs of the pipeline that never reach these routines use it. *)
Definition plain_pandas : Pandas :=
  {| series_skew := fun _ => NA;
     to_datetime := fun _ => None;
     downcast_float := fun vs => (Float32, vs);
     str_of_scalar := fun _ => "" |}.

(** config.py *)
Module config.
Definition SKEWNESS_THRESHOLD : Q := 1%Q.
Definition IQR_MULTIPLIER : Q := (3 # 2)%Q.
Definition DATETIME_MISSING_DROP_PCT : Q := 5%Q.
Definition TOP_N_CATEGORIES : nat := 10.
Definition MAX_PIE_CATEGORIES : nat := 7.
Definition CORRELATION_SIGNIFICANCE : Q := (5 # 100)%Q.
End config.

(* ================================================================== *)
(** * etl.py *)
(* ================================================================== *)

Inductive fill_strategy : Type :=
| median_skewed   (* "median (skewed)" *)
| mean_fill       (* "mean" *)
| mode_fill.      (* "mode" *)

(** One entry of [ETLPipeline.transformations].  Each constructor stands for
    one f-string of etl.py and carries the values formatted into it. *)
Inductive Transformation : Type :=
| standardized_column_names (renamed : nat)
| trimmed_string_fields (n_columns : nat)
| removed_duplicates (rows : nat)
| filled_missing (col : string) (strategy : fill_strategy) (n_values : nat)
| dropped_missing_datetime (col : string) (rows : nat) (pct : Q)
| forward_filled_datetime (col : string) (n_values : nat)
| converted_to_datetime (cols : list string)
| detected_outliers (total : nat) (n_columns : nat)
| optimized_dtypes
| extracted_date_parts_from (col : string)
| created_price_per_unit
| replaced_infinities (n : nat)
| dropped_all_null_columns (cols : list string).

(** The state of an [ETLPipeline] object ([original_memory] is a byte count
    of the in-memory layout and only feeds [get_summary]; it is left out). *)
Record ETLPipeline : Type := mkETL
  { df : DataFrame;
    transformations : list Transformation;
    outlier_counts : list (string * nat) }.

(** [ETLPipeline(df)] *)
Definition init (input : DataFrame) : ETLPipeline := mkETL input [] [].

Definition with_df (p : ETLPipeline) (d : DataFrame) : ETLPipeline :=
  mkETL d (transformations p) (outlier_counts p).

(** [self.transformations.append(t)] *)
Definition log (p : ETLPipeline) (t : Transformation) : ETLPipeline :=
  mkETL (df p) (transformations p ++ [t]) (outlier_counts p).

Section Pipeline.
Context {pandas : Pandas}.

(* ---------------- Step 1: column name standardisation ------------- *)

Definition standardize_name (col : string) : string :=
  let new := PyStr.lower (PyStr.strip col) in
  let new := PyStr.sub_nonword new in
  PyStr.strip_underscores (PyStr.sub_underscore_runs new).

(** [new != col] *)
Definition renamed (col : string) : bool :=
  negb (String.eqb (standardize_name col) col).

Definition build_rename_map (cols : list string) : list (string * string) :=
  fold_left
    (fun rename_map col =>
       let new := standardize_name col in
       if negb (String.eqb new col) then dict_set rename_map col new
       else rename_map)
    cols [].

(** [df.rename(columns=rename_map)] *)
Definition df_rename (rename_map : list (string * string)) (d : DataFrame)
  : DataFrame :=
  map (fun c =>
         match dict_get rename_map (label c) with
         | Some new => mkColumn new (col_dtype c) (cells c)
         | None => c
         end) d.

Definition standardize_columns (p : ETLPipeline) : ETLPipeline :=
  let rename_map := build_rename_map (df_columns (df p)) in
  match rename_map with
  | [] => p
  | _ =>
      log (with_df p (df_rename rename_map (df p)))
          (standardized_column_names (List.length rename_map))
  end.

(* ---------------- Step 2: trim string fields ---------------------- *)

(** [str(v)] for a cell of an object column. *)
Definition py_str (v : value) : string :=
  match v with
  | NA => "nan"%string
  | Str s => s
  | Obj r => r
  | other => str_of_scalar other
  end.

(** [.replace({"nan": np.nan, "None": np.nan, "": np.nan})] on one cell. *)
Definition replace_null_strings (s : string) : value :=
  if String.eqb s "nan" || String.eqb s "None" || String.eqb s ""
  then NA else Str s.

Definition trim_cell (v : value) : value :=
  replace_null_strings (PyStr.strip (py_str v)).

(** The dtype pandas gives the replaced series: an object series left with
    nothing but NaN is converted to float64. *)
Definition replaced_dtype (vs : list value) : dtype :=
  match vs with
  | [] => Object
  | _ => if forallb isna vs then Float64 else Object
  end.

Definition trim_column (d : DataFrame) (col : string) : DataFrame :=
  let vs := map trim_cell (df_cells d col) in
  df_set d col (replaced_dtype vs) vs.

(** What the two assignments of the loop body make of one column. *)
Definition trim_col (c : column) : column :=
  let vs := map trim_cell (cells c) in
  mkColumn (label c) (replaced_dtype vs) vs.

Definition trim_strings (p : ETLPipeline) : ETLPipeline :=
  let obj_cols := select_dtypes is_object (df p) in
  let p' := with_df p (fold_left trim_column obj_cols (df p)) in
  match obj_cols with
  | [] => p'
  | _ => log p' (trimmed_string_fields (List.length obj_cols))
  end.

(* ---------------- Step 3: remove duplicates ----------------------- *)

(** [df.drop_duplicates()] then [reset_index(drop=True)] *)
Definition drop_duplicates (d : DataFrame) : DataFrame :=
  df_filter_rows (map negb (Series.duplicated (df_rows d))) d.

Definition remove_duplicates (p : ETLPipeline) : ETLPipeline :=
  let before := df_len (df p) in
  let p' := with_df p (drop_duplicates (df p)) in
  let removed := before - df_len (df p') in
  if 0 <? removed then log p' (removed_duplicates removed) else p'.

(* ---------------- Step 4: handle missing values ------------------- *)

(** [missing / len(df) * 100] *)
Definition percent (missing total : nat) : value :=
  Float.mul (Float.div (Float.of_nat missing) (Float.of_nat total))
            (Num 100%Q).

Definition pct_of (v : value) : Q :=
  match v with Num q => q | _ => 0%Q end.

Definition handle_missing_column (p : ETLPipeline) (col : string)
  : ETLPipeline :=
  let s := df_cells (df p) col in
  let missing := Series.count_na s in
  if missing =? 0 then p
  else
    let dt := df_dtype (df p) col in
    if is_numeric_dtype dt then
      let skew_val := series_skew s in
      let '(fill, strategy) :=
        if Float.gtb (Float.abs skew_val) (Num config.SKEWNESS_THRESHOLD)
        then (Series.median s, median_skewed)
        else (Series.mean s, mean_fill) in
      log (with_df p (df_set (df p) col dt (Series.fillna fill s)))
          (filled_missing col strategy missing)
    else if is_datetime64_any_dtype dt then
      let pct_missing := percent missing (df_len (df p)) in
      if Float.ltb pct_missing (Num config.DATETIME_MISSING_DROP_PCT) then
        log (with_df p (df_filter_rows (map notna s) (df p)))
            (dropped_missing_datetime col missing (pct_of pct_missing))
      else
        log (with_df p (df_set (df p) col dt (Series.ffill s)))
            (forward_filled_datetime col missing)
    else
      match Series.mode s with
      | [] => p
      | mode_val :: _ =>
          log (with_df p (df_set (df p) col dt (Series.fillna mode_val s)))
              (filled_missing col mode_fill missing)
      end.

Definition handle_missing_values (p : ETLPipeline) : ETLPipeline :=
  fold_left handle_missing_column (df_columns (df p)) p.

(* ---------------- Step 5: convert date-like columns --------------- *)

(** [parsed.notna().sum() / len(sample) > 0.6] *)
Definition ratio_exceeds (parsed : list value) (sample : list value) : bool :=
  Float.gtb (Float.div (Float.of_nat (List.length (filter notna parsed)))
                       (Float.of_nat (List.length sample)))
            (Num (6 # 10)).

(** One iteration of the loop; the state is the frame and [converted]. *)
Definition convert_dates_column (st : DataFrame * list string) (col : string)
  : DataFrame * list string :=
  let '(d, converted) := st in
  let sample := firstn 50 (Series.dropna (df_cells d col)) in
  match sample with
  | [] => st
  | _ =>
      match to_datetime sample with
      | None => st
      | Some (_, parsed) =>
          if ratio_exceeds parsed sample then
            match to_datetime (df_cells d col) with
            | None => st
            | Some (tz, vs) => (df_set d col (Datetime tz) vs, converted ++ [col])
            end
          else st
      end
  end.

Definition convert_dates (p : ETLPipeline) : ETLPipeline :=
  let obj_cols := select_dtypes is_object (df p) in
  let '(d, converted) := fold_left convert_dates_column obj_cols (df p, []) in
  match converted with
  | [] => with_df p d
  | _ => log (with_df p d) (converted_to_datetime converted)
  end.

(* ---------------- Step 6: outlier detection (IQR) ---------------- *)

Definition count_true (mask : list bool) : nat :=
  List.length (filter (fun b => b) mask).

(** [mask.astype(int)] *)
Definition mask_to_int (mask : list bool) : list value :=
  map (fun b : bool => if b then Num 1%Q else Num 0%Q) mask.

Definition outlier_mask (s : list value) (lower upper : value) : list bool :=
  map (fun v => Float.ltb v lower || Float.gtb v upper) s.

Definition detect_outliers_column (p : ETLPipeline) (col : string)
  : ETLPipeline :=
  let s := df_cells (df p) col in
  let q1 := Series.quantile (1 # 4) s in
  let q3 := Series.quantile (3 # 4) s in
  let iqr := Float.sub q3 q1 in
  if Float.eqb iqr (Num 0%Q) then p
  else
    let lower := Float.sub q1 (Float.mul (Num config.IQR_MULTIPLIER) iqr) in
    let upper := Float.add q3 (Float.mul (Num config.IQR_MULTIPLIER) iqr) in
    let mask := outlier_mask s lower upper in
    let count := count_true mask in
    if 0 <? count then
      mkETL (df_set (df p) ("is_outlier_" ++ col)%string Int64 (mask_to_int mask))
            (transformations p)
            (dict_set (outlier_counts p) col count)
    else p.

Definition detect_outliers (p : ETLPipeline) : ETLPipeline :=
  let num_cols := select_dtypes is_np_number (df p) in
  let p' := fold_left detect_outliers_column num_cols p in
  match outlier_counts p' with
  | [] => p'
  | counts =>
      log p' (detected_outliers (list_sum (map snd counts)) (List.length counts))
  end.

(* ---------------- Step 7: dtype optimisation ---------------------- *)

Definition itemsize (d : dtype) : nat :=
  match d with
  | Int8 | Bool => 1
  | Int16 => 2
  | Int32 | Float32 => 4
  | Int64 | Float64 | Object | Datetime _ => 8
  end.

Definition int_range (d : dtype) : Z * Z :=
  match d with
  | Int8 => (-128, 127)%Z
  | Int16 => (-32768, 32767)%Z
  | Int32 => (-2147483648, 2147483647)%Z
  | _ => (-9223372036854775808, 9223372036854775807)%Z
  end.

Definition fits_in (d : dtype) (vs : list value) : bool :=
  let '(lo, hi) := int_range d in
  forallb (fun v =>
             match v with
             | Num q => Qle_bool (inject_Z lo) q && Qle_bool q (inject_Z hi)
             | _ => false
             end) vs.

(** [pd.to_numeric(series, downcast="integer")]: the first of int8, int16,
    int32, int64 that is no wider than the current dtype and holds every
    value. *)
Definition downcast_integer (cur : dtype) (vs : list value) : dtype :=
  match
    find (fun d => (itemsize d <=? itemsize cur) && fits_in d vs)
         [Int8; Int16; Int32; Int64]
  with
  | Some d => d
  | None => cur
  end.

Definition is_int64_or_int32 (d : dtype) : bool :=
  match d with Int64 | Int32 => true | _ => false end.

Definition is_float64 (d : dtype) : bool :=
  match d with Float64 => true | _ => false end.

Definition optimize_dtypes (p : ETLPipeline) : ETLPipeline :=
  let d1 :=
    fold_left
      (fun d col =>
         let s := df_cells d col in
         df_set d col (downcast_integer (df_dtype d col) s) s)
      (select_dtypes is_int64_or_int32 (df p)) (df p) in
  let d2 :=
    fold_left
      (fun d col =>
         if negb (PyStr.startswith "is_outlier_" col) then
           let '(dt, vs) := downcast_float (df_cells d col) in
           df_set d col dt vs
         else d)
      (select_dtypes is_float64 d1) d1 in
  log (with_df p d2) optimized_dtypes.

(* ---------------- Step 8: feature engineering --------------------- *)

(** [series.dt.year] and its siblings: integers, or floats with NaN where
    the timestamp is missing. *)
Definition date_part (part : Timestamp -> Z) (s : list value) : list value :=
  map (fun v => match v with Ts t => Float.of_Z (part t) | _ => NA end) s.

Definition date_part_dtype (s : list value) : dtype :=
  if existsb isna s then Float64 else Int64.

Definition extract_date_parts (p : ETLPipeline) (col : string) : ETLPipeline :=
  let set_part (suffix : string) (part : Timestamp -> Z) (d : DataFrame) :=
    let s := df_cells d col in
    df_set d (col ++ suffix)%string (date_part_dtype s) (date_part part s) in
  let d := set_part "_year" ts_year (df p) in
  let d := set_part "_month" ts_month d in
  let d := set_part "_day" ts_day d in
  log (with_df p d) (extracted_date_parts_from col).

(** [{c.lower(): c for c in df.columns}] *)
Definition cols_lower (d : DataFrame) : list (string * string) :=
  fold_left (fun m c => dict_set m (PyStr.lower c) c) (df_columns d) [].

Definition truthy (o : option string) : bool :=
  match o with
  | Some s => negb (String.eqb s "")
  | None => false
  end.

(** Python's [a or b] on the results of [dict.get]. *)
Definition py_or (a b : option string) : option string :=
  if truthy a then a else b.

(** [df.loc[mask, col] = new]: rows outside the mask keep what they had. *)
Fixpoint loc_assign (mask : list bool) (new old : list value) : list value :=
  match mask, new, old with
  | m :: mask', n :: new', o :: old' =>
      (if m then n else o) :: loc_assign mask' new' old'
  | _, _, _ => []
  end.

Definition loc_dtype (d : DataFrame) (col : string) : dtype :=
  if has_column d col then
    match df_dtype d col with
    | Float32 => Float32
    | Object => Object
    | _ => Float64
    end
  else Float64.

Definition price_per_unit (p : ETLPipeline) : ETLPipeline :=
  let lower := cols_lower (df p) in
  let price_col := py_or (dict_get lower "price") (dict_get lower "total_price") in
  let qty_col := py_or (dict_get lower "quantity") (dict_get lower "qty") in
  match price_col, qty_col with
  | Some pc, Some qc =>
      if truthy price_col && truthy qty_col
         && is_numeric_dtype (df_dtype (df p) pc)
         && is_numeric_dtype (df_dtype (df p) qc)
      then
        let price := df_cells (df p) pc in
        let qty := df_cells (df p) qc in
        let mask := map (fun v => negb (Float.eqb v (Num 0%Q))) qty in
        let old :=
          if has_column (df p) "price_per_unit"
          then df_cells (df p) "price_per_unit"
          else repeat NA (df_len (df p)) in
        let new := map (fun pq => Float.div (fst pq) (snd pq)) (combine price qty) in
        log (with_df p (df_set (df p) "price_per_unit"
                               (loc_dtype (df p) "price_per_unit")
                               (loc_assign mask new old)))
            created_price_per_unit
      else p
  | _, _ => p
  end.

Definition is_datetime64_naive (d : dtype) : bool :=
  match d with Datetime false => true | _ => false end.

Definition feature_engineering (p : ETLPipeline) : ETLPipeline :=
  let dt_cols := select_dtypes is_datetime64_naive (df p) in
  price_per_unit (fold_left extract_date_parts dt_cols p).

(* ---------------- Step 9: final validation ------------------------ *)

Definition count_inf (d : DataFrame) : nat :=
  list_sum
    (map (fun c => List.length (filter is_inf (cells c)))
         (filter (fun c => is_np_number (col_dtype c)) d)).

(** [df.replace([np.inf, -np.inf], np.nan)] *)
Definition replace_inf (d : DataFrame) : DataFrame :=
  map (fun c =>
         mkColumn (label c) (col_dtype c)
                  (map (fun v => if is_inf v then NA else v) (cells c))) d.

Definition all_null (c : column) : bool := forallb isna (cells c).

Definition validate_output (p : ETLPipeline) : ETLPipeline :=
  let inf_count := count_inf (df p) in
  let p1 :=
    if 0 <? inf_count
    then log (with_df p (replace_inf (df p))) (replaced_infinities inf_count)
    else p in
  let null_cols := map label (filter all_null (df p1)) in
  match null_cols with
  | [] => p1
  | _ =>
      log (with_df p1 (filter (fun c => negb (existsb (String.eqb (label c)) null_cols))
                              (df p1)))
          (dropped_all_null_columns null_cols)
  end.

(* ---------------- Run full pipeline ------------------------------- *)

Definition run (p : ETLPipeline) : ETLPipeline :=
  let p := standardize_columns p in
  let p := trim_strings p in
  let p := remove_duplicates p in
  let p := handle_missing_values p in
  let p := convert_dates p in
  let p := detect_outliers p in
  let p := optimize_dtypes p in
  let p := feature_engineering p in
  validate_output p.

End Pipeline.

(* ================================================================== *)
(** * The DataFrame object as mutable state *)
(* ================================================================== *)

(** A computation of insights.py: it runs against the DataFrame object it
    was handed, may raise ([None]), and leaves the object in some state. *)
Module Py.

Definition M (A : Type) : Type := DataFrame -> option A * DataFrame.

Definition ret {A : Type} (a : A) : M A := fun d => (Some a, d).

Definition raise {A : Type} : M A := fun d => (None, d).

Definition bind {A B : Type} (m : M A) (f : A -> M B) : M B :=
  fun d =>
    match m d with
    | (Some a, d') => f a d'
    | (None, d') => (None, d')
    end.

(** [try: m  except Exception: handler] *)
Definition try_except {A : Type} (m handler : M A) : M A :=
  fun d =>
    match m d with
    | (Some a, d') => (Some a, d')
    | (None, d') => handler d'
    end.

(** A [for] loop whose body appends to one result list; the body returns
    what its iteration appended. *)
Fixpoint for_each {X Y : Type} (xs : list X) (body : X -> M (list Y))
  : M (list Y) :=
  match xs with
  | [] => ret []
  | x :: xs' =>
      bind (body x) (fun ys =>
      bind (for_each xs' body) (fun rest => ret (ys ++ rest)))
  end.

(** A [for] loop that updates local variables [S]. *)
Fixpoint fold_m {S X : Type} (step : S -> X -> M S) (xs : list X) (s : S)
  : M S :=
  match xs with
  | [] => ret s
  | x :: xs' => bind (step s x) (fun s' => fold_m step xs' s')
  end.

(** Lift an option: [None] raises. *)
Definition of_option {A : Type} (o : option A) : M A :=
  fun d => (o, d).

(** Reads of the frame. *)
Definition columns : M (list string) := fun d => (Some (df_columns d), d).
Definition len : M nat := fun d => (Some (df_len d), d).
(** [df[col]]; KeyError when the label is absent. *)
Definition getitem (col : string) : M column := fun d => (df_get d col, d).

(** [df[[c1; ...; cn]]]: a new frame with the listed columns. *)
Fixpoint getitems (cols : list string) : M DataFrame :=
  match cols with
  | [] => ret []
  | c :: cols' =>
      bind (getitem c) (fun x =>
      bind (getitems cols') (fun rest => ret (x :: rest)))
  end.

(** Writes of the frame; insights.py never calls one. *)
Definition setitem (col : string) (d' : dtype) (vs : list value) : M unit :=
  fun d => (Some tt, df_set d col d' vs).

(** A computation that hands the frame back as it received it. *)
Definition read_only {A : Type} (m : M A) : Prop :=
  forall d, snd (m d) = d.

Definition result {A : Type} (m : M A) (d : DataFrame) : option A := fst (m d).
Definition state_after {A : Type} (m : M A) (d : DataFrame) : DataFrame :=
  snd (m d).

End Py.

Declare Scope py_scope.
Delimit Scope py_scope with py.
Notation "x <- m ;; k" := (Py.bind m (fun x => k))
  (at level 61, m at next level, right associativity) : py_scope.
Notation "' pat <- m ;; k" := (Py.bind m (fun x => match x with pat => k end))
  (at level 61, pat pattern, m at next level, right associativity) : py_scope.

(* ================================================================== *)
(** * Correlation coefficients *)
(* ================================================================== *)

(** A float that came out of a correlation: NaN or the real number it
    denotes. *)
Inductive rfloat : Type :=
| RNaN
| RFin (r : R).

Module Corr.
Local Open Scope R_scope.

Definition Rsum (l : list R) : R := fold_right Rplus 0 l.

Definition Rmean (l : list R) : R := Rsum l / INR (List.length l).

(** Sum of the products of deviations from the means. *)
Definition sum_dev (xs ys : list R) : R :=
  let mx := Rmean xs in
  let my := Rmean ys in
  Rsum (map (fun p => (fst p - mx) * (snd p - my)) (combine xs ys)).

(** Pearson's r of two equally long samples; NaN when a sample has no
    spread (or no points). *)
Definition pearson (xs ys : list R) : rfloat :=
  let divisor := sqrt (sum_dev xs xs * sum_dev ys ys) in
  if Req_dec_T divisor 0 then RNaN
  else RFin (sum_dev xs ys / divisor).

(** The rows on which both cells are finite numbers, as pairs of reals:
    pandas' [nancorr] skips every other row ([np.isfinite]). *)
Fixpoint finite_rows (xs ys : list value) : list (R * R) :=
  match xs, ys with
  | Num a :: xs', Num b :: ys' => (Q2R a, Q2R b) :: finite_rows xs' ys'
  | _ :: xs', _ :: ys' => finite_rows xs' ys'
  | _, _ => []
  end.

(** The coefficient of two columns in exact arithmetic: Pearson's r over
    the rows where both are finite. *)
Definition corr_entry (xs ys : list value) : rfloat :=
  let rows := finite_rows xs ys in
  pearson (map fst rows) (map snd rows).

Definition round_half_even (x : R) : Z :=
  let f := Int_part x in
  let d := x - IZR f in
  if Rlt_dec d (1 / 2) then f
  else if Rlt_dec (1 / 2) d then (f + 1)%Z
  else if Z.even f then f else (f + 1)%Z.

(** [round(x, digits)] *)
Definition round (digits : nat) (x : rfloat) : rfloat :=
  match x with
  | RNaN => RNaN
  | RFin r =>
      let scale := IZR (10 ^ Z.of_nat digits) in
      RFin (IZR (round_half_even (r * scale)) / scale)
  end.

(** [abs(a) >= abs(b)], false next to a NaN. *)
Definition abs_geb (a b : rfloat) : bool :=
  match a, b with
  | RFin x, RFin y => if Rle_dec (Rabs y) (Rabs x) then true else false
  | _, _ => false
  end.

(** [x < bound], false for NaN. *)
Definition ltb (x : rfloat) (bound : R) : bool :=
  match x with
  | RFin r => if Rlt_dec r bound then true else false
  | RNaN => false
  end.

(** [x > bound], false for NaN. *)
Definition gtb (x : rfloat) (bound : R) : bool :=
  match x with
  | RFin r => if Rlt_dec bound r then true else false
  | RNaN => false
  end.

End Corr.

(** What [scipy.stats.pearsonr] returns: (nan, nan), or a coefficient and
    the two-sided p-value computed from it, both numbers. *)
Inductive PearsonResult : Type :=
| pearson_nan
| pearson_of (r p : R).

(** pandas/numpy/scipy/formatting routines of insights.py taken as given. *)
Class Analytics : Type := {
  (** [Series.std()] and [Series.kurtosis()] *)
  series_std : list value -> value;
  series_kurtosis : list value -> value;
  (** The coefficient [DataFrame.corr()] computes for one pair of columns
      (pandas' [nancorr]). *)
  nancorr : list value -> list value -> rfloat;
  (** [scipy.stats.pearsonr(x, y)], or [None] when it raises. *)
  pearsonr : list value -> list value -> option PearsonResult;
  (** [n ** (-1 / 3)] *)
  pow_neg_third : nat -> value;
  (** [np.histogram(series, bins=k)]: counts and edges, or a raise. *)
  np_histogram : list value -> nat -> option (list nat * list value);
  (** [f"{v:.{digits}f}"] *)
  format_fixed : nat -> value -> string;
  (** [f"{r:.2f}"] of a correlation *)
  format_corr : rfloat -> string;
  (** [timestamp.strftime("%Y-%m-%d")] *)
  strftime_ymd : Timestamp -> string;
  (** [rows.sample(n, random_state=42)] *)
  sample_rows : nat -> list (value * value) -> list (value * value);
  (** [scipy.stats.linregress(arange(len(y)), y)]: slope and r, or a
      raise. *)
  linregress : list value -> option (value * value)
}.

(** An implementation of [Analytics] that answers NaN, raises, leaves a
    sample as it is and prints nothing, and whose [nancorr] is Pearson's r
    in exact arithmetic; concrete runs that never depend on the other
    routines use it. *)
Definition plain_analytics : Analytics :=
  {| series_std := fun _ => NA;
     series_kurtosis := fun _ => NA;
     nancorr := Corr.corr_entry;
     pearsonr := fun _ _ => None;
     pow_neg_third := fun _ => NA;
     np_histogram := fun _ _ => None;
     format_fixed := fun _ _ => "";
     format_corr := fun _ => "";
     strftime_ymd := fun _ => "";
     sample_rows := fun _ rows => rows;
     linregress := fun _ => None |}.

(* ================================================================== *)
(** * insights.py *)
(* ================================================================== *)

Record ColumnTypes : Type := mkColumnTypes
  { numeric : list string; categorical : list string; datetime : list string }.

Record StatRecord : Type := mkStat
  { st_column : string;
    st_count : nat;
    st_mean : value;
    st_median : value;
    st_std : value;
    st_min : value;
    st_max : value;
    st_skewness : value;
    st_kurtosis : value;
    st_missing_pct : value }.

Record SignificantPair : Type := mkPair
  { col1 : string; col2 : string; correlation : rfloat; p_value : rfloat }.

Definition CorrMatrix : Type := list (string * list (string * rfloat)).

Record CorrelationResult : Type := mkCorr
  { matrix : CorrMatrix; significant_pairs : list SignificantPair }.

Record DistributionBins : Type := mkBins
  { db_column : string; db_bins : list string; db_counts : list nat;
    db_n_bins : nat }.

Record FrequencyTable : Type := mkFreq
  { ft_column : string; ft_values : list value; ft_counts : list nat;
    ft_percentages : list value; ft_unique_count : nat }.

(** The extra keys of a line dataset: borderColor, fill, tension. *)
Record LineStyle : Type := mkLineStyle
  { borderColor : string; fill : bool; tension : Q }.

Record Dataset : Type := mkDataset
  { ds_label : string; ds_data : list value; backgroundColor : list string;
    ds_line : option LineStyle }.

Inductive ChartSpec : Type :=
| chart_config (chart_type title : string) (labels : list string)
    (datasets : list Dataset)
| scatter_chart (title label : string) (points : list (value * value))
    (background : string)
| heatmap_chart (title : string) (columns : list string) (m : CorrMatrix).

(** One sentence of the narrative; a constructor per f-string template. *)
Inductive Insight : Type :=
| overview (n_rows n_cols n_numeric n_categorical n_datetime : nat)
| range_sentence (col : string) (vmin vmax vmean vmedian : value)
| skew_sentence (col : string) (to_the_right : bool) (skewness : value)
| highest_value (vmax : value) (col : string)
| strongest_correlation (strong positive : bool) (c1 c2 : string)
    (r p : rfloat)
| top_category (col : string) (top_val : value) (top_pct : value)
    (unique_count : nat)
| trend_sentence (num_col : string) (upward : bool) (r_sq : value).

Record ShapeSummary : Type := mkShape
  { total_rows : nat; total_columns : nat; numeric_columns : nat;
    categorical_columns : nat; datetime_columns : nat }.

Record FullInsights : Type := mkFull
  { fi_column_types : ColumnTypes;
    fi_descriptive_stats : list StatRecord;
    fi_correlation : CorrelationResult;
    fi_distributions : list DistributionBins;
    fi_frequency_tables : list FrequencyTable;
    fi_charts : list ChartSpec;
    fi_insights : list Insight;
    fi_summary : ShapeSummary }.

(** [l[::step]] *)
Fixpoint stride_from {A : Type} (skip step : nat) (l : list A) : list A :=
  match l with
  | [] => []
  | x :: l' =>
      match skip with
      | O => x :: stride_from (step - 1) step l'
      | S k => stride_from k step l'
      end
  end.

Definition slice_step {A : Type} (step : nat) (l : list A) : list A :=
  stride_from 0 step l.

(** The rows of a two-column frame [df[[a, b]].dropna()]. *)
Definition complete_pairs (a b : column) : list (value * value) :=
  filter (fun r => notna (fst r) && notna (snd r)) (combine (cells a) (cells b)).

(** [.sort_values(first column)] *)
Definition sort_pairs (rows : list (value * value)) : list (value * value) :=
  sort_by (fun r1 r2 => value_leb (fst r1) (fst r2)) rows.

(** [frame.dropna()]: keep the rows with no missing cell. *)
Definition complete_mask (d : DataFrame) : list bool :=
  map (forallb notna) (df_rows d).

Definition dropna_rows (d : DataFrame) : DataFrame :=
  df_filter_rows (complete_mask d) d.

Definition palette : list string :=
  [ "rgba(99, 102, 241, 0.8)"; "rgba(236, 72, 153, 0.8)";
    "rgba(34, 197, 94, 0.8)"; "rgba(245, 158, 11, 0.8)";
    "rgba(14, 165, 233, 0.8)"; "rgba(168, 85, 247, 0.8)";
    "rgba(239, 68, 68, 0.8)"; "rgba(20, 184, 166, 0.8)" ].

Section Insights.
Context {pandas : Pandas} {analytics : Analytics}.
Local Open Scope py_scope.

(* ---------------- Column classification --------------------------- *)

Definition classify_columns : Py.M ColumnTypes :=
  cols <- Py.columns ;;
  Py.fold_m
    (fun result col =>
       if PyStr.startswith "is_outlier_" col then Py.ret result
       else
         c <- Py.getitem col ;;
         if is_datetime64_any_dtype (col_dtype c) then
           Py.ret (mkColumnTypes (numeric result) (categorical result)
                                 (datetime result ++ [col]))
         else
           c <- Py.getitem col ;;
           if is_numeric_dtype (col_dtype c) then
             Py.ret (mkColumnTypes (numeric result ++ [col])
                                   (categorical result) (datetime result))
           else
             Py.ret (mkColumnTypes (numeric result)
                                   (categorical result ++ [col])
                                   (datetime result)))
    cols (mkColumnTypes [] [] []).

(* ---------------- Descriptive statistics -------------------------- *)

(** The body of the loop: the record of one column, or nothing when the
    column holds no value. *)
Definition stats_for (col : string) : Py.M (list StatRecord) :=
  c <- Py.getitem col ;;
  let series := Series.dropna (cells c) in
  match series with
  | [] => Py.ret []
  | _ =>
      c' <- Py.getitem col ;;
      n <- Py.len ;;
      Py.ret
        [ {| st_column := col;
             st_count := List.length series;
             st_mean := Float.round 4 (Series.mean series);
             st_median := Float.round 4 (Series.median series);
             st_std := Float.round 4 (series_std series);
             st_min := Float.round 4 (Series.min series);
             st_max := Float.round 4 (Series.max series);
             st_skewness := Float.round 4 (series_skew series);
             st_kurtosis := Float.round 4 (series_kurtosis series);
             st_missing_pct :=
               Float.round 2 (percent (Series.count_na (cells c')) n) |} ]
  end.

Definition descriptive_stats (numeric_cols : list string)
  : Py.M (list StatRecord) :=
  Py.for_each numeric_cols stats_for.

(* ---------------- Correlation matrix ------------------------------ *)

(** The entry of [subset.corr()] at row [r] and column [c]: pandas computes
    the coefficient of each pair of columns once, for the column further
    right against the one further left, and writes it on both sides of the
    diagonal. *)
Definition df_corr (subset : DataFrame) (r c : column) : rfloat :=
  let cols := df_columns subset in
  if position (label c) cols <=? position (label r) cols
  then nancorr (cells r) (cells c)
  else nancorr (cells c) (cells r).

(** [subset.corr().round(4).to_dict()] *)
Definition corr_to_dict (subset : DataFrame) : CorrMatrix :=
  map (fun c =>
         (label c,
          map (fun r => (label r, Corr.round 4 (df_corr subset r c))) subset))
      subset.

Definition pair_seen (seen : list (string * string)) (c1 c2 : string) : bool :=
  existsb (fun p => String.eqb (fst p) c1 && String.eqb (snd p) c2) seen.

(** The body of the inner loop over [c2]; the locals are [seen] and
    [significant]. *)
Definition correlate_pair (subset : DataFrame) (c1 : string)
    (st : list (string * string) * list SignificantPair) (c2 : string)
  : list (string * string) * list SignificantPair :=
  let '(seen, significant) := st in
  if pair_seen seen c1 c2 then st
  else
    let seen := seen ++ [(c1, c2)] in
    match pearsonr (df_cells subset c1) (df_cells subset c2) with
    | Some (pearson_of r p) =>
        if Corr.ltb (RFin p) (Q2R config.CORRELATION_SIGNIFICANCE) then
          (seen,
           significant
           ++ [mkPair c1 c2 (Corr.round 4 (RFin r)) (Corr.round 6 (RFin p))])
        else (seen, significant)
    | Some pearson_nan | None => (seen, significant)
    end.

(** [for i, c1 in enumerate(cols): for c2 in cols[i + 1:]: ...] *)
Fixpoint correlate_all (subset : DataFrame) (cols : list string)
    (st : list (string * string) * list SignificantPair)
  : list (string * string) * list SignificantPair :=
  match cols with
  | [] => st
  | c1 :: rest =>
      correlate_all subset rest (fold_left (correlate_pair subset c1) rest st)
  end.

(** [significant.sort(key=lambda x: abs(x["correlation"]), reverse=True)] *)
Definition sort_significant (l : list SignificantPair) : list SignificantPair :=
  sort_by (fun a b => Corr.abs_geb (correlation a) (correlation b)) l.

Definition correlation_matrix (numeric_cols : list string)
  : Py.M CorrelationResult :=
  if List.length numeric_cols <? 2 then Py.ret (mkCorr [] [])
  else
    selected <- Py.getitems numeric_cols ;;
    let subset := dropna_rows selected in
    let m := corr_to_dict subset in
    let significant := snd (correlate_all subset numeric_cols ([], [])) in
    Py.ret (mkCorr m (sort_significant significant)).

(* ---------------- Distribution analysis --------------------------- *)

(** [int(math.ceil(x))]; raises on NaN and on an infinity. *)
Definition ceil_int (x : value) : option nat :=
  match x with
  | Num q => Some (Z.to_nat (Qceiling q))
  | _ => None
  end.

Definition bin_labels (digits : nat) (n : nat) (edges : list value)
  : list string :=
  map (fun i =>
         (format_fixed digits (nth i edges NA) ++ "-"
          ++ format_fixed digits (nth (i + 1) edges NA))%string)
      (seq 0 n).

Definition distribution_analysis (numeric_cols : list string)
  : Py.M (list DistributionBins) :=
  Py.for_each numeric_cols (fun col =>
    c <- Py.getitem col ;;
    let series := Series.dropna (cells c) in
    if List.length series <? 2 then Py.ret []
    else
      Py.try_except
        (let iqr := Float.sub (Series.quantile (3 # 4) series)
                              (Series.quantile (1 # 4) series) in
         let n := List.length series in
         n_bins <-
           (if Float.gtb iqr (Num 0%Q) then
              let bin_width :=
                Float.mul (Float.mul (Num 2%Q) iqr) (pow_neg_third n) in
              k <- Py.of_option
                     (ceil_int (Float.div (Float.sub (Series.max series)
                                                     (Series.min series))
                                          bin_width)) ;;
              Py.ret (Nat.max 1 k)
            else Py.ret (Nat.max 1 (Nat.sqrt n))) ;;
         let n_bins := Nat.min n_bins 50 in
         '(counts, edges) <- Py.of_option (np_histogram series n_bins) ;;
         Py.ret [ mkBins col (bin_labels 2 (List.length counts) edges)
                         counts n_bins ])
        (Py.ret [])).

(* ---------------- Frequency tables -------------------------------- *)

Definition frequency_tables (categorical_cols : list string)
  : Py.M (list FrequencyTable) :=
  Py.for_each categorical_cols (fun col =>
    c <- Py.getitem col ;;
    let vc := firstn config.TOP_N_CATEGORIES (Series.value_counts (cells c)) in
    c' <- Py.getitem col ;;
    let total := List.length (filter notna (cells c')) in
    c'' <- Py.getitem col ;;
    Py.ret
      [ mkFreq col (map fst vc) (map snd vc)
               (map (fun cnt =>
                       if 0 <? total
                       then Float.round 1 (percent cnt total)
                       else Num 0%Q)
                    (map snd vc))
               (Series.nunique (cells c'')) ]).

(* ---------------- Chart decision engine --------------------------- *)

(** [_build_chart_config] with [extra=None] *)
Definition _build_chart_config (chart_type title : string)
    (labels : list string) (datasets : list Dataset) : ChartSpec :=
  chart_config chart_type title labels datasets.

(** [float(v) if not (isinstance(v, float) and math.isnan(v)) else 0] *)
Definition nan_to_zero (v : value) : value :=
  if isna v then Num 0%Q else v.

Definition strftime_value (v : value) : string :=
  match v with
  | Ts t => strftime_ymd t
  | _ => "NaT"
  end.

(** The time-series loop body for one (datetime, numeric) pair. *)
Definition line_chart (dt_col num_col : string) : Py.M (list ChartSpec) :=
  sel <- Py.getitems [dt_col; num_col] ;;
  let sorted_df :=
    sort_pairs (complete_pairs (nth 0 sel (mkColumn "" Object []))
                               (nth 1 sel (mkColumn "" Object []))) in
  if List.length sorted_df <? 2 then Py.ret []
  else
    let labels := map (fun r => strftime_value (fst r)) sorted_df in
    let '(labels, values) :=
      if 200 <? List.length labels then
        let step := List.length labels / 200 in
        (slice_step step labels, slice_step step (map snd sorted_df))
      else (labels, map snd sorted_df) in
    let values := map nan_to_zero values in
    Py.ret
      [ _build_chart_config "line" (num_col ++ " over time")%string labels
          [ mkDataset num_col values ["rgba(99, 102, 241, 0.1)"]
              (Some (mkLineStyle (nth 0 palette "") true (3 # 10))) ] ].

(** [df.groupby(cat)[num].mean()]: one mean per distinct non-missing key,
    keys in sorted order. *)
Definition groupby_mean (cat num : column) : list (value * value) :=
  let keys := sort_by value_leb (Series.unique (Series.dropna (cells cat))) in
  map (fun k =>
         (k, Series.mean
               (map snd (filter (fun r => value_eqb k (fst r))
                                (combine (cells cat) (cells num))))))
      keys.

(** [.nlargest(n)]: largest first, NaN last, ties in order. *)
Definition nlargest (n : nat) (s : list (value * value)) : list (value * value) :=
  firstn n
    (sort_by (fun a b => Float.leb (snd b) (snd a))
             (filter (fun r => notna (snd r)) s)
     ++ filter (fun r => isna (snd r)) s).

Definition category_bar_chart (cat_col num_col : string)
  : Py.M (list ChartSpec) :=
  cat <- Py.getitem cat_col ;;
  num <- Py.getitem num_col ;;
  let grouped := nlargest config.TOP_N_CATEGORIES (groupby_mean cat num) in
  match grouped with
  | [] => Py.ret []
  | _ =>
      Py.ret
        [ _build_chart_config "bar"
            ("Average " ++ num_col ++ " by " ++ cat_col)%string
            (map (fun r => py_str (fst r)) grouped)
            [ mkDataset ("Avg " ++ num_col)%string
                (map (fun r => Float.round 2 (snd r)) grouped)
                (firstn (List.length grouped) palette) None ] ]
  end.

(** The single-categorical loop body. *)
Definition category_chart (cat_col : string) : Py.M (list ChartSpec) :=
  c <- Py.getitem cat_col ;;
  let vc := firstn config.MAX_PIE_CATEGORIES (Series.value_counts (cells c)) in
  match vc with
  | [] => Py.ret []
  | _ =>
      let chart_type :=
        if List.length vc <=? config.MAX_PIE_CATEGORIES then "pie" else "bar" in
      Py.ret
        [ _build_chart_config
            (if String.eqb chart_type "pie" then chart_type else "bar")
            ("Distribution of " ++ cat_col)%string
            (map (fun r => py_str (fst r)) vc)
            [ mkDataset cat_col (map (fun r => Float.of_nat (snd r)) vc)
                (firstn (List.length vc) palette) None ] ]
  end.

Definition histogram_chart (num_col : string) : Py.M (list ChartSpec) :=
  c <- Py.getitem num_col ;;
  let series := Series.dropna (cells c) in
  if List.length series <? 2 then Py.ret []
  else
    '(counts, edges) <-
      Py.of_option
        (np_histogram series
           (Nat.min 30 (Nat.max 5 (Nat.sqrt (List.length series))))) ;;
    Py.ret
      [ _build_chart_config "bar" ("Distribution of " ++ num_col)%string
          (map (fun i => format_fixed 1 (nth i edges NA))
               (seq 0 (List.length counts)))
          [ mkDataset num_col (map Float.of_nat counts) [nth 1 palette ""]
              None ] ].

Definition scatter_for (pair : SignificantPair) : Py.M (list ChartSpec) :=
  let c1 := col1 pair in
  let c2 := col2 pair in
  sel <- Py.getitems [c1; c2] ;;
  let subset :=
    complete_pairs (nth 0 sel (mkColumn "" Object []))
                   (nth 1 sel (mkColumn "" Object [])) in
  let subset :=
    if 500 <? List.length subset then sample_rows 500 subset else subset in
  Py.ret
    [ scatter_chart
        (c1 ++ " vs " ++ c2 ++ " (r=" ++ format_corr (correlation pair) ++ ")")%string
        (c1 ++ " vs " ++ c2)%string
        (map (fun r => (Float.round 4 (fst r), Float.round 4 (snd r))) subset)
        (nth 4 palette "") ].

Definition auto_select_charts (col_types : ColumnTypes)
    (corr_data : CorrelationResult) : Py.M (list ChartSpec) :=
  let numeric := numeric col_types in
  let categorical := categorical col_types in
  let datetime_cols := datetime col_types in
  lines <- Py.for_each datetime_cols (fun dt_col =>
             Py.for_each (firstn 3 numeric) (line_chart dt_col)) ;;
  bars <- Py.for_each (firstn 3 categorical) (fun cat_col =>
            Py.for_each (firstn 2 numeric) (category_bar_chart cat_col)) ;;
  pies <- Py.for_each (firstn 3 categorical) category_chart ;;
  hists <- Py.for_each (firstn 4 numeric) histogram_chart ;;
  scatters <- Py.for_each (firstn 3 (significant_pairs corr_data)) scatter_for ;;
  let heatmap :=
    match matrix corr_data with
    | [] => []
    | m =>
        if 2 <=? List.length numeric
        then [heatmap_chart "Correlation Matrix" numeric m] else []
    end in
  Py.ret (lines ++ bars ++ pies ++ hists ++ scatters ++ heatmap).
(* ---------------- NLG summary engine ----------------------------- *)

(** [max(stats_data, key=lambda x: x["max"])]: the first record holding the
    largest maximum. *)
Definition max_by_max (first : StatRecord) (rest : list StatRecord)
  : StatRecord :=
  fold_left (fun best s => if Float.gtb (st_max s) (st_max best) then s else best)
            rest first.

Definition numeric_sentences (s : StatRecord) : list Insight :=
  range_sentence (st_column s) (st_min s) (st_max s) (st_mean s) (st_median s)
  :: (if Float.gtb (Float.abs (st_skewness s)) (Num 1%Q)
      then [skew_sentence (st_column s)
                          (Float.gtb (st_skewness s) (Num 0%Q))
                          (st_skewness s)]
      else []).

Definition trend_for (dt_col num_col : string) : Py.M (list Insight) :=
  sel <- Py.getitems [dt_col; num_col] ;;
  let sub :=
    sort_pairs (complete_pairs (nth 0 sel (mkColumn "" Object []))
                               (nth 1 sel (mkColumn "" Object []))) in
  if List.length sub <? 10 then Py.ret []
  else
    Py.try_except
      ('(slope, r_value) <- Py.of_option (linregress (map snd sub)) ;;
       Py.ret [ trend_sentence num_col (Float.gtb slope (Num 0%Q))
                               (Float.mul r_value r_value) ])
      (Py.ret []).

Definition generate_nlg_insights (col_types : ColumnTypes)
    (stats_data : list StatRecord) (corr_data : CorrelationResult)
    (freq_data : list FrequencyTable) : Py.M (list Insight) :=
  n_rows <- Py.len ;;
  cols <- Py.columns ;;
  let head :=
    [ overview n_rows (List.length cols) (List.length (numeric col_types))
               (List.length (categorical col_types))
               (List.length (datetime col_types)) ] in
  let extremes := flat_map numeric_sentences stats_data in
  let highest :=
    match stats_data with
    | [] => []
    | s :: rest =>
        let max_col := max_by_max s rest in
        [highest_value (st_max max_col) (st_column max_col)]
    end in
  let strongest :=
    match significant_pairs corr_data with
    | [] => []
    | top :: _ =>
        [ strongest_correlation
            (Corr.gtb (match correlation top with
                       | RFin r => RFin (Rabs r)
                       | RNaN => RNaN
                       end) (7 / 10)%R)
            (Corr.gtb (correlation top) 0%R)
            (col1 top) (col2 top) (correlation top) (p_value top) ]
    end in
  let tops :=
    flat_map
      (fun f =>
         match ft_values f, ft_percentages f with
         | top_val :: _, top_pct :: _ =>
             [top_category (ft_column f) top_val top_pct (ft_unique_count f)]
         | _, _ => []
         end)
      freq_data in
  trends <- Py.for_each (datetime col_types) (fun dt_col =>
              Py.for_each (firstn 2 (numeric col_types)) (trend_for dt_col)) ;;
  Py.ret (head ++ extremes ++ highest ++ strongest ++ tops ++ trends).

(* ---------------- Main entry point -------------------------------- *)

Definition generate_full_insights : Py.M FullInsights :=
  n0 <- Py.len ;;      (* the two reads of the opening logger.info call *)
  c0 <- Py.columns ;;
  col_types <- classify_columns ;;
  stats <- descriptive_stats (numeric col_types) ;;
  corr <- correlation_matrix (numeric col_types) ;;
  dist <- distribution_analysis (numeric col_types) ;;
  freq <- frequency_tables (categorical col_types) ;;
  charts <- auto_select_charts col_types corr ;;
  nlg <- generate_nlg_insights col_types stats corr freq ;;
  total_rows <- Py.len ;;
  cols <- Py.columns ;;
  Py.ret
    (mkFull col_types stats corr dist freq charts nlg
            (mkShape total_rows (List.length cols)
                     (List.length (numeric col_types))
                     (List.length (categorical col_types))
                     (List.length (datetime col_types)))).

End Insights.

(* ================================================================== *)
(** * Properties named by the specification *)
(* ================================================================== *)

(** ** Column names *)

(** A column name in standard form: it matches [^[a-z0-9_]+$] and has no
    leading, trailing or doubled underscore. *)
Definition standard_name (s : string) : Prop :=
  PyStr.is_identifier_token s = true
  /\ PyStr.startswith "_" s = false
  /\ PyStr.endswith "_" s = false
  /\ PyStr.contains "__" s = false.

(** The same without the demand that the name be non-empty. *)
Definition standard_or_empty_name (s : string) : Prop :=
  PyStr.all_chars PyStr.word_char s = true
  /\ PyStr.startswith "_" s = false
  /\ PyStr.endswith "_" s = false
  /\ PyStr.contains "__" s = false.

(** The class [[a-z0-9]]. *)
Definition lower_alnum (c : ascii) : bool :=
  PyStr.word_char c && negb (PyStr.is_underscore c).

(** Every label is already in the form [standardize_columns] gives it. *)
Definition names_are_standard (d : DataFrame) : bool :=
  forallb (fun l => String.eqb (standardize_name l) l) (df_columns d).

(** ** Text cells *)

(** A cell of a trimmed text column: missing, or a string with no
    whitespace at either end. *)
Definition is_trimmed_cell (v : value) : bool :=
  match v with
  | NA => true
  | Str s => PyStr.trimmed s
  | _ => false
  end.

(** A cell as [trim_strings] leaves it: missing, or a string without outer
    whitespace that is none of "nan", "None" and "". *)
Definition is_clean_text (v : value) : bool :=
  match v with
  | NA => true
  | Str s =>
      PyStr.trimmed s
      && negb (String.eqb s "nan" || String.eqb s "None" || String.eqb s "")
  | _ => false
  end.


(** ** The transformation log *)

(** A step that, at state [p], appends to the log only if it changes the
    frame. *)
Definition logs_only_on_change (step : ETLPipeline -> ETLPipeline)
    (p : ETLPipeline) : Prop :=
  df (step p) = df p -> transformations (step p) = transformations p.

(** The log entries for duplicate removal, missing-value imputation and
    outlier detection. *)
Definition is_cleaning_entry (t : Transformation) : bool :=
  match t with
  | removed_duplicates _
  | filled_missing _ _ _
  | dropped_missing_datetime _ _ _
  | forward_filled_datetime _ _
  | detected_outliers _ _ => true
  | _ => false
  end.

(** An entry that is none of the three cleaning entries. *)
Definition not_cleaning (t : Transformation) : bool :=
  negb (is_cleaning_entry t).

(** A step that only appends entries satisfying [ok] to the log. *)
Definition only_appends (ok : Transformation -> bool)
    (step : ETLPipeline -> ETLPipeline) (p : ETLPipeline) : Prop :=
  exists l, transformations (step p) = transformations p ++ l
            /\ forallb ok l = true.

(** ** Clean frames *)

(** No cell of the frame is missing. *)
Definition no_missing (d : DataFrame) : bool :=
  forallb (fun c => forallb notna (cells c)) d.

(** No row equals an earlier row. *)
Definition no_duplicate_rows (d : DataFrame) : bool :=
  negb (existsb (fun b : bool => b) (Series.duplicated (df_rows d))).

(** The number of cells outside the IQR bounds of a series, recomputed
    apart from the pipeline, with the bounds in float64 as the pipeline
    has them: none when the IQR is zero. *)
Definition iqr_violations (s : list value) : nat :=
  let q1 := Series.quantile (1 # 4) s in
  let q3 := Series.quantile (3 # 4) s in
  let iqr := Float.sub q3 q1 in
  if Float.eqb iqr (Num 0%Q) then 0
  else
    count_true
      (outlier_mask s
         (Float.sub q1 (Float.mul (Num config.IQR_MULTIPLIER) iqr))
         (Float.add q3 (Float.mul (Num config.IQR_MULTIPLIER) iqr))).

(** No numeric column holds a cell outside its IQR bounds. *)
Definition no_outliers (d : DataFrame) : bool :=
  forallb (fun c => negb (is_np_number (col_dtype c))
                    || (iqr_violations (cells c) =? 0)) d.

(** No column is named like an outlier flag. *)
Definition no_flag_columns (d : DataFrame) : bool :=
  forallb (fun l => negb (PyStr.startswith "is_outlier_" l)) (df_columns d).

(** No column is already named like a column [feature_engineering] would
    write: a year column of a naive datetime column, or price_per_unit. *)
Definition no_derived_columns (d : DataFrame) : bool :=
  forallb (fun c => negb (has_column d (c ++ "_year")%string))
          (select_dtypes is_datetime64_naive d)
  && negb (has_column d "price_per_unit").

(** ** Loop invariants of the pipeline *)

(** What the loop of step 6 keeps true. *)
Definition flags_recorded (p q : ETLPipeline) : Prop :=
  transformations q = transformations p
  /\ (forall l, In l (df_columns (df p)) -> In l (df_columns (df q)))
  /\ (outlier_counts q <> [] ->
      exists col, In ("is_outlier_" ++ col)%string (df_columns (df q))).

(** What the loop of step 5 keeps true of its state, [d0] being the frame
    it started from. *)
Definition dates_converted (d0 : DataFrame) (st : DataFrame * list string)
  : Prop :=
  Forall2 (fun c c' =>
             label c' = label c
             /\ (c' = c \/ (col_dtype c = Object
                            /\ is_datetime64_any_dtype (col_dtype c') = true)))
          d0 (fst st)
  /\ (forall col, In col (snd st) ->
        is_datetime64_any_dtype (df_dtype (fst st) col) = true).

(** ** Statistics and correlation *)

(** What [descriptive_stats] promises about one record, given the frame it
    was computed from. *)
Definition stat_record_ok (d : DataFrame) (r : StatRecord) : Prop :=
  let s := df_cells d (st_column r) in
  st_count r = List.length (Series.dropna s)
  /\ 0 < st_count r
  /\ st_count r + Series.count_na s = df_len d
  /\ st_missing_pct r
     = Float.round 2
         (Float.mul (Float.div (Float.of_nat (Series.count_na s))
                               (Float.of_nat (df_len d)))
                    (Num 100%Q)).







(** ** Charts *)

(** The chart type of a spec built by [_build_chart_config]. *)
Definition chart_type_of (ch : ChartSpec) : string :=
  match ch with
  | chart_config chart_type _ _ _ => chart_type
  | scatter_chart _ _ _ _ => "scatter"
  | heatmap_chart _ _ _ => "heatmap"
  end.

(** The number of points a chart plots in its first dataset. *)
Definition n_points (ch : ChartSpec) : nat :=
  match ch with
  | chart_config _ _ _ (ds :: _) => List.length (ds_data ds)
  | chart_config _ _ _ [] => 0
  | scatter_chart _ _ points _ => List.length points
  | heatmap_chart _ _ _ => 0
  end.

(** ** Example tables *)

(** The scenario table of the specification: two integer columns as read
    from a CSV file. *)
Definition price_qty_table : DataFrame :=
  [ mkColumn "price" Int64 (map Float.of_Z [10; 20; 30; 40]%Z);
    mkColumn "qty" Int64 (map Float.of_Z [2; 2; 0; 1]%Z) ].


(** A small table with nothing to clean. *)
Definition tidy_table : DataFrame :=
  [ mkColumn "x" Int64 (map Float.of_Z [1; 2; 3; 4]%Z);
    mkColumn "name" Object [Str "a"; Str "b"; Str "c"; Str "d"] ].


(** The float64 column [0.8, 2.9, 3.9, 4.3, 6.0].  Its quartiles are 2.9
    and 4.3; in float64 their difference is 1.3999999999999995 and the
    lower bound comes out as 0.8000000000000003, just above the cell
    0.8. *)
Definition fence_table : DataFrame :=
  [ mkColumn "x" Float64
      (map Float.binary64 [8 # 10; 29 # 10; 39 # 10; 43 # 10; 6 # 1]%Q) ].


(** A text column with eight distinct values, "a" eight times down to "h"
    once. *)
Definition eight_categories : DataFrame :=
  [ mkColumn "c" Object
      (flat_map (fun p => repeat (Str (fst p)) (snd p))
         [("a", 8); ("b", 7); ("c", 6); ("d", 5); ("e", 4); ("f", 3);
          ("g", 2); ("h", 1)]) ].

(** A frame of [n] rows: a datetime column "t" with a different time on
    each row and a numeric column "v". *)
Definition time_series (n : nat) : DataFrame :=
  [ mkColumn "t" (Datetime false)
      (map (fun i => Ts (mkTimestamp 2024 1 1 (Z.of_nat i))) (seq 0 n));
    mkColumn "v" Int64 (map Float.of_nat (seq 0 n)) ].

(* ================================================================== *)
(** * Notions used to state what the steps and analyses keep *)
(* ================================================================== *)





(** What imputation may do to a column: the name and dtype stay, and it
    gains neither cells nor missing cells. *)
Definition imputed (c c' : column) : Prop :=
  label c' = label c
  /\ col_dtype c' = col_dtype c
  /\ List.length (cells c') <= List.length (cells c)
  /\ Series.count_na (cells c') <= Series.count_na (cells c).

Section OptimizedColumns.
Context {pandas : Pandas}.

(** What the first loop of step 7 makes of an int64 or int32 column. *)
Definition downcast_int_col (c : column) : column :=
  mkColumn (label c) (downcast_integer (col_dtype c) (cells c)) (cells c).

(** What the second loop makes of a float64 column that is not a flag. *)
Definition downcast_float_col (c : column) : column :=
  let '(dt, vs) := downcast_float (cells c) in mkColumn (label c) dt vs.

Definition optimize_col (c : column) : column :=
  if is_int64_or_int32 (col_dtype c) then downcast_int_col c
  else if is_float64 (col_dtype c)
          && negb (PyStr.startswith "is_outlier_" (label c))
       then downcast_float_col c
       else c.

End OptimizedColumns.

(** What dtype optimisation may do to a column. *)
Definition optimized (c c' : column) : Prop :=
  label c' = label c
  /\ (is_float64 (col_dtype c) = false ->
      cells c' = cells c /\ itemsize (col_dtype c') <= itemsize (col_dtype c))
  /\ (is_float64 (col_dtype c) = false ->
      is_int64_or_int32 (col_dtype c) = false -> c' = c)
  /\ (is_float64 (col_dtype c) = true ->
      PyStr.startswith "is_outlier_" (label c) = true -> c' = c).


(** The step of [run] that writes a log entry. *)
Definition step_of (t : Transformation) : nat :=
  match t with
  | standardized_column_names _ => 1
  | trimmed_string_fields _ => 2
  | removed_duplicates _ => 3
  | filled_missing _ _ _
  | dropped_missing_datetime _ _ _
  | forward_filled_datetime _ _ => 4
  | converted_to_datetime _ => 5
  | detected_outliers _ _ => 6
  | optimized_dtypes => 7
  | extracted_date_parts_from _
  | created_price_per_unit => 8
  | replaced_infinities _
  | dropped_all_null_columns _ => 9
  end.

(** A log whose entries come in the order of the steps. *)
Definition in_step_order (l : list Transformation) : Prop :=
  StronglySorted (fun a b => step_of a <= step_of b) l.

(** The entries the [k]-th step of [run] writes. *)
Definition from_step (k : nat) (t : Transformation) : bool := step_of t =? k.


(** The labels of the columns that are not named like an outlier flag and
    whose dtype satisfies [keep], in column order. *)
Definition classified (keep : dtype -> bool) (d : DataFrame) : list string :=
  map label
      (filter (fun c => negb (PyStr.startswith "is_outlier_" (label c))
                        && keep (col_dtype c)) d).

(** The labels named like an outlier flag. *)
Definition flag_labels (d : DataFrame) : list string :=
  filter (PyStr.startswith "is_outlier_") (df_columns d).

(** A column has at least one cell that is not missing. *)
Definition has_values (d : DataFrame) (col : string) : bool :=
  negb (forallb isna (df_cells d col)).

(** The counts of a frequency table come largest first. *)
Definition descending (counts : list nat) : Prop :=
  Sorted (fun a b => b <= a) counts.

(** What holds of one frequency table. *)
Definition frequency_table_ok (d : DataFrame) (f : FrequencyTable) : Prop :=
  List.length (ft_values f) = List.length (ft_counts f)
  /\ List.length (ft_percentages f) = List.length (ft_counts f)
  /\ List.length (ft_counts f) <= config.TOP_N_CATEGORIES
  /\ List.length (ft_values f) <= ft_unique_count f
  /\ ft_unique_count f = Series.nunique (df_cells d (ft_column f))
  /\ descending (ft_counts f)
  /\ Forall (fun n => 0 < n) (ft_counts f)
  /\ Forall (fun v => In v (df_cells d (ft_column f)) /\ isna v = false)
            (ft_values f).

(** The labels and the plotted values of a chart built by
    [_build_chart_config]. *)
Definition chart_labels (ch : ChartSpec) : list string :=
  match ch with
  | chart_config _ _ labels _ => labels
  | _ => []
  end.

Definition chart_values (ch : ChartSpec) : list value :=
  match ch with
  | chart_config _ _ _ (ds :: _) => ds_data ds
  | _ => []
  end.

(** The number of points a line chart keeps of [m] complete rows: all of
    them up to 200, every [m // 200]-th beyond. *)
Definition subsampled (m : nat) : nat :=
  if 200 <? m then (m + (m / 200 - 1)) / (m / 200) else m.

(** What every chart of [auto_select_charts] looks like: a line chart of 2
    to 399 points, a pie chart of 1 to [MAX_PIE_CATEGORIES] slices, a bar
    chart, a scatter chart or a heatmap. *)
Definition chart_ok (ch : ChartSpec) : Prop :=
  (chart_type_of ch = "line" /\ 2 <= n_points ch <= 399)
  \/ (chart_type_of ch = "pie"
      /\ 1 <= n_points ch <= config.MAX_PIE_CATEGORIES)
  \/ chart_type_of ch = "bar"
  \/ chart_type_of ch = "scatter"
  \/ chart_type_of ch = "heatmap".

(* ================================================================== *)
(** * utils/validators.py *)
(* ================================================================== *)

(** A message [validate_csv] returns; a constructor per message, carrying
    the values formatted into it. *)
Inductive ValidationWarning : Type :=
| entirely_null_columns (cols : list string)
| single_column
| duplicate_rows_found (count : nat) (pct : Q).

(** The two [ValueError]s [validate_csv] can raise. *)
Inductive ValidationError : Type :=
| empty_csv      (* "CSV file is empty - zero rows loaded." *)
| no_columns.    (* "CSV file has no columns." *)

(** [df.empty]: one of the two axes has length 0. *)
Definition df_empty (d : DataFrame) : bool :=
  (df_len d =? 0) || (List.length (df_columns d) =? 0).

Definition validate_csv (d : DataFrame)
  : ValidationError + list ValidationWarning :=
  if df_empty d then inl empty_csv
  else if List.length (df_columns d) =? 0 then inl no_columns
  else
    let warnings := [] in
    let null_cols :=
      filter (fun c => forallb isna (df_cells d c)) (df_columns d) in
    let warnings :=
      match null_cols with
      | [] => warnings
      | _ => warnings ++ [entirely_null_columns null_cols]
      end in
    let warnings :=
      if List.length (df_columns d) =? 1 then warnings ++ [single_column]
      else warnings in
    let dup_count := count_true (Series.duplicated (df_rows d)) in
    let warnings :=
      if 0 <? dup_count
      then warnings
           ++ [duplicate_rows_found dup_count
                 (pct_of (percent dup_count (df_len d)))]
      else warnings in
    inr warnings.

(** The number of duplicate rows a list of warnings reports. *)
Definition reported_duplicates (ws : list ValidationWarning) : nat :=
  list_sum (map (fun w => match w with
                          | duplicate_rows_found n _ => n
                          | _ => 0
                          end) ws).

(* ================================================================== *)
(** * Column-name standardisation *)
(* ================================================================== *)

Module PyStrFacts.
Import PyStr.

Lemma startswith_underscore s : startswith "_" s = head_is is_underscore s.
Proof.
  destruct s as [|c s]; [reflexivity|].
  cbn [startswith head_is]. unfold is_underscore.
  rewrite Ascii.eqb_sym. destruct s; apply andb_true_r.
Qed.

Lemma endswith_underscore s : endswith "_" s = last_is is_underscore s.
Proof.
  induction s as [|c s IH]; [reflexivity|].
  cbn [endswith last_is is_underscore]. rewrite IH.
  destruct s as [|c' s'].
  - cbn [String.eqb last_is is_underscore]. unfold is_underscore.
    rewrite Ascii.eqb_sym. destruct (Ascii.eqb c "_"); reflexivity.
  - cbn [String.eqb]. destruct (Ascii.eqb "_" c); reflexivity.
Qed.

Lemma contains_double s : contains "__" s = double_underscore s.
Proof.
  induction s as [|c s IH]; [reflexivity|].
  cbn [contains double_underscore]. rewrite IH. f_equal.
  change (startswith "__" (String c s))
    with (Ascii.eqb "_" c && startswith "_" s)%bool.
  rewrite startswith_underscore. unfold is_underscore.
  rewrite Ascii.eqb_sym. reflexivity.
Qed.

(** Stripping on the left. *)
Lemma lstrip_head p s : head_is p (lstrip_by p s) = false.
Proof.
  induction s as [|c s IH]; cbn [lstrip_by]; [reflexivity|].
  destruct (p c) eqn:E; [exact IH| exact E].
Qed.

Lemma lstrip_all p q s :
  all_chars q s = true -> all_chars q (lstrip_by p s) = true.
Proof.
  induction s as [|c s IH]; cbn [lstrip_by all_chars]; [trivial|].
  intros H. apply andb_prop in H as [Hc Hs].
  destruct (p c); [auto|]. cbn [all_chars]. now rewrite Hc, Hs.
Qed.

Lemma lstrip_double s :
  double_underscore s = false ->
  double_underscore (lstrip_by is_underscore s) = false.
Proof.
  induction s as [|c s IH]; cbn [lstrip_by double_underscore]; [trivial|].
  intros H. apply orb_false_elim in H as [H1 H2].
  destruct (is_underscore c) eqn:E; [auto|].
  cbn [double_underscore]. rewrite E, H2. reflexivity.
Qed.

Lemma lstrip_empty p s :
  lstrip_by p s = EmptyString <-> all_chars p s = true.
Proof.
  induction s as [|c s IH]; cbn [lstrip_by all_chars]; [tauto|].
  destruct (p c); cbn [andb]; [exact IH|]. split; discriminate.
Qed.

(** Stripping on the right. *)
Lemma rstrip_cons p c s :
  rstrip_by p (String c s) =
  match rstrip_by p s with
  | EmptyString => if p c then EmptyString else String c EmptyString
  | r => String c r
  end.
Proof. reflexivity. Qed.

Lemma rstrip_head p q s :
  head_is q s = false -> head_is q (rstrip_by p s) = false.
Proof.
  destruct s as [|c s]; [trivial|]. rewrite rstrip_cons.
  cbn [head_is]. intros H.
  destruct (rstrip_by p s); [destruct (p c)|]; cbn [head_is]; auto.
Qed.

Lemma rstrip_last p s : last_is p (rstrip_by p s) = false.
Proof.
  induction s as [|c s IH]; [reflexivity|]. rewrite rstrip_cons.
  destruct (rstrip_by p s) as [|c' r] eqn:E.
  - destruct (p c) eqn:Ec; cbn [last_is]; auto.
  - exact IH.
Qed.

Lemma strip_trimmed s : trimmed (strip s) = true.
Proof.
  unfold trimmed, strip, strip_by.
  rewrite rstrip_last, rstrip_head by apply lstrip_head. reflexivity.
Qed.

Lemma rstrip_all p q s :
  all_chars q s = true -> all_chars q (rstrip_by p s) = true.
Proof.
  induction s as [|c s IH]; [trivial|]. rewrite rstrip_cons.
  cbn [all_chars]. intros H. apply andb_prop in H as [Hc Hs].
  specialize (IH Hs).
  destruct (rstrip_by p s); [destruct (p c)|]; cbn [all_chars] in *;
    rewrite ?Hc, ?IH; reflexivity.
Qed.

Lemma rstrip_head_of p s :
  head_is is_underscore (rstrip_by p s) = true -> head_is is_underscore s = true.
Proof.
  destruct s as [|c s]; [trivial|]. rewrite rstrip_cons.
  destruct (rstrip_by p s); [destruct (p c)|]; cbn [head_is is_underscore]; auto.
  discriminate.
Qed.

Lemma rstrip_double p s :
  double_underscore s = false -> double_underscore (rstrip_by p s) = false.
Proof.
  induction s as [|c s IH]; [trivial|]. rewrite rstrip_cons.
  cbn [double_underscore]. intros H. apply orb_false_elim in H as [H1 H2].
  specialize (IH H2).
  destruct (rstrip_by p s) as [|c' r] eqn:E.
  - destruct (p c); cbn [double_underscore head_is is_underscore];
      rewrite ?andb_false_r; reflexivity.
  - cbn [double_underscore] in *. rewrite IH, orb_false_r.
    destruct (is_underscore c) eqn:Ec; [|reflexivity].
    cbn [andb] in *. 
    destruct (head_is is_underscore (String c' r)) eqn:Eh; [|reflexivity].
    rewrite <- E in Eh. apply rstrip_head_of in Eh. congruence.
Qed.

Lemma rstrip_empty p s :
  rstrip_by p s = EmptyString <-> all_chars p s = true.
Proof.
  induction s as [|c s IH]; [cbn; tauto|]. rewrite rstrip_cons.
  cbn [all_chars].
  destruct (rstrip_by p s) as [|c' r].
  - destruct (p c); cbn [andb].
    + split; [intros _; now apply IH | reflexivity].
    + split; discriminate.
  - split; [discriminate|]. intros H. apply andb_prop in H as [_ H].
    apply IH in H. discriminate.
Qed.

Lemma lstrip_all_iff p s :
  all_chars p (lstrip_by p s) = true <-> all_chars p s = true.
Proof.
  induction s as [|c s IH]; cbn [lstrip_by all_chars]; [tauto|].
  destruct (p c) eqn:E; cbn [andb]; [exact IH|].
  cbn [all_chars]. rewrite E. cbn [andb]. tauto.
Qed.

Lemma strip_empty p s :
  strip_by p s = EmptyString <-> all_chars p s = true.
Proof.
  unfold strip_by. rewrite rstrip_empty. apply lstrip_all_iff.
Qed.

(** The two substitutions. *)
Lemma word_char_underscore : word_char "_" = true.
Proof. reflexivity. Qed.

Lemma sub_nonword_all s : all_chars word_char (sub_nonword s) = true.
Proof.
  induction s as [|c s IH]; [reflexivity|].
  cbn [sub_nonword all_chars]. rewrite IH, andb_true_r.
  destruct (word_char c) eqn:E; [exact E | exact word_char_underscore].
Qed.

Lemma runs_cons c s :
  sub_underscore_runs (String c s) =
  match s with
  | EmptyString => String c EmptyString
  | String c' _ =>
      if is_underscore c && is_underscore c'
      then sub_underscore_runs s
      else String c (sub_underscore_runs s)
  end.
Proof. destruct s; reflexivity. Qed.

Lemma runs_all q s :
  all_chars q s = true -> all_chars q (sub_underscore_runs s) = true.
Proof.
  induction s as [|c s IH]; [trivial|]. rewrite runs_cons.
  cbn [all_chars]. intros H. apply andb_prop in H as [Hc Hs].
  specialize (IH Hs). destruct s as [|c' s']; [cbn; now rewrite Hc|].
  destruct (is_underscore c && is_underscore c'); [exact IH|].
  cbn [all_chars]. now rewrite Hc, IH.
Qed.

Lemma runs_head s :
  head_is is_underscore (sub_underscore_runs s) = head_is is_underscore s.
Proof.
  induction s as [|c s IH]; [reflexivity|]. rewrite runs_cons.
  destruct s as [|c' s']; [reflexivity|].
  destruct (is_underscore c) eqn:Ec; destruct (is_underscore c') eqn:Ec';
    cbn [andb head_is is_underscore]; try rewrite Ec; try reflexivity.
  rewrite IH. cbn [head_is is_underscore]. exact Ec'.
Qed.

Lemma runs_double s : double_underscore (sub_underscore_runs s) = false.
Proof.
  induction s as [|c s IH]; [reflexivity|]. rewrite runs_cons.
  destruct s as [|c' s'];
    [cbn [double_underscore head_is is_underscore];
     now rewrite andb_false_r|].
  destruct (is_underscore c && is_underscore c') eqn:E; [exact IH|].
  cbn [double_underscore]. rewrite IH, orb_false_r, runs_head.
  exact E.
Qed.

Lemma runs_all_underscore s :
  all_chars is_underscore (sub_underscore_runs s) = all_chars is_underscore s.
Proof.
  induction s as [|c s IH]; [reflexivity|]. rewrite runs_cons.
  destruct s as [|c' s']; [reflexivity|].
  destruct (is_underscore c) eqn:Ec.
  - destruct (is_underscore c') eqn:Ec'; cbn [andb].
    + rewrite IH. cbn [all_chars]. now rewrite Ec, Ec'.
    + cbn [all_chars] in *. rewrite Ec, IH. reflexivity.
  - cbn [andb all_chars]. now rewrite Ec.
Qed.

Lemma sub_nonword_underscore s :
  all_chars is_underscore (sub_nonword s)
  = all_chars (fun c => negb (lower_alnum c)) s.
Proof.
  induction s as [|c s IH]; [reflexivity|].
  cbn [sub_nonword all_chars]. rewrite IH. f_equal.
  unfold lower_alnum. destruct (word_char c) eqn:E; cbn [andb negb].
  - now rewrite negb_involutive.
  - reflexivity.
Qed.

End PyStrFacts.

Lemma dict_get_set {V : Type} (d : list (string * V)) k v k' :
  dict_get (dict_set d k v) k' =
  if String.eqb k k' then Some v else dict_get d k'.
Proof.
  induction d as [|[k0 v0] d IH]; cbn [dict_set dict_get].
  - reflexivity.
  - destruct (String.eqb_spec k0 k) as [->|Hne]; cbn [dict_get].
    + destruct (String.eqb k k'); reflexivity.
    + rewrite IH. destruct (String.eqb_spec k0 k') as [->|Hne'];
        [|reflexivity].
      destruct (String.eqb_spec k k'); [congruence|reflexivity].
Qed.

Section StandardizeFacts.
Import PyStr PyStrFacts.

Lemma build_rename_map_get_from cols acc k :
  dict_get
    (fold_left
       (fun rename_map col =>
          let new := standardize_name col in
          if negb (String.eqb new col) then dict_set rename_map col new
          else rename_map) cols acc) k
  = if existsb (String.eqb k) cols && renamed k
    then Some (standardize_name k) else dict_get acc k.
Proof.
  revert acc. induction cols as [|c cols IH]; intros acc; cbn [fold_left existsb].
  - reflexivity.
  - rewrite IH. cbv zeta. fold (renamed c).
    destruct (String.eqb_spec k c) as [->|Hne]; cbn [orb].
    + destruct (renamed c) eqn:Ec.
      * rewrite dict_get_set, String.eqb_refl.
        rewrite andb_true_r. now destruct (existsb (String.eqb c) cols).
      * now rewrite !andb_false_r.
    + destruct (existsb (String.eqb k) cols && renamed k); [reflexivity|].
      destruct (renamed c); [|reflexivity].
      rewrite dict_get_set. destruct (String.eqb_spec c k); [congruence|reflexivity].
Qed.

Lemma build_rename_map_get cols k :
  dict_get (build_rename_map cols) k
  = if existsb (String.eqb k) cols && renamed k
    then Some (standardize_name k) else None.
Proof. unfold build_rename_map. now rewrite build_rename_map_get_from. Qed.

Lemma existsb_eqb_In k (cols : list string) :
  In k cols -> existsb (String.eqb k) cols = true.
Proof.
  intros H. apply existsb_exists. exists k. split; [exact H|apply String.eqb_refl].
Qed.

Lemma renamed_false k : renamed k = false -> standardize_name k = k.
Proof.
  unfold renamed. intros H. apply negb_false_iff in H.
  now apply String.eqb_eq.
Qed.

Lemma df_rename_labels (d : DataFrame) :
  df_columns (df_rename (build_rename_map (df_columns d)) d)
  = map standardize_name (df_columns d).
Proof.
  unfold df_columns, df_rename. rewrite !map_map.
  apply map_ext_in. intros c Hc.
  rewrite build_rename_map_get.
  rewrite existsb_eqb_In by (apply in_map_iff; eauto). cbn [andb].
  destruct (renamed (label c)) eqn:E; [reflexivity|].
  symmetry. now apply renamed_false.
Qed.

Lemma standardize_columns_labels (p : ETLPipeline) :
  df_columns (df (standardize_columns p))
  = map standardize_name (df_columns (df p)).
Proof.
  unfold standardize_columns.
  destruct (build_rename_map (df_columns (df p))) as [|e m] eqn:E.
  - rewrite <- (map_id (df_columns (df p))) at 1.
    apply map_ext_in. intros k Hk.
    pose proof (build_rename_map_get (df_columns (df p)) k) as G.
    rewrite E, (existsb_eqb_In _ _ Hk) in G. cbn [dict_get andb] in G.
    destruct (renamed k) eqn:Ek; [discriminate|].
    symmetry. now apply renamed_false.
  - cbn [log with_df df]. rewrite <- E. apply df_rename_labels.
Qed.

Lemma standardize_name_shape (col : string) :
  standard_or_empty_name (standardize_name col).
Proof.
  unfold standardize_name, standard_or_empty_name, strip_underscores, strip_by.
  set (t := sub_underscore_runs (sub_nonword (lower (strip col)))).
  assert (Hall : all_chars word_char t = true)
    by (apply runs_all, sub_nonword_all).
  assert (Hdbl : double_underscore t = false) by apply runs_double.
  repeat split.
  - now apply rstrip_all, lstrip_all.
  - rewrite startswith_underscore. apply rstrip_head, lstrip_head.
  - rewrite endswith_underscore. apply rstrip_last.
  - rewrite contains_double. now apply rstrip_double, lstrip_double.
Qed.

Lemma standardize_name_empty (col : string) :
  standardize_name col = ""
  <-> all_chars (fun c => negb (lower_alnum c)) (lower (strip col)) = true.
Proof.
  unfold standardize_name, strip_underscores.
  rewrite strip_empty, runs_all_underscore, sub_nonword_underscore.
  reflexivity.
Qed.

End StandardizeFacts.

(** C2 (as the code has it).  After [standardize_columns] every column is
    named [standardize_name] of its old name; such a name consists of
    characters of [[a-z0-9_]] only and has no leading, trailing or doubled
    underscore; it is the empty string exactly when the trimmed, lower-cased
    old name holds no character of [[a-z0-9]]. *)
Theorem standardize_columns_names (p : ETLPipeline) :
  df_columns (df (standardize_columns p))
  = map standardize_name (df_columns (df p))
  /\ Forall standard_or_empty_name (df_columns (df (standardize_columns p)))
  /\ forall col,
       standardize_name col = ""
       <-> PyStr.all_chars (fun c => negb (lower_alnum c))
                           (PyStr.lower (PyStr.strip col)) = true.
Proof.
  split; [apply standardize_columns_labels|]. split.
  - rewrite standardize_columns_labels. apply Forall_forall.
    intros n Hn. apply in_map_iff in Hn as [col [<- _]].
    apply standardize_name_shape.
  - apply standardize_name_empty.
Qed.

(** C2, refuted as stated: a column named "!" is renamed to the empty
    string, which does not match [^[a-z0-9_]+$]. *)
Lemma standardize_columns_empty_name :
  let p := standardize_columns (init [mkColumn "!" Int64 [Num 1%Q]]) in
  df_columns (df p) = [""]
  /\ ~ Forall standard_name (df_columns (df p)).
Proof.
  split; [reflexivity|].
  intros H. inversion H as [|n l [Hid _] _]; subst.
  discriminate Hid.
Qed.

(* ================================================================== *)
(** * Frames with unique labels *)
(* ================================================================== *)

Section FrameFacts.

Lemma df_get_In (d : DataFrame) (c : column) :
  NoDup (df_columns d) -> In c d -> df_get d (label c) = Some c.
Proof.
  unfold df_get, df_columns.
  induction d as [|c0 d IH]; cbn [map find In]; [tauto|].
  intros Hnd [->|Hin].
  - now rewrite String.eqb_refl.
  - inversion Hnd as [|x l Hnotin Hnd']; subst.
    destruct (String.eqb_spec (label c0) (label c)) as [E|_]; [|auto].
    exfalso. apply Hnotin. rewrite E. now apply in_map.
Qed.

Lemma label_injective (d : DataFrame) (c c' : column) :
  NoDup (df_columns d) -> In c d -> In c' d -> label c = label c' -> c = c'.
Proof.
  intros Hnd Hc Hc' E.
  pose proof (df_get_In d c Hnd Hc) as G.
  pose proof (df_get_In d c' Hnd Hc') as G'.
  rewrite E in G. congruence.
Qed.

Lemma df_cells_In (d : DataFrame) (c : column) :
  NoDup (df_columns d) -> In c d -> df_cells d (label c) = cells c.
Proof. intros Hnd Hc. unfold df_cells. now rewrite df_get_In. Qed.

Lemma df_dtype_In (d : DataFrame) (c : column) :
  NoDup (df_columns d) -> In c d -> df_dtype d (label c) = col_dtype c.
Proof. intros Hnd Hc. unfold df_dtype. now rewrite df_get_In. Qed.

Lemma df_set_map (d : DataFrame) col dt vs :
  NoDup (df_columns d) -> In col (df_columns d) ->
  df_set d col dt vs
  = map (fun c => if String.eqb (label c) col then mkColumn col dt vs else c) d.
Proof.
  unfold df_columns.
  induction d as [|c0 d IH]; cbn [map df_set In]; [tauto|].
  intros Hnd Hin. inversion Hnd as [|x l Hnotin Hnd']; subst.
  destruct (String.eqb_spec (label c0) col) as [E|Hne].
  - f_equal. rewrite <- (map_id d) at 1. apply map_ext_in.
    intros c Hc. destruct (String.eqb_spec (label c) col) as [E'|_]; [|reflexivity].
    exfalso. apply Hnotin. rewrite E, <- E'. now apply in_map.
  - f_equal. apply IH; [assumption|]. destruct Hin; [contradiction|assumption].
Qed.


Lemma select_dtypes_In (f : dtype -> bool) (d : DataFrame) col :
  In col (select_dtypes f d)
  <-> exists c, In c d /\ label c = col /\ f (col_dtype c) = true.
Proof.
  unfold select_dtypes. rewrite in_map_iff. split.
  - intros [c [E Hc]]. apply filter_In in Hc as [Hc Hf]. eauto.
  - intros [c [Hc [E Hf]]]. exists c. split; [exact E|].
    apply filter_In. auto.
Qed.

Lemma NoDup_map_filter {A B : Type} (g : A -> B) (f : A -> bool) (l : list A) :
  NoDup (map g l) -> NoDup (map g (filter f l)).
Proof.
  induction l as [|a l IH]; cbn [map filter]; [trivial|].
  intros H. inversion H as [|x l' Hnotin Hnd]; subst.
  destruct (f a); cbn [map]; [|auto].
  constructor; [|auto]. intros Hin. apply Hnotin.
  apply in_map_iff in Hin as [a' [E Ha']].
  apply filter_In in Ha' as [Ha' _]. rewrite <- E. now apply in_map.
Qed.

Lemma select_dtypes_NoDup (f : dtype -> bool) (d : DataFrame) :
  NoDup (df_columns d) -> NoDup (select_dtypes f d).
Proof. apply NoDup_map_filter. Qed.

Lemma select_dtypes_member (f : dtype -> bool) (d : DataFrame) (c : column) :
  NoDup (df_columns d) -> In c d ->
  existsb (String.eqb (label c)) (select_dtypes f d) = f (col_dtype c).
Proof.
  intros Hnd Hc. destruct (f (col_dtype c)) eqn:E.
  - apply existsb_exists. exists (label c). split; [|apply String.eqb_refl].
    apply select_dtypes_In. eauto.
  - apply not_true_iff_false. intros H.
    apply existsb_exists in H as [k [Hk Ek]].
    apply String.eqb_eq in Ek. subst k.
    apply select_dtypes_In in Hk as [c' [Hc' [El Hf]]].
    assert (c' = c) by (eapply label_injective; eauto). subst. congruence.
Qed.

End FrameFacts.

(* ================================================================== *)
(** * String trimming *)
(* ================================================================== *)

Section TrimFacts.
Context {pandas : Pandas}.

Lemma trim_column_map (d : DataFrame) (col : string) :
  NoDup (df_columns d) -> In col (df_columns d) ->
  trim_column d col
  = map (fun c => if String.eqb (label c) col then trim_col c else c) d.
Proof.
  intros Hnd Hin. unfold trim_column. rewrite df_set_map by assumption.
  apply map_ext_in. intros c Hc.
  destruct (String.eqb_spec (label c) col) as [<-|_]; [|reflexivity].
  unfold trim_col. now rewrite df_cells_In.
Qed.

Lemma trim_col_label (c : column) : label (trim_col c) = label c.
Proof. reflexivity. Qed.

Lemma fold_trim_column (cols : list string) (d : DataFrame) :
  NoDup (df_columns d) -> NoDup cols -> incl cols (df_columns d) ->
  fold_left trim_column cols d
  = map (fun c => if existsb (String.eqb (label c)) cols then trim_col c else c) d.
Proof.
  revert d. induction cols as [|k ks IH]; intros d Hnd Hks Hincl.
  - cbn [fold_left existsb]. now rewrite map_id.
  - cbn [fold_left]. inversion Hks as [|x l Hk Hks']; subst.
    assert (Hin : In k (df_columns d)) by (apply Hincl; now left).
    rewrite trim_column_map by assumption.
    set (f := fun c => if String.eqb (label c) k then trim_col c else c).
    assert (Hlab : df_columns (map f d) = df_columns d).
    { unfold df_columns. rewrite map_map. apply map_ext. intros c.
      unfold f. now destruct (String.eqb (label c) k). }
    rewrite IH; [|now rewrite Hlab|assumption|].
    + rewrite map_map. apply map_ext. intros c. unfold f. cbn [existsb].
      destruct (String.eqb_spec (label c) k) as [E|Hne]; cbn [orb].
      * rewrite trim_col_label.
        destruct (existsb (String.eqb (label c)) ks) eqn:Ex; [|reflexivity].
        exfalso. apply existsb_exists in Ex as [k' [Hk' Ek']].
        apply String.eqb_eq in Ek'. subst. congruence.
      * reflexivity.
    + rewrite Hlab. intros x Hx. apply Hincl. now right.
Qed.

Lemma trim_strings_df (p : ETLPipeline) :
  NoDup (df_columns (df p)) ->
  df (trim_strings p)
  = map (fun c => if is_object (col_dtype c) then trim_col c else c) (df p).
Proof.
  intros Hnd. unfold trim_strings.
  assert (E : fold_left trim_column (select_dtypes is_object (df p)) (df p)
              = map (fun c => if is_object (col_dtype c) then trim_col c else c)
                    (df p)).
  { rewrite fold_trim_column.
    - apply map_ext_in. intros c Hc. now rewrite select_dtypes_member.
    - assumption.
    - now apply select_dtypes_NoDup.
    - intros k Hk. apply select_dtypes_In in Hk as [c [Hc [<- _]]].
      unfold df_columns. now apply in_map. }
  destruct (select_dtypes is_object (df p)); cbn [log with_df df]; exact E.
Qed.

Lemma trim_cell_trimmed (v : value) : is_trimmed_cell (trim_cell v) = true.
Proof.
  unfold trim_cell, replace_null_strings.
  destruct (_ || _ || _); [reflexivity|].
  cbn [is_trimmed_cell]. apply PyStrFacts.strip_trimmed.
Qed.

Lemma trim_cell_cases (v : value) :
  let s := PyStr.strip (py_str v) in
  (s = "nan" \/ s = "None" \/ s = "" -> trim_cell v = NA)
  /\ (s <> "nan" -> s <> "None" -> s <> "" -> trim_cell v = Str s).
Proof.
  cbv zeta. unfold trim_cell, replace_null_strings. split.
  - intros [-> | [-> | ->]]; reflexivity.
  - intros H1 H2 H3.
    destruct (String.eqb_spec (PyStr.strip (py_str v)) "nan"); [contradiction|].
    destruct (String.eqb_spec (PyStr.strip (py_str v)) "None"); [contradiction|].
    destruct (String.eqb_spec (PyStr.strip (py_str v)) ""); [contradiction|].
    reflexivity.
Qed.

End TrimFacts.

(** C10.  On a frame with unique labels, [trim_strings] keeps the columns
    and their labels, rewrites every cell of every object column to
    [trim_cell] of it and leaves the other columns alone; [trim_cell v] is
    the missing marker when [str(v).strip()] is "nan", "None" or "", and
    that stripped string otherwise; so every column that is an object
    column afterwards holds only missing values and strings with no
    whitespace at either end. *)
Theorem trim_strings_object_columns {pandas : Pandas} (p : ETLPipeline) :
  NoDup (df_columns (df p)) ->
  Forall2 (fun c c' =>
             label c' = label c
             /\ (is_object (col_dtype c) = true ->
                 cells c' = map trim_cell (cells c))
             /\ (is_object (col_dtype c) = false -> c' = c))
          (df p) (df (trim_strings p))
  /\ (forall v,
        let s := PyStr.strip (py_str v) in
        (s = "nan" \/ s = "None" \/ s = "" -> trim_cell v = NA)
        /\ (s <> "nan" -> s <> "None" -> s <> "" -> trim_cell v = Str s))
  /\ Forall (fun c => is_object (col_dtype c) = true ->
                      forallb is_trimmed_cell (cells c) = true)
            (df (trim_strings p)).
Proof.
  intros Hnd. rewrite trim_strings_df by assumption. split; [|split].
  - clear Hnd. induction (df p) as [|c d IH]; cbn [map]; [constructor|].
    constructor; [|exact IH].
    destruct (is_object (col_dtype c)); cbn [label cells];
      repeat split; intros; congruence.
  - apply trim_cell_cases.
  - apply Forall_forall. intros c' Hc' Hobj.
    apply in_map_iff in Hc' as [c [<- Hc]].
    destruct (is_object (col_dtype c)) eqn:E.
    + cbn [cells]. apply forallb_forall. intros v Hv.
      apply in_map_iff in Hv as [v0 [<- _]]. apply trim_cell_trimmed.
    + rewrite E in Hobj. discriminate.
Qed.

(** C10 at a column that mixes padded text, a missing cell, a null string
    and a non-string object. *)
Lemma trim_strings_object_columns_witness :
  let p := init [mkColumn "a" Object [Str " x "; NA; Str "None"; Obj "12 "]] in
  NoDup (df_columns (df p))
  /\ df_cells (df (@trim_strings plain_pandas p)) "a"
     = [Str "x"; NA; NA; Str "12"]
  /\ Forall (fun c => is_object (col_dtype c) = true ->
                      forallb is_trimmed_cell (cells c) = true)
            (df (@trim_strings plain_pandas p)).
Proof.
  cbv zeta.
  assert (H : NoDup (df_columns
                (df (init [mkColumn "a" Object
                             [Str " x "; NA; Str "None"; Obj "12 "]])))).
  { repeat constructor. intros []. }
  split; [exact H|]. split; [reflexivity|].
  exact (proj2 (proj2 (@trim_strings_object_columns plain_pandas _ H))).
Defined.

(* ================================================================== *)
(** * The price-per-unit scenario *)
(* ================================================================== *)

(** C7.  Whatever the library routines do, running the pipeline on
    price=[10,20,30,40], qty=[2,2,0,1] keeps both columns as they are,
    appends price_per_unit = [5, 10, missing, 40] as the only new column,
    and logs the dtype optimisation and the new column. *)
Theorem run_price_per_unit {pandas : Pandas} :
  let cleaned := run (init price_qty_table) in
  df_columns (df cleaned) = ["price"; "qty"; "price_per_unit"]
  /\ df_cells (df cleaned) "price" = [Num 10%Q; Num 20%Q; Num 30%Q; Num 40%Q]
  /\ df_cells (df cleaned) "qty" = [Num 2%Q; Num 2%Q; Num 0%Q; Num 1%Q]
  /\ df_cells (df cleaned) "price_per_unit"
     = [Num 5%Q; Num 10%Q; NA; Num 40%Q]
  /\ transformations cleaned = [optimized_dtypes; created_price_per_unit].
Proof. cbv zeta. repeat split; vm_compute; reflexivity. Qed.

(* ================================================================== *)
(** * Reads leave the frame alone *)
(* ================================================================== *)

Module PyFacts.

Lemma ret_ro {A : Type} (a : A) : Py.read_only (Py.ret a).
Proof. intros d. reflexivity. Qed.

Lemma raise_ro {A : Type} : Py.read_only (@Py.raise A).
Proof. intros d. reflexivity. Qed.

Lemma of_option_ro {A : Type} (o : option A) : Py.read_only (Py.of_option o).
Proof. intros d. reflexivity. Qed.

Lemma columns_ro : Py.read_only Py.columns.
Proof. intros d. reflexivity. Qed.

Lemma len_ro : Py.read_only Py.len.
Proof. intros d. reflexivity. Qed.

Lemma getitem_ro col : Py.read_only (Py.getitem col).
Proof. intros d. reflexivity. Qed.

Lemma bind_ro {A B : Type} (m : Py.M A) (f : A -> Py.M B) :
  Py.read_only m -> (forall a, Py.read_only (f a)) -> Py.read_only (Py.bind m f).
Proof.
  intros Hm Hf d. unfold Py.bind. specialize (Hm d).
  destruct (m d) as [[a|] d']; cbn [snd] in *; subst; [apply Hf|reflexivity].
Qed.

Lemma try_except_ro {A : Type} (m h : Py.M A) :
  Py.read_only m -> Py.read_only h -> Py.read_only (Py.try_except m h).
Proof.
  intros Hm Hh d. unfold Py.try_except. specialize (Hm d).
  destruct (m d) as [[a|] d']; cbn [snd] in *; subst; [reflexivity|apply Hh].
Qed.

Lemma for_each_ro {X Y : Type} (xs : list X) (body : X -> Py.M (list Y)) :
  (forall x, Py.read_only (body x)) -> Py.read_only (Py.for_each xs body).
Proof.
  intros Hb. induction xs as [|x xs IH]; cbn [Py.for_each].
  - apply ret_ro.
  - apply bind_ro; [apply Hb|]. intros ys.
    apply bind_ro; [exact IH|]. intros rest. apply ret_ro.
Qed.

Lemma fold_m_ro {S X : Type} (step : S -> X -> Py.M S) (xs : list X) (s : S) :
  (forall s x, Py.read_only (step s x)) -> Py.read_only (Py.fold_m step xs s).
Proof.
  intros Hs. revert s. induction xs as [|x xs IH]; intros s; cbn [Py.fold_m].
  - apply ret_ro.
  - apply bind_ro; [apply Hs|]. intros s'. apply IH.
Qed.

Lemma for_each_cons {X Y : Type} (x : X) xs (body : X -> Py.M (list Y)) d :
  (forall x, Py.read_only (body x)) ->
  fst (Py.for_each (x :: xs) body d)
  = match fst (body x d) with
    | Some ys =>
        match fst (Py.for_each xs body d) with
        | Some rest => Some (ys ++ rest)
        | None => None
        end
    | None => None
    end.
Proof.
  intros Hb. cbn [Py.for_each]. unfold Py.bind.
  pose proof (Hb x d) as Hx. destruct (body x d) as [[ys|] d1]; cbn [fst snd] in *;
    [subst d1|reflexivity].
  pose proof (for_each_ro xs body Hb d) as Hxs.
  destruct (Py.for_each xs body d) as [[rest|] d2]; reflexivity.
Qed.

Lemma getitems_ro cols : Py.read_only (Py.getitems cols).
Proof.
  induction cols as [|c cols IH]; cbn [Py.getitems].
  - apply ret_ro.
  - apply bind_ro; [apply getitem_ro|]. intros x.
    apply bind_ro; [exact IH|]. intros rest. apply ret_ro.
Qed.

(** A write is not a read: the predicate is not satisfied by everything. *)
Lemma setitem_not_ro : ~ Py.read_only (Py.setitem "a" Int64 []).
Proof. intros H. specialize (H []). discriminate H. Qed.

(** Running a bind whose first part is read-only. *)
Lemma bind_run {A B : Type} (m : Py.M A) (f : A -> Py.M B) d :
  Py.read_only m ->
  Py.bind m f d
  = match fst (m d) with
    | Some a => f a d
    | None => (None, d)
    end.
Proof.
  intros Hm. unfold Py.bind. specialize (Hm d).
  destruct (m d) as [[a|] d']; cbn [fst snd] in *; now subst.
Qed.

End PyFacts.

Create HintDb read_only.
#[export] Hint Resolve PyFacts.ret_ro PyFacts.raise_ro PyFacts.of_option_ro
  PyFacts.columns_ro PyFacts.len_ro PyFacts.getitem_ro PyFacts.getitems_ro
  : read_only.

(** Break a goal [read_only m] down along the shape of [m]. *)
Ltac read_only_step :=
  match goal with
  | |- Py.read_only (Py.bind _ _) => apply PyFacts.bind_ro; [|intros ?]
  | |- Py.read_only (Py.try_except _ _) => apply PyFacts.try_except_ro
  | |- Py.read_only (Py.for_each _ _) => apply PyFacts.for_each_ro; intros ?
  | |- Py.read_only (Py.fold_m _ _ _) => apply PyFacts.fold_m_ro; intros ? ?
  | |- Py.read_only (if ?b then _ else _) => destruct b
  | |- Py.read_only (match ?x with _ => _ end) => destruct x
  | |- Py.read_only _ => solve [auto with read_only]
  end.

Ltac read_only := repeat read_only_step.

(* ================================================================== *)
(** * The insight engine only reads its table *)
(* ================================================================== *)

Section InsightsReadOnly.
Context {pandas : Pandas} {analytics : Analytics}.

Lemma classify_columns_ro : Py.read_only classify_columns.
Proof. unfold classify_columns. read_only. Qed.

Lemma stats_for_ro col : Py.read_only (stats_for col).
Proof. unfold stats_for. read_only. Qed.

Lemma descriptive_stats_ro cols : Py.read_only (descriptive_stats cols).
Proof. apply PyFacts.for_each_ro, stats_for_ro. Qed.

Lemma correlation_matrix_ro cols : Py.read_only (correlation_matrix cols).
Proof. unfold correlation_matrix. read_only. Qed.

Lemma distribution_analysis_ro cols : Py.read_only (distribution_analysis cols).
Proof. unfold distribution_analysis. read_only. Qed.

Lemma frequency_tables_ro cols : Py.read_only (frequency_tables cols).
Proof. unfold frequency_tables. read_only. Qed.

Lemma line_chart_ro dt_col num_col : Py.read_only (line_chart dt_col num_col).
Proof. unfold line_chart. read_only. Qed.

Lemma category_bar_chart_ro cat_col num_col :
  Py.read_only (category_bar_chart cat_col num_col).
Proof. unfold category_bar_chart. read_only. Qed.

Lemma category_chart_ro cat_col : Py.read_only (category_chart cat_col).
Proof. unfold category_chart. read_only. Qed.

Lemma histogram_chart_ro num_col : Py.read_only (histogram_chart num_col).
Proof. unfold histogram_chart. read_only. Qed.

Lemma scatter_for_ro pair : Py.read_only (scatter_for pair).
Proof. unfold scatter_for. read_only. Qed.

Lemma auto_select_charts_ro col_types corr_data :
  Py.read_only (auto_select_charts col_types corr_data).
Proof.
  unfold auto_select_charts.
  repeat first
    [ apply line_chart_ro | apply category_bar_chart_ro
    | apply category_chart_ro | apply histogram_chart_ro
    | apply scatter_for_ro | read_only_step ].
Qed.

Lemma trend_for_ro dt_col num_col : Py.read_only (trend_for dt_col num_col).
Proof. unfold trend_for. read_only. Qed.

Lemma generate_nlg_insights_ro col_types stats_data corr_data freq_data :
  Py.read_only (generate_nlg_insights col_types stats_data corr_data freq_data).
Proof.
  unfold generate_nlg_insights.
  repeat first [ apply trend_for_ro | read_only_step ].
Qed.

End InsightsReadOnly.

(** C9.  Whether it returns or raises, [generate_full_insights] leaves the
    DataFrame object it was given exactly as it was: the same columns in
    the same order, with the same labels, dtypes and cells. *)
Theorem generate_full_insights_reads_only
    {pandas : Pandas} {analytics : Analytics} (d : DataFrame) :
  Py.state_after generate_full_insights d = d.
Proof.
  unfold Py.state_after. revert d.
  change (Py.read_only generate_full_insights).
  unfold generate_full_insights.
  repeat first
    [ apply classify_columns_ro | apply descriptive_stats_ro
    | apply correlation_matrix_ro | apply distribution_analysis_ro
    | apply frequency_tables_ro | apply auto_select_charts_ro
    | apply generate_nlg_insights_ro | read_only_step ].
Qed.

(* ================================================================== *)
(** * Descriptive statistics *)
(* ================================================================== *)

Section StatsFacts.
Context {pandas : Pandas} {analytics : Analytics}.

Lemma dropna_length_le (s : list value) :
  List.length (Series.dropna s) <= List.length s.
Proof. apply filter_length_le. Qed.

Lemma dropna_count_na (s : list value) :
  List.length (Series.dropna s) + Series.count_na s = List.length s.
Proof.
  unfold Series.dropna, Series.count_na, notna.
  induction s as [|v s IH]; cbn [filter List.length]; [reflexivity|].
  destruct (isna v); cbn [negb List.length]; lia.
Qed.

Lemma df_get_length (d : DataFrame) col c :
  rectangular d ->
  df_get d col = Some c -> List.length (cells c) = df_len d.
Proof.
  intros Hall G. unfold df_get in G. apply find_some in G as [Hin _].
  unfold rectangular in Hall. rewrite Forall_forall in Hall. now apply Hall.
Qed.

Lemma stats_for_result (d : DataFrame) (col : string) :
  rectangular d ->
  match fst (stats_for col d) with
  | Some recs => Forall (fun r => st_column r = col /\ stat_record_ok d r) recs
  | None => df_get d col = None
  end.
Proof.
  intros Hrect. unfold stats_for, Py.bind, Py.getitem, Py.len, Py.ret.
  destruct (df_get d col) as [c|] eqn:G; cbn [fst]; [|reflexivity].
  destruct (Series.dropna (cells c)) as [|v vs] eqn:Edrop; cbn [fst].
  - constructor.
  - rewrite G. cbn [fst]. constructor; [|constructor].
    split; [reflexivity|].
    unfold stat_record_ok, df_cells, percent.
    cbn [st_column st_count st_missing_pct]. rewrite G, Edrop.
    repeat split.
    + cbn. lia.
    + rewrite <- (df_get_length d col c Hrect G), <- Edrop.
      apply dropna_count_na.
Qed.

End StatsFacts.

(** C3 (as the code has it).  On a rectangular frame, every record
    [descriptive_stats] emits belongs to one of the requested columns; its
    [missing_pct] is the number of missing cells of that column in the
    frame as passed, divided in float64 by the row count of that frame,
    times 100, rounded to 2 decimals.  The divisor is not the [count] of
    the record, which is what the column's own [dropna()] left: count and
    missing cells add up to the row count.  The call raises only on a
    column that is not in the frame. *)
Theorem descriptive_stats_missing_pct
    {pandas : Pandas} {analytics : Analytics}
    (numeric_cols : list string) (d : DataFrame) :
  rectangular d ->
  match Py.result (descriptive_stats numeric_cols) d with
  | Some recs =>
      Forall
        (fun r =>
           let s := df_cells d (st_column r) in
           In (st_column r) numeric_cols
           /\ st_count r = List.length (Series.dropna s)
           /\ 0 < st_count r
           /\ st_count r + Series.count_na s = df_len d
           /\ st_missing_pct r
              = Float.round 2
                  (Float.mul (Float.div (Float.of_nat (Series.count_na s))
                                        (Float.of_nat (df_len d)))
                             (Num 100%Q)))
        recs
  | None => exists col, In col numeric_cols /\ df_get d col = None
  end.
Proof.
  intros Hrect. unfold Py.result, descriptive_stats.
  induction numeric_cols as [|col cols IH].
  - constructor.
  - rewrite PyFacts.for_each_cons by apply stats_for_ro.
    pose proof (stats_for_result d col Hrect) as Hcol.
    destruct (fst (stats_for col d)) as [ys|].
    2:{ exists col. split; [now left|exact Hcol]. }
    destruct (fst (Py.for_each cols stats_for d)) as [rest|].
    + apply Forall_app. split.
      * eapply Forall_impl; [|exact Hcol].
        intros r [E H]. split; [left; now symmetry|exact H].
      * eapply Forall_impl; [|exact IH].
        intros r [H1 H2]. split; [now right|exact H2].
    + destruct IH as [c0 [H1 H2]]. exists c0. split; [now right|exact H2].
Qed.

(** C3 on a frame of 160 rows whose column x misses 23 cells and whose
    column y misses all of them: one record, for x, with count 137.  The
    quotient 23 / 160 * 100 is 14.374999999999998 in float64, so the record
    says 14.37 (the float64 next to it), where 14.375 would round to
    14.38. *)
Lemma descriptive_stats_missing_pct_witness :
  let d := [ mkColumn "x" Float64 (repeat (Num 1%Q) 137 ++ repeat NA 23);
             mkColumn "y" Float64 (repeat NA 160) ] in
  rectangular d
  /\ (exists r,
        Py.result (@descriptive_stats plain_pandas plain_analytics ["x"; "y"]) d
        = Some [r]
        /\ st_column r = "x" /\ st_count r = 137
        /\ st_missing_pct r = Float.binary64 (1437 # 100)
        /\ st_missing_pct r <> Float.binary64 (1438 # 100)).
Proof.
  cbv zeta.
  set (d := [ mkColumn "x" Float64 (repeat (Num 1%Q) 137 ++ repeat NA 23);
              mkColumn "y" Float64 (repeat NA 160) ]).
  assert (H : rectangular d).
  { unfold d. repeat constructor; cbn [cells df_len];
      rewrite ?length_app, !repeat_length; reflexivity. }
  split; [exact H|].
  pose proof (@descriptive_stats_missing_pct plain_pandas plain_analytics
                ["x"; "y"] d H) as T.
  destruct (Py.result (@descriptive_stats plain_pandas plain_analytics
                         ["x"; "y"]) d) as [recs|] eqn:E.
  2:{ exfalso. destruct T as [col [[<-|[<-|[]]] G]]; discriminate G. }
  assert (E' : Some recs
               = Some [ {| st_column := "x"; st_count := 137;
                           st_mean := Num 1%Q; st_median := Num 1%Q;
                           st_std := NA; st_min := Num 1%Q; st_max := Num 1%Q;
                           st_skewness := NA; st_kurtosis := NA;
                           st_missing_pct := Float.binary64 (1437 # 100) |} ]).
  { rewrite <- E. vm_compute. reflexivity. }
  injection E' as ->. eexists. split; [reflexivity|].
  apply Forall_inv in T. cbv beta zeta in T.
  destruct T as (_ & _ & _ & _ & Hpct).
  split; [reflexivity|]. split; [reflexivity|].
  split; [reflexivity|].
  rewrite Hpct. vm_compute. discriminate.
Defined.

(** C3, refuted for the table as it was before cleaning: [descriptive_stats]
    sees only the frame it is passed.  Column x of the table below misses 1
    of 4 cells (25 percent); the pipeline drops the duplicate row and fills
    the missing cell, and the record computed on its output says 0
    percent of 3 rows. *)
Lemma descriptive_stats_after_cleaning :
  let original := [ mkColumn "x" Float64 [Num 1%Q; NA; Num 3%Q; Num 3%Q] ] in
  let cleaned := df (@run plain_pandas (init original)) in
  (df_len original = 4 /\ Series.count_na (df_cells original "x") = 1
   /\ Float.round 2 (percent 1 4) = Num 25%Q)
  /\ transformations (@run plain_pandas (init original))
     = [ removed_duplicates 1; filled_missing "x" mean_fill 1;
         optimized_dtypes ]
  /\ df_len cleaned = 3
  /\ exists r,
       Py.result (@descriptive_stats plain_pandas plain_analytics ["x"]) cleaned
       = Some [r]
       /\ st_count r = 3
       /\ st_missing_pct r = Num 0%Q.
Proof.
  cbv zeta. split; [repeat split; vm_compute; reflexivity|].
  split; [vm_compute; reflexivity|]. split; [vm_compute; reflexivity|].
  eexists. split; [vm_compute; reflexivity|]. split; reflexivity.
Qed.

(* ================================================================== *)
(** * Chart selection *)
(* ================================================================== *)

Section ChartFacts.
Context {pandas : Pandas} {analytics : Analytics}.

(** The single-categorical rule never reaches its "bar" branch: the value
    counts are cut to [MAX_PIE_CATEGORIES] before their length is tested. *)
Lemma category_chart_always_pie (cat_col : string) (d : DataFrame) :
  match Py.result (category_chart cat_col) d with
  | Some charts => Forall (fun ch => chart_type_of ch = "pie") charts
  | None => df_get d cat_col = None
  end.
Proof.
  unfold Py.result, category_chart, Py.bind, Py.getitem, Py.ret.
  destruct (df_get d cat_col) as [c|]; cbn [fst]; [|reflexivity].
  destruct (firstn config.MAX_PIE_CATEGORIES (Series.value_counts (cells c)))
    as [|x vc] eqn:E; cbn [fst]; [constructor|].
  constructor; [|constructor]. unfold _build_chart_config. cbn [chart_type_of].
  assert (H : List.length (x :: vc) <= config.MAX_PIE_CATEGORIES)
    by (rewrite <- E; apply firstn_le_length).
  apply Nat.leb_le in H. rewrite H. reflexivity.
Qed.

End ChartFacts.

Section StrideFacts.

Lemma stride_from_length {A : Type} (skip step : nat) (l : list A) :
  skip < step ->
  List.length (stride_from skip step l)
  = (List.length l + (step - 1) - skip) / step.
Proof.
  intros Hskip. revert skip Hskip.
  induction l as [|x l IH]; intros skip Hskip; cbn [stride_from List.length].
  - symmetry. apply Nat.div_small. lia.
  - destruct skip as [|k].
    + cbn [List.length]. rewrite IH by lia.
      replace (List.length l + (step - 1) - (step - 1)) with (List.length l) by lia.
      replace (S (List.length l) + (step - 1) - 0)
        with (List.length l + 1 * step) by lia.
      rewrite Nat.div_add; lia.
    + rewrite IH by lia. reflexivity.
Qed.

(** [l[::step]] keeps ceil(len(l) / step) elements. *)
Lemma slice_step_length {A : Type} (step : nat) (l : list A) :
  0 < step ->
  List.length (slice_step step l) = (List.length l + (step - 1)) / step.
Proof.
  intros H. unfold slice_step. rewrite stride_from_length by assumption.
  now rewrite Nat.sub_0_r.
Qed.

(** The number of points of a line chart over [n] complete rows: all of
    them up to 200, and ceil(n / (n // 200)) beyond, which lies between 200
    and 399. *)
Lemma subsample_length {A : Type} (l : list A) :
  let n := List.length l in
  200 < n ->
  List.length (slice_step (n / 200) l) = (n + (n / 200 - 1)) / (n / 200)
  /\ 200 <= (n + (n / 200 - 1)) / (n / 200) <= 399.
Proof.
  cbv zeta. intros Hn.
  set (n := List.length l) in *.
  assert (Hs : 1 <= n / 200) by (apply Nat.div_le_lower_bound; lia).
  split; [apply slice_step_length; lia|].
  set (s := n / 200) in *.
  assert (Hlo : 200 * s <= n) by (apply Nat.Div0.mul_div_le).
  assert (Hhi : n < 200 * (s + 1)).
  { pose proof (Nat.mul_succ_div_gt n 200 ltac:(lia)) as H. fold s in H. lia. }
  split.
  - apply Nat.div_le_lower_bound; [lia|]. nia.
  - assert (H : (n + (s - 1)) / s < 400); [|lia].
    apply Nat.Div0.div_lt_upper_bound. nia.
Qed.

End StrideFacts.

(** C5, the code at a column of eight distinct values: it answers a pie
    chart of the seven most frequent ones where the claim asks for a bar
    chart. *)
Theorem auto_select_charts_eight_categories
    {pandas : Pandas} {analytics : Analytics} :
  Py.result (auto_select_charts (mkColumnTypes [] ["c"] []) (mkCorr [] []))
            eight_categories
  = Some
      [ chart_config "pie" "Distribution of c"
          ["a"; "b"; "c"; "d"; "e"; "f"; "g"]
          [ mkDataset "c"
              [Num 8%Q; Num 7%Q; Num 6%Q; Num 5%Q; Num 4%Q; Num 3%Q; Num 2%Q]
              (firstn 7 palette) None ] ]
  /\ Series.nunique (df_cells eight_categories "c") = 8.
Proof. split; vm_compute; reflexivity. Qed.

(** C6, the code at a series of 201 complete rows: the stride is
    201 // 200 = 1, so the line chart plots all 201 points. *)
Theorem line_chart_201_points {pandas : Pandas} {analytics : Analytics} :
  option_map (map n_points)
             (Py.result (line_chart "t" "v") (time_series 201))
  = Some [201].
Proof. vm_compute. reflexivity. Qed.

(* ================================================================== *)
(** * The stable sort *)
(* ================================================================== *)

Section SortFacts.
Variable A : Type.
Variable le : A -> A -> bool.

Lemma insert_by_In (x y : A) (l : list A) :
  In y (insert_by le x l) <-> y = x \/ In y l.
Proof.
  induction l as [|z l IH]; cbn [insert_by In].
  - intuition congruence.
  - destruct (le x z); cbn [In]; [intuition congruence|].
    rewrite IH. intuition congruence.
Qed.

Lemma sort_by_In (y : A) (l : list A) : In y (sort_by le l) <-> In y l.
Proof.
  unfold sort_by. induction l as [|x l IH]; cbn [fold_right In]; [tauto|].
  rewrite insert_by_In, IH. intuition congruence.
Qed.

Lemma insert_by_length (x : A) (l : list A) :
  List.length (insert_by le x l) = S (List.length l).
Proof.
  induction l as [|z l IH]; cbn [insert_by]; [reflexivity|].
  destruct (le x z); cbn [List.length]; [reflexivity|now rewrite IH].
Qed.

Lemma sort_by_length (l : list A) : List.length (sort_by le l) = List.length l.
Proof.
  unfold sort_by. induction l as [|x l IH]; cbn [fold_right]; [reflexivity|].
  rewrite insert_by_length. cbn. now rewrite IH.
Qed.

Lemma sort_by_Forall (P : A -> Prop) (l : list A) :
  Forall P l -> Forall P (sort_by le l).
Proof.
  rewrite !Forall_forall. intros H y Hy. apply H. now apply sort_by_In.
Qed.

(** Elements on which [le] is total come out sorted. *)
Variable ok : A -> Prop.
Hypothesis le_total : forall a b, ok a -> ok b -> le a b = true \/ le b a = true.

Lemma insert_by_HdRel (a x : A) (l : list A) :
  HdRel (fun u v => le u v = true) a l -> le a x = true ->
  HdRel (fun u v => le u v = true) a (insert_by le x l).
Proof.
  intros Hl Hax. destruct l as [|z l]; cbn [insert_by]; [now constructor|].
  destruct (le x z); constructor; [assumption|].
  now inversion Hl.
Qed.

Lemma insert_by_Sorted (x : A) (l : list A) :
  ok x -> Forall ok l ->
  Sorted (fun u v => le u v = true) l ->
  Sorted (fun u v => le u v = true) (insert_by le x l).
Proof.
  intros Hx Hok Hs. induction l as [|z l IH]; cbn [insert_by].
  - repeat constructor.
  - destruct (le x z) eqn:E.
    + constructor; [assumption|]. now constructor.
    + apply Sorted_inv in Hs as [Hs Hhd].
      apply Forall_cons_iff in Hok as [Hz Hok].
      constructor; [now apply IH|].
      apply insert_by_HdRel; [assumption|].
      destruct (le_total x z Hx Hz); congruence.
Qed.

Lemma sort_by_Sorted (l : list A) :
  Forall ok l -> Sorted (fun u v => le u v = true) (sort_by le l).
Proof.
  unfold sort_by. induction l as [|x l IH]; intros Hok; cbn [fold_right].
  - constructor.
  - apply Forall_cons_iff in Hok as [Hx Hok].
    apply insert_by_Sorted; [assumption| |now apply IH].
    now apply sort_by_Forall.
Qed.

End SortFacts.

(* ================================================================== *)
(** * Pearson correlation *)
(* ================================================================== *)

Section CorrFacts.
Local Open Scope R_scope.
Import Corr.




End CorrFacts.

Section CorrelationMatrixFacts.
Context {analytics : Analytics}.






Lemma df_get_label (d : DataFrame) col c :
  df_get d col = Some c -> label c = col /\ In c d.
Proof.
  unfold df_get. intros G. apply find_some in G as [Hin E].
  now apply String.eqb_eq in E.
Qed.


Variable subset : DataFrame.
Variable cols : list string.






End CorrelationMatrixFacts.

Section CorrelationMatrixSpec.
Context {analytics : Analytics}.



End CorrelationMatrixSpec.



(* ================================================================== *)
(** * Which steps log only when they change the frame *)
(* ================================================================== *)

Section StepFacts.
Context {pandas : Pandas}.

(** Step 1. *)
Lemma build_rename_map_nonempty (cols : list string) e m :
  build_rename_map cols = e :: m ->
  In (fst e) cols /\ renamed (fst e) = true.
Proof.
  intros E. pose proof (build_rename_map_get cols (fst e)) as G.
  rewrite E in G. destruct e as [k v]. cbn [dict_get fst] in G.
  rewrite String.eqb_refl in G.
  destruct (existsb (String.eqb k) cols) eqn:Ex; [|discriminate].
  destruct (renamed k) eqn:Er; [|discriminate].
  cbn [fst]. split; [|exact Er]. apply existsb_exists in Ex as [x [Hx Ek]].
  apply String.eqb_eq in Ek. now subst.
Qed.

Lemma standardize_columns_logs_on_change (p : ETLPipeline) :
  logs_only_on_change standardize_columns p.
Proof.
  unfold logs_only_on_change. intros Hdf.
  pose proof (standardize_columns_labels p) as Hlab. rewrite Hdf in Hlab.
  unfold standardize_columns in *.
  destruct (build_rename_map (df_columns (df p))) as [|e m] eqn:E;
    [reflexivity|].
  exfalso. apply build_rename_map_nonempty in E as [Hin Hren].
  assert (Hfix : standardize_name (fst e) = fst e).
  { clear - Hlab Hin. induction (df_columns (df p)) as [|l ls IH];
      [contradiction|].
    cbn [map] in Hlab. injection Hlab as H1 H2.
    destruct Hin as [->|Hin]; [now symmetry|auto]. }
  unfold renamed in Hren. rewrite Hfix, String.eqb_refl in Hren. discriminate.
Qed.

(** Step 3. *)
Lemma remove_duplicates_logs_on_change (p : ETLPipeline) :
  logs_only_on_change remove_duplicates p.
Proof.
  unfold logs_only_on_change, remove_duplicates. cbn [with_df df].
  destruct (Nat.ltb_spec 0 (df_len (df p) - df_len (drop_duplicates (df p))))
    as [Hpos|_]; cbn [log with_df df transformations]; [|reflexivity].
  intros Hdf. exfalso. rewrite Hdf in Hpos. lia.
Qed.

(** Step 9. *)
Lemma no_inf_when_fixed (vs : list value) :
  map (fun v => if is_inf v then NA else v) vs = vs -> filter is_inf vs = [].
Proof.
  induction vs as [|v vs IH]; cbn [map filter]; [reflexivity|].
  intros E. injection E as Ev Evs.
  destruct (is_inf v) eqn:Hv; [subst v; discriminate|auto].
Qed.

Lemma count_inf_cons (c : column) (d : DataFrame) :
  count_inf (c :: d)
  = (if is_np_number (col_dtype c)
     then List.length (filter is_inf (cells c)) else 0) + count_inf d.
Proof.
  unfold count_inf. cbn [filter].
  destruct (is_np_number (col_dtype c)); reflexivity.
Qed.

Lemma replace_inf_changes (d : DataFrame) :
  0 < count_inf d -> replace_inf d <> d.
Proof.
  intros Hpos E. revert Hpos. apply Nat.le_ngt.
  induction d as [|c d IH]; [cbn; lia|].
  rewrite count_inf_cons. unfold replace_inf in E. cbn [map] in E.
  injection E as Ec Ed. specialize (IH Ed).
  destruct c as [l dt vs]. cbn [cells label col_dtype] in *.
  injection Ec as Ec. rewrite (no_inf_when_fixed vs Ec).
  destruct (is_np_number dt); cbn [List.length]; lia.
Qed.

Lemma filter_length_eq {A : Type} (f : A -> bool) (l : list A) :
  filter f l = l -> forall x, In x l -> f x = true.
Proof.
  intros E x Hx. rewrite <- E in Hx. now apply filter_In in Hx.
Qed.

Lemma validate_output_logs_on_change (p : ETLPipeline) :
  logs_only_on_change validate_output p.
Proof.
  unfold logs_only_on_change, validate_output. cbv zeta.
  destruct (Nat.ltb_spec 0 (count_inf (df p))) as [Hinf|Hinf].
  - cbn [log with_df df transformations].
    destruct (map label (filter all_null (replace_inf (df p)))) as [|n ns] eqn:En;
      cbn [log with_df df transformations].
    + intros Hdf. exfalso. now apply (replace_inf_changes (df p)).
    + intros Hdf. exfalso.
      assert (Hlen : List.length (replace_inf (df p)) = List.length (df p))
        by (unfold replace_inf; apply length_map).
      assert (Hin : In n (map label (filter all_null (replace_inf (df p)))))
        by (rewrite En; now left).
      apply in_map_iff in Hin as [c [Ec Hc]]. apply filter_In in Hc as [Hc _].
      apply replace_inf_changes in Hinf. 
      assert (Hkeep : forall x, In x (replace_inf (df p)) ->
                negb (existsb (String.eqb (label x)) (n :: ns)) = true).
      { apply filter_length_eq.
        apply (f_equal (@List.length column)) in Hdf as Hl.
        rewrite <- Hlen in Hl.
        clear - Hl. revert Hl.
        generalize (fun c0 : column => negb (existsb (String.eqb (label c0)) (n :: ns))).
        intros f. induction (replace_inf (df p)) as [|x xs IH]; [reflexivity|].
        cbn [filter]. destruct (f x) eqn:Ef; cbn [List.length].
        - intros H. f_equal. apply IH. lia.
        - intros H. pose proof (filter_length_le f xs). lia. }
      specialize (Hkeep c Hc). cbn [existsb] in Hkeep.
      rewrite Ec, String.eqb_refl in Hkeep. discriminate.
  - destruct (map label (filter all_null (df p))) as [|n ns] eqn:En;
      cbn [log with_df df transformations]; [reflexivity|].
    intros Hdf. exfalso.
    assert (Hin : In n (map label (filter all_null (df p))))
      by (rewrite En; now left).
    apply in_map_iff in Hin as [c [Ec Hc]]. apply filter_In in Hc as [Hc _].
    pose proof (filter_length_eq _ _ Hdf c Hc) as Hkeep.
    cbn [existsb] in Hkeep. rewrite Ec, String.eqb_refl in Hkeep. discriminate.
Qed.


(** Step 2 logs whenever there is an object column. *)
Lemma trim_strings_log (p : ETLPipeline) :
  transformations (trim_strings p)
  = transformations p
    ++ match select_dtypes is_object (df p) with
       | [] => []
       | obj_cols => [trimmed_string_fields (List.length obj_cols)]
       end.
Proof.
  unfold trim_strings.
  destruct (select_dtypes is_object (df p)); cbn [log with_df transformations].
  - now rewrite app_nil_r.
  - reflexivity.
Qed.

(** Step 4 does nothing on a frame without missing cells. *)
Lemma no_missing_count_na (d : DataFrame) (col : string) :
  no_missing d = true -> Series.count_na (df_cells d col) = 0.
Proof.
  intros H. unfold df_cells.
  destruct (df_get d col) as [c|] eqn:G; [|reflexivity].
  apply df_get_label in G as [_ Hin].
  unfold no_missing in H. rewrite forallb_forall in H. specialize (H c Hin).
  unfold Series.count_na.
  induction (cells c) as [|v vs IH]; [reflexivity|].
  cbn [forallb] in H. apply andb_prop in H as [Hv Hvs].
  cbn [filter]. unfold notna in Hv. apply negb_true_iff in Hv. rewrite Hv.
  auto.
Qed.

Lemma handle_missing_column_clean (p : ETLPipeline) (col : string) :
  no_missing (df p) = true -> handle_missing_column p col = p.
Proof.
  intros H. unfold handle_missing_column.
  now rewrite (no_missing_count_na (df p) col H).
Qed.

Lemma handle_missing_values_clean (p : ETLPipeline) :
  no_missing (df p) = true -> handle_missing_values p = p.
Proof.
  intros H. unfold handle_missing_values.
  induction (df_columns (df p)) as [|col cols IH]; [reflexivity|].
  cbn [fold_left]. now rewrite handle_missing_column_clean.
Qed.

End StepFacts.

Section FrameSetFacts.

Lemma df_get_set (d : DataFrame) k dt vs k' :
  df_get (df_set d k dt vs) k'
  = if String.eqb k k' then Some (mkColumn k dt vs) else df_get d k'.
Proof.
  unfold df_get. induction d as [|c d IH]; cbn [df_set find].
  - cbn [label]. destruct (String.eqb k k'); reflexivity.
  - destruct (String.eqb_spec (label c) k) as [E|Hne]; cbn [find label].
    + subst k. destruct (String.eqb (label c) k'); reflexivity.
    + rewrite IH. destruct (String.eqb_spec (label c) k') as [E'|_].
      * destruct (String.eqb_spec k k'); [congruence|reflexivity].
      * reflexivity.
Qed.

Lemma df_set_columns_keep (d : DataFrame) k dt vs l :
  In l (df_columns d) -> In l (df_columns (df_set d k dt vs)).
Proof.
  unfold df_columns. induction d as [|c d IH]; cbn [df_set map In]; [tauto|].
  destruct (String.eqb_spec (label c) k) as [E|_]; cbn [map In label].
  - intros [<-|H]; [now left|now right].
  - intros [<-|H]; [now left|right; auto].
Qed.

Lemma df_set_columns_new (d : DataFrame) k dt vs :
  In k (df_columns (df_set d k dt vs)).
Proof.
  unfold df_columns. induction d as [|c d IH]; cbn [df_set map In label].
  - now left.
  - destruct (String.eqb (label c) k); cbn [map In label]; [now left|now right].
Qed.

Lemma df_set_columns_present (d : DataFrame) k dt vs :
  In k (df_columns d) -> df_columns (df_set d k dt vs) = df_columns d.
Proof.
  unfold df_columns. induction d as [|c d IH]; cbn [df_set map In]; [tauto|].
  destruct (String.eqb_spec (label c) k) as [E|Hne]; cbn [map label].
  - intros _. now rewrite E.
  - intros [E|H]; [contradiction|]. f_equal. auto.
Qed.

Lemma has_column_In (d : DataFrame) col :
  has_column d col = true <-> In col (df_columns d).
Proof.
  unfold has_column, df_columns. rewrite existsb_exists, in_map_iff.
  split; intros [c [H1 H2]]; exists c.
  - apply String.eqb_eq in H2. auto.
  - split; [assumption|]. now apply String.eqb_eq.
Qed.

Lemma startswith_append (pre s : string) :
  PyStr.startswith pre (pre ++ s) = true.
Proof.
  induction pre as [|a pre IH]; cbn [PyStr.startswith String.append].
  - destruct s; reflexivity.
  - now rewrite Ascii.eqb_refl, IH.
Qed.

End FrameSetFacts.

Section OutlierFacts.
Context {pandas : Pandas}.

Lemma detect_outliers_column_cases (p : ETLPipeline) (col : string) :
  (iqr_violations (df_cells (df p) col) = 0 /\ detect_outliers_column p col = p)
  \/ (0 < iqr_violations (df_cells (df p) col)
      /\ exists vs,
           detect_outliers_column p col
           = mkETL (df_set (df p) ("is_outlier_" ++ col) Int64 vs)
                   (transformations p)
                   (dict_set (outlier_counts p) col
                             (iqr_violations (df_cells (df p) col)))).
Proof.
  unfold detect_outliers_column, iqr_violations.
  destruct (Float.eqb _ _); [now left|].
  destruct (Nat.ltb_spec 0 (count_true (outlier_mask (df_cells (df p) col)
     (Float.sub (Series.quantile (1 # 4) (df_cells (df p) col))
        (Float.mul (Num config.IQR_MULTIPLIER)
           (Float.sub (Series.quantile (3 # 4) (df_cells (df p) col))
              (Series.quantile (1 # 4) (df_cells (df p) col)))))
     (Float.add (Series.quantile (3 # 4) (df_cells (df p) col))
        (Float.mul (Num config.IQR_MULTIPLIER)
           (Float.sub (Series.quantile (3 # 4) (df_cells (df p) col))
              (Series.quantile (1 # 4) (df_cells (df p) col)))))))) as [Hpos|Hz].
  - right. split; [exact Hpos|]. eauto.
  - left. split; [lia|reflexivity].
Qed.

Lemma dict_set_nonempty {V : Type} (m : list (string * V)) k v :
  dict_set m k v <> [].
Proof.
  destruct m as [|[k0 v0] m]; cbn [dict_set]; [discriminate|].
  destruct (String.eqb k0 k); discriminate.
Qed.

Lemma detect_outliers_loop (cols : list string) (p q : ETLPipeline) :
  flags_recorded p q ->
  flags_recorded p (fold_left detect_outliers_column cols q).
Proof.
  revert q. induction cols as [|col cols IH]; intros q Hq; cbn [fold_left];
    [exact Hq|].
  apply IH. destruct Hq as (Ht & Hl & Hc).
  destruct (detect_outliers_column_cases q col) as [[_ ->]|[_ [vs ->]]].
  - repeat split; assumption.
  - repeat split; cbn [transformations df outlier_counts].
    + exact Ht.
    + intros l Hin. apply df_set_columns_keep. auto.
    + intros _. exists col. apply df_set_columns_new.
Qed.

Lemma no_flag_columns_spec (d : DataFrame) col :
  no_flag_columns d = true -> ~ In ("is_outlier_" ++ col)%string (df_columns d).
Proof.
  unfold no_flag_columns. rewrite forallb_forall. intros H Hin.
  specialize (H _ Hin). rewrite startswith_append in H. discriminate.
Qed.

Lemma detect_outliers_logs_on_change (p : ETLPipeline) :
  outlier_counts p = [] -> no_flag_columns (df p) = true ->
  logs_only_on_change detect_outliers p.
Proof.
  intros Hc Hfresh. unfold logs_only_on_change, detect_outliers. cbv zeta.
  pose proof (detect_outliers_loop (select_dtypes is_np_number (df p)) p p) as H.
  destruct H as (Ht & _ & Hflag).
  { repeat split; auto. intros Hne. congruence. }
  destruct (outlier_counts (fold_left detect_outliers_column _ p)) as [|e m] eqn:E;
    cbn [log df transformations].
  - intros _. exact Ht.
  - intros Hdf. exfalso. destruct Hflag as [col Hin]; [discriminate|].
    rewrite Hdf in Hin. now apply (no_flag_columns_spec (df p) col).
Qed.


End OutlierFacts.

Section FeatureFacts.
Context {pandas : Pandas}.

Lemma extract_date_parts_log (p : ETLPipeline) (col : string) :
  transformations (extract_date_parts p col)
  = transformations p ++ [extracted_date_parts_from col]
  /\ In (col ++ "_year")%string (df_columns (df (extract_date_parts p col)))
  /\ (forall l, In l (df_columns (df p)) ->
                In l (df_columns (df (extract_date_parts p col)))).
Proof.
  unfold extract_date_parts. cbn [log with_df df transformations].
  split; [reflexivity|]. split.
  - do 2 apply df_set_columns_keep. apply df_set_columns_new.
  - intros l Hl. now do 3 apply df_set_columns_keep.
Qed.

Lemma extract_date_parts_loop (cols : list string) (p : ETLPipeline) :
  let q := fold_left extract_date_parts cols p in
  transformations q = transformations p ++ map extracted_date_parts_from cols
  /\ (forall c, In c cols -> In (c ++ "_year")%string (df_columns (df q)))
  /\ (forall l, In l (df_columns (df p)) -> In l (df_columns (df q))).
Proof.
  cbv zeta. revert p. induction cols as [|col cols IH]; intros p; cbn [fold_left map].
  - rewrite app_nil_r. repeat split; auto. intros c [].
  - destruct (extract_date_parts_log p col) as (Ht & Hy & Hkeep).
    destruct (IH (extract_date_parts p col)) as (Ht' & Hy' & Hkeep').
    repeat split.
    + rewrite Ht', Ht, <- app_assoc. reflexivity.
    + intros c [<-|Hc]; [apply Hkeep', Hy|now apply Hy'].
    + intros l Hl. apply Hkeep', Hkeep, Hl.
Qed.

Lemma price_per_unit_cases (p : ETLPipeline) :
  price_per_unit p = p
  \/ (transformations (price_per_unit p)
      = transformations p ++ [created_price_per_unit]
      /\ In "price_per_unit" (df_columns (df (price_per_unit p)))).
Proof.
  unfold price_per_unit. cbv zeta.
  destruct (py_or _ _) as [pc|]; [|now left].
  destruct (py_or _ _) as [qc|]; [|now left].
  destruct (_ && _ && _ && _); [|now left].
  right. cbn [log with_df df transformations]. split; [reflexivity|].
  apply df_set_columns_new.
Qed.

Lemma no_derived_columns_spec (d : DataFrame) :
  no_derived_columns d = true ->
  (forall c, In c (select_dtypes is_datetime64_naive d) ->
             ~ In (c ++ "_year")%string (df_columns d))
  /\ ~ In "price_per_unit" (df_columns d).
Proof.
  unfold no_derived_columns. intros H. apply andb_prop in H as [H1 H2].
  rewrite forallb_forall in H1. split.
  - intros c Hc Hin. specialize (H1 c Hc). apply has_column_In in Hin.
    rewrite Hin in H1. discriminate.
  - intros Hin. apply has_column_In in Hin. rewrite Hin in H2. discriminate.
Qed.

Lemma feature_engineering_logs_on_change (p : ETLPipeline) :
  no_derived_columns (df p) = true ->
  logs_only_on_change feature_engineering p.
Proof.
  intros Hfresh. apply no_derived_columns_spec in Hfresh as [Hyear Hppu].
  unfold logs_only_on_change, feature_engineering. cbv zeta.
  set (dt_cols := select_dtypes is_datetime64_naive (df p)) in *.
  destruct (extract_date_parts_loop dt_cols p) as (Ht & Hy & Hkeep).
  cbv zeta in Ht, Hy, Hkeep.
  set (q := fold_left extract_date_parts dt_cols p) in *.
  intros Hdf.
  destruct (price_per_unit_cases q) as [E|[Et Hin]].
  - rewrite E in *. destruct dt_cols as [|c cs].
    + cbn [map] in Ht. now rewrite app_nil_r in Ht.
    + exfalso. apply (Hyear c); [now left|].
      rewrite <- Hdf. apply Hy. now left.
  - exfalso. apply Hppu. now rewrite <- Hdf.
Qed.

End FeatureFacts.

Section ConvertFacts.
Context {pandas : Pandas}.

(** One iteration of step 5 either keeps its state or turns the column
    into a datetime column and records it. *)
Lemma convert_dates_column_cases (d : DataFrame) converted (col : string) :
  convert_dates_column (d, converted) col = (d, converted)
  \/ exists tz vs,
       convert_dates_column (d, converted) col
       = (df_set d col (Datetime tz) vs, converted ++ [col]).
Proof.
  unfold convert_dates_column.
  destruct (firstn 50 (Series.dropna (df_cells d col))); [now left|].
  destruct (to_datetime (v :: l)) as [[tz0 parsed]|]; [|now left].
  destruct (ratio_exceeds parsed (v :: l)); [|now left].
  destruct (to_datetime (df_cells d col)) as [[tz vs]|]; [|now left].
  right. eauto.
Qed.

Lemma Forall2_columns (R : column -> column -> Prop) (d d' : DataFrame) :
  Forall2 (fun c c' => label c' = label c /\ R c c') d d' ->
  df_columns d' = df_columns d.
Proof.
  unfold df_columns. induction 1 as [|c c' d d' [E _] _ IH]; cbn [map];
    [reflexivity|]. now rewrite E, IH.
Qed.

Lemma dates_converted_set (d0 d : DataFrame) (c0 : column) tz vs :
  Forall2 (fun c c' =>
             label c' = label c
             /\ (c' = c \/ (col_dtype c = Object
                            /\ is_datetime64_any_dtype (col_dtype c') = true)))
          d0 d ->
  NoDup (df_columns d0) -> In c0 d0 -> col_dtype c0 = Object ->
  Forall2 (fun c c' =>
             label c' = label c
             /\ (c' = c \/ (col_dtype c = Object
                            /\ is_datetime64_any_dtype (col_dtype c') = true)))
          d0
          (map (fun c1 => if String.eqb (label c1) (label c0)
                          then mkColumn (label c0) (Datetime tz) vs else c1) d).
Proof.
  intros Hrel. induction Hrel as [|c c' l l' [E Hc] Hrel IH];
    intros Hnd Hc0 Hdt; cbn [map]; [constructor|].
  inversion Hnd as [|x xs Hnotin Hnd']; subst.
  constructor.
  - destruct (String.eqb_spec (label c') (label c0)) as [E'|_]; [|now split].
    cbn [label col_dtype]. split; [congruence|]. right. split; [|reflexivity].
    assert (c = c0).
    { eapply label_injective; [exact Hnd|now left|exact Hc0|congruence]. }
    now subst c0.
  - destruct Hc0 as [->|Hc0]; [|now apply IH].
    assert (Hmap : map (fun c1 => if String.eqb (label c1) (label c0)
                                  then mkColumn (label c0) (Datetime tz) vs
                                  else c1) l' = l').
    { rewrite <- (map_id l') at 2. apply map_ext_in. intros c1 Hc1.
      destruct (String.eqb_spec (label c1) (label c0)) as [E1|_]; [|reflexivity].
      exfalso. apply Hnotin.
      change (map label l) with (df_columns l).
      rewrite <- (Forall2_columns _ _ _ Hrel).
      unfold df_columns. rewrite <- E1. now apply in_map. }
    rewrite Hmap. exact Hrel.
Qed.

Lemma convert_dates_loop (d0 : DataFrame) (cols : list string) st :
  NoDup (df_columns d0) -> incl cols (select_dtypes is_object d0) ->
  dates_converted d0 st ->
  dates_converted d0 (fold_left convert_dates_column cols st).
Proof.
  intros Hnd. revert st. induction cols as [|col cols IH]; intros st Hincl Hst;
    cbn [fold_left]; [exact Hst|].
  apply IH; [intros c Hc; apply Hincl; now right|].
  destruct st as [d converted].
  destruct (convert_dates_column_cases d converted col) as [->|[tz [vs ->]]];
    [exact Hst|].
  destruct Hst as [Hrel Hconv]. cbn [fst snd] in *.
  pose proof (Forall2_columns _ _ _ Hrel) as Hlab.
  assert (Hobj : In col (select_dtypes is_object d0))
    by (apply Hincl; now left).
  apply select_dtypes_In in Hobj as [c0 [Hc0 [El Hdt]]].
  assert (Hin : In col (df_columns d)).
  { rewrite Hlab. unfold df_columns. rewrite <- El. now apply in_map. }
  split.
  - rewrite df_set_map by (first [exact Hin | rewrite Hlab; exact Hnd]).
    subst col. apply dates_converted_set; try assumption.
    destruct (col_dtype c0); try discriminate. reflexivity.
  - cbn [fst snd]. intros c Hc. unfold df_dtype. rewrite df_get_set.
    destruct (String.eqb_spec col c) as [->|Hne]; [reflexivity|].
    apply in_app_or in Hc as [Hc|[Hc|[]]]; [|congruence].
    apply Hconv in Hc. exact Hc.
Qed.

Lemma Forall2_refl_columns (d : DataFrame) :
  Forall2 (fun c c' =>
             label c' = label c
             /\ (c' = c \/ (col_dtype c = Object
                            /\ is_datetime64_any_dtype (col_dtype c') = true)))
          d d.
Proof. induction d; constructor; auto. Qed.

Lemma convert_dates_state (p : ETLPipeline) :
  NoDup (df_columns (df p)) ->
  dates_converted (df p)
    (fold_left convert_dates_column (select_dtypes is_object (df p)) (df p, [])).
Proof.
  intros Hnd. apply convert_dates_loop; [assumption|apply incl_refl|].
  split; [apply Forall2_refl_columns|intros col []].
Qed.


Lemma convert_dates_converted_incl (cols : list string) st c :
  In c (snd (fold_left convert_dates_column cols st)) ->
  In c cols \/ In c (snd st).
Proof.
  revert st. induction cols as [|col cols IH]; intros st; cbn [fold_left];
    [now right|].
  intros H. apply IH in H as [H|H]; [left; now right|].
  destruct st as [d converted].
  destruct (convert_dates_column_cases d converted col) as [E|[tz [vs E]]];
    rewrite E in H; cbn [snd] in *; [now right|].
  apply in_app_or in H as [H|[<-|[]]]; [now right|left; now left].
Qed.

Lemma convert_dates_logs_on_change (p : ETLPipeline) :
  NoDup (df_columns (df p)) -> logs_only_on_change convert_dates p.
Proof.
  intros Hnd. unfold logs_only_on_change, convert_dates. cbv zeta.
  pose proof (convert_dates_state p Hnd) as [_ Hconv].
  pose proof (convert_dates_converted_incl
                (select_dtypes is_object (df p)) (df p, [])) as Hincl.
  destruct (fold_left convert_dates_column _ _) as [d converted].
  cbn [fst snd] in *.
  destruct converted as [|col converted]; cbn [log with_df df transformations];
    [reflexivity|].
  intros Hdf. exfalso. subst d.
  specialize (Hconv col (or_introl eq_refl)).
  destruct (Hincl col (or_introl eq_refl)) as [Hobj|[]].
  apply select_dtypes_In in Hobj as [c0 [Hc0 [<- Hdt]]].
  rewrite df_dtype_In in Hconv by assumption.
  destruct (col_dtype c0); discriminate.
Qed.


End ConvertFacts.

Section LogFacts.
Context {pandas : Pandas}.

Lemma standardize_columns_appends p :
  only_appends not_cleaning standardize_columns p.
Proof.
  unfold only_appends, standardize_columns.
  destruct (build_rename_map _); cbn [log with_df transformations].
  - exists []. now rewrite app_nil_r.
  - eexists. split; reflexivity.
Qed.






End LogFacts.

Section CleanPassFacts.
Context {pandas : Pandas}.

(** Step 1 on names already in standard form. *)
Lemma build_rename_map_standard (cols : list string) :
  forallb (fun l => String.eqb (standardize_name l) l) cols = true ->
  build_rename_map cols = [].
Proof.
  intros H. destruct (build_rename_map cols) as [|e m] eqn:E; [reflexivity|].
  exfalso. apply build_rename_map_nonempty in E as [Hin Hren].
  rewrite forallb_forall in H. specialize (H _ Hin).
  unfold renamed in Hren. rewrite H in Hren. discriminate.
Qed.

Lemma standardize_columns_standard (p : ETLPipeline) :
  names_are_standard (df p) = true -> standardize_columns p = p.
Proof.
  intros H. unfold standardize_columns.
  now rewrite build_rename_map_standard.
Qed.

(** Step 2 on clean text. *)
Lemma lstrip_fixed p s : PyStr.head_is p s = false -> PyStr.lstrip_by p s = s.
Proof. destruct s as [|c s]; cbn; [reflexivity|]. now intros ->. Qed.

Lemma rstrip_fixed p s : PyStr.last_is p s = false -> PyStr.rstrip_by p s = s.
Proof.
  induction s as [|c s IH]; [reflexivity|].
  rewrite PyStrFacts.rstrip_cons. destruct s as [|c' s'].
  - cbn. now intros ->.
  - intros H. change (PyStr.last_is p (String c (String c' s')))
      with (PyStr.last_is p (String c' s')) in H.
    now rewrite IH.
Qed.

Lemma strip_fixed s : PyStr.trimmed s = true -> PyStr.strip s = s.
Proof.
  unfold PyStr.trimmed, PyStr.strip, PyStr.strip_by. intros H.
  apply andb_prop in H as [H1 H2].
  apply negb_true_iff in H1, H2.
  now rewrite (lstrip_fixed _ _ H1), (rstrip_fixed _ _ H2).
Qed.

Lemma trim_cell_clean (v : value) :
  is_clean_text v = true -> trim_cell v = v.
Proof.
  destruct v as [| | |s| |]; cbn [is_clean_text]; try discriminate.
  - reflexivity.
  - intros H. apply andb_prop in H as [Ht Hn].
    unfold trim_cell, replace_null_strings. cbn [py_str].
    rewrite (strip_fixed s Ht). apply negb_true_iff in Hn. now rewrite Hn.
Qed.




(** Step 3 on a frame without duplicate rows. *)
Lemma df_rows_aux_length (n : nat) (d : DataFrame) :
  List.length (df_rows_aux n d) = n.
Proof.
  revert d. induction n as [|n IH]; intros d; cbn [df_rows_aux List.length];
    [reflexivity|]. now rewrite IH.
Qed.

Lemma duplicated_from_length seen rows :
  List.length (Series.duplicated_from seen rows) = List.length rows.
Proof.
  revert seen. induction rows as [|r rows IH]; intros seen;
    cbn [Series.duplicated_from List.length]; [reflexivity|]. now rewrite IH.
Qed.

Lemma select_mask_all {A : Type} (mask : list bool) (xs : list A) :
  existsb (fun b : bool => b) mask = false ->
  List.length xs <= List.length mask ->
  select_mask (map negb mask) xs = xs.
Proof.
  revert xs. induction mask as [|m mask IH]; intros [|x xs];
    cbn [existsb map select_mask List.length]; try reflexivity; try lia.
  intros H Hlen. apply orb_false_elim in H as [-> H]. cbn [negb].
  f_equal. apply IH; [assumption|lia].
Qed.

Lemma drop_duplicates_clean (d : DataFrame) :
  rectangular d -> no_duplicate_rows d = true -> drop_duplicates d = d.
Proof.
  intros Hrect Hno. unfold drop_duplicates, df_filter_rows.
  unfold no_duplicate_rows in Hno. apply negb_true_iff in Hno.
  transitivity (map (fun c : column => c) d); [|apply map_id].
  apply map_ext_in. intros c Hc.
  rewrite select_mask_all; [now destruct c|assumption|].
  unfold Series.duplicated, df_rows.
  rewrite duplicated_from_length, df_rows_aux_length.
  unfold rectangular in Hrect. rewrite Forall_forall in Hrect.
  now rewrite (Hrect c Hc).
Qed.

Lemma remove_duplicates_clean (p : ETLPipeline) :
  rectangular (df p) -> no_duplicate_rows (df p) = true ->
  remove_duplicates p = p.
Proof.
  intros Hrect Hno. unfold remove_duplicates. cbv zeta.
  rewrite drop_duplicates_clean by assumption. cbn [with_df df].
  rewrite Nat.sub_diag. cbn. now destruct p.
Qed.



End CleanPassFacts.

(* ================================================================== *)
(** * Running the pipeline on its own output *)
(* ================================================================== *)




(** The second pass also imputes the cell that the first pass left missing
    in price_per_unit. *)
Lemma second_pass_imputes_price_per_unit :
  let first := @run plain_pandas (init price_qty_table) in
  transformations (@run plain_pandas (init (df first)))
  = [ filled_missing "price_per_unit" mean_fill 1; optimized_dtypes;
      created_price_per_unit ].
Proof. vm_compute. reflexivity. Qed.

(** The bounds are the float64 ones.  On [0.8, 2.9, 3.9, 4.3, 6.0] the
    lower bound 2.9 - 1.5 * (4.3 - 2.9) is 0.8 exactly but
    0.8000000000000003 in float64, so [detect_outliers] flags the cell 0.8,
    and flags it again on its own output: that output does not satisfy
    [no_outliers]. *)
Lemma detect_outliers_float64_bound :
  let first := detect_outliers (init fence_table) in
  df first
  = fence_table
    ++ [mkColumn "is_outlier_x" Int64 (map Float.of_Z [1; 0; 0; 0; 0]%Z)]
  /\ transformations first = [detected_outliers 1 1]
  /\ no_outliers (df first) = false
  /\ transformations (detect_outliers (init (df first)))
     = [detected_outliers 1 1].
Proof. repeat split; vm_compute; reflexivity. Qed.

(* ================================================================== *)
(** * Logging and change, step by step *)
(* ================================================================== *)

(** C8 (as the code has it).  On a fresh pipeline over a frame with unique
    labels: column standardisation, duplicate removal, date conversion and
    output validation log only when they change the frame; so do outlier
    detection and feature engineering as long as the columns they write are
    not already there; imputation does nothing when no cell is missing;
    string trimming logs exactly when the frame has an object column; the
    dtype optimisation always logs once. *)
Theorem steps_log_only_on_change {pandas : Pandas} (p : ETLPipeline) :
  NoDup (df_columns (df p)) -> outlier_counts p = [] ->
  logs_only_on_change standardize_columns p
  /\ logs_only_on_change remove_duplicates p
  /\ logs_only_on_change convert_dates p
  /\ logs_only_on_change validate_output p
  /\ (no_flag_columns (df p) = true -> logs_only_on_change detect_outliers p)
  /\ (no_derived_columns (df p) = true ->
      logs_only_on_change feature_engineering p)
  /\ (no_missing (df p) = true -> handle_missing_values p = p)
  /\ transformations (trim_strings p)
     = transformations p
       ++ match select_dtypes is_object (df p) with
          | [] => []
          | obj_cols => [trimmed_string_fields (List.length obj_cols)]
          end
  /\ transformations (optimize_dtypes p)
     = transformations p ++ [optimized_dtypes].
Proof.
  intros Hnd Hc. repeat split.
  - apply standardize_columns_logs_on_change.
  - apply remove_duplicates_logs_on_change.
  - now apply convert_dates_logs_on_change.
  - apply validate_output_logs_on_change.
  - intros H. now apply detect_outliers_logs_on_change.
  - intros H. now apply feature_engineering_logs_on_change.
  - apply handle_missing_values_clean.
  - apply trim_strings_log.
Qed.

(** C8 at a fresh pipeline over the tidy table. *)
Lemma steps_log_only_on_change_witness :
  (NoDup (df_columns (df (init tidy_table)))
   /\ outlier_counts (init tidy_table) = [])
  /\ logs_only_on_change (@standardize_columns) (init tidy_table)
  /\ transformations (@trim_strings plain_pandas (init tidy_table))
     = [trimmed_string_fields 1].
Proof.
  assert (Hnd : NoDup (df_columns (df (init tidy_table)))).
  { repeat constructor; cbn; intuition discriminate. }
  pose proof (@steps_log_only_on_change plain_pandas (init tidy_table)
                Hnd eq_refl) as (H1 & _ & _ & _ & _ & _ & _ & H8 & _).
  split; [split; [exact Hnd|reflexivity]|].
  split; [exact H1|exact H8].
Defined.

(** C8, refuted as stated: on a text column that is already trimmed,
    [trim_strings] changes nothing and still logs. *)
Lemma trim_strings_logs_without_change :
  let p := init [mkColumn "a" Object [Str "x"]] in
  df (@trim_strings plain_pandas p) = df p
  /\ transformations (@trim_strings plain_pandas p) = [trimmed_string_fields 1]
  /\ ~ logs_only_on_change (@trim_strings plain_pandas) p.
Proof.
  cbv zeta. split; [reflexivity|]. split; [reflexivity|].
  intros H. specialize (H eq_refl). discriminate H.
Qed.

(** Imputation of a numeric column that is missing throughout fills NaN
    with NaN: the frame is unchanged and an entry is logged all the same. *)
Lemma handle_missing_all_nan_logs :
  let p := init [mkColumn "x" Float64 [NA; NA]] in
  df (@handle_missing_values plain_pandas p) = df p
  /\ transformations (@handle_missing_values plain_pandas p)
     = [filled_missing "x" mean_fill 2].
Proof. split; vm_compute; reflexivity. Qed.


(* ================================================================== *)
(** * Steps applied twice *)
(* ================================================================== *)

Section NameFixedPoints.
Import PyStr.

Lemma word_char_not_space (c : ascii) : word_char c = true -> isspace c = false.
Proof.
  destruct c as [[] [] [] [] [] [] [] []]; vm_compute; intros H;
    first [reflexivity | discriminate H].
Qed.

Lemma word_char_lower (c : ascii) : word_char c = true -> lower_char c = c.
Proof.
  destruct c as [[] [] [] [] [] [] [] []]; vm_compute; intros H;
    first [reflexivity | discriminate H].
Qed.

Lemma all_chars_head (q p : ascii -> bool) (s : string) :
  (forall c, q c = true -> p c = false) ->
  all_chars q s = true -> head_is p s = false.
Proof.
  intros Hqp. destruct s as [|c s]; cbn [all_chars head_is]; [reflexivity|].
  intros H. apply andb_prop in H as [Hc _]. now apply Hqp.
Qed.

Lemma all_chars_last (q p : ascii -> bool) (s : string) :
  (forall c, q c = true -> p c = false) ->
  all_chars q s = true -> last_is p s = false.
Proof.
  intros Hqp. induction s as [|c s IH]; [reflexivity|].
  cbn [all_chars]. intros H. apply andb_prop in H as [Hc Hs].
  destruct s as [|c' s']; [now apply Hqp|].
  change (last_is p (String c (String c' s'))) with (last_is p (String c' s')).
  now apply IH.
Qed.

Lemma lower_fixed (s : string) : all_chars word_char s = true -> lower s = s.
Proof.
  induction s as [|c s IH]; [reflexivity|].
  cbn [all_chars lower]. intros H. apply andb_prop in H as [Hc Hs].
  now rewrite (word_char_lower c Hc), IH.
Qed.

Lemma sub_nonword_fixed (s : string) :
  all_chars word_char s = true -> sub_nonword s = s.
Proof.
  induction s as [|c s IH]; [reflexivity|].
  cbn [all_chars sub_nonword]. intros H. apply andb_prop in H as [Hc Hs].
  now rewrite Hc, IH.
Qed.

Lemma runs_fixed (s : string) :
  double_underscore s = false -> sub_underscore_runs s = s.
Proof.
  induction s as [|c s IH]; [reflexivity|].
  cbn [double_underscore]. intros H. apply orb_false_elim in H as [Hc Hs].
  rewrite PyStrFacts.runs_cons. destruct s as [|c' s']; [reflexivity|].
  cbn [head_is] in Hc. rewrite Hc. now rewrite IH.
Qed.

(** A name in standard form (or empty) is left as it is. *)
Lemma standardize_name_fixed (s : string) :
  standard_or_empty_name s -> standardize_name s = s.
Proof.
  intros (Hall & Hhead & Hlast & Hdbl).
  rewrite PyStrFacts.startswith_underscore in Hhead.
  rewrite PyStrFacts.endswith_underscore in Hlast.
  rewrite PyStrFacts.contains_double in Hdbl.
  unfold standardize_name.
  assert (Hstrip : strip s = s).
  { apply strip_fixed. unfold trimmed.
    rewrite (all_chars_head word_char isspace s word_char_not_space Hall).
    now rewrite (all_chars_last word_char isspace s word_char_not_space Hall). }
  rewrite Hstrip, (lower_fixed s Hall), (sub_nonword_fixed s Hall),
    (runs_fixed s Hdbl).
  unfold strip_underscores, strip_by.
  now rewrite (lstrip_fixed _ _ Hhead), (rstrip_fixed _ _ Hlast).
Qed.

Lemma standardize_name_twice (col : string) :
  standardize_name (standardize_name col) = standardize_name col.
Proof. apply standardize_name_fixed, standardize_name_shape. Qed.

End NameFixedPoints.

(** The names [standardize_columns] leaves alone are exactly those made of
    [a-z0-9_] without a leading, trailing or doubled underscore (the empty
    name among them), and standardising a name twice gives what
    standardising it once gives. *)
Theorem standardize_name_fixed_points (col : string) :
  (standardize_name col = col <-> standard_or_empty_name col)
  /\ standardize_name (standardize_name col) = standardize_name col.
Proof.
  split; [split|].
  - intros E. rewrite <- E. apply standardize_name_shape.
  - apply standardize_name_fixed.
  - apply standardize_name_twice.
Qed.

(** A second [standardize_columns] renames nothing and logs nothing: the
    step is idempotent on the whole pipeline state. *)
Theorem standardize_columns_idempotent (p : ETLPipeline) :
  standardize_columns (standardize_columns p) = standardize_columns p.
Proof.
  apply standardize_columns_standard. unfold names_are_standard.
  rewrite standardize_columns_labels. apply forallb_forall.
  intros l Hl. apply in_map_iff in Hl as [k [<- _]].
  rewrite standardize_name_twice. apply String.eqb_refl.
Qed.

Section TrimTwice.
Context {pandas : Pandas}.

Lemma trim_cell_is_clean (v : value) : is_clean_text (trim_cell v) = true.
Proof.
  unfold trim_cell, replace_null_strings.
  destruct (String.eqb (PyStr.strip (py_str v)) "nan"
            || String.eqb (PyStr.strip (py_str v)) "None"
            || String.eqb (PyStr.strip (py_str v)) "") eqn:E; [reflexivity|].
  cbn [is_clean_text]. rewrite E, PyStrFacts.strip_trimmed. reflexivity.
Qed.

Lemma map_trim_cell_twice (vs : list value) :
  map trim_cell (map trim_cell vs) = map trim_cell vs.
Proof.
  rewrite map_map. apply map_ext. intros v.
  apply trim_cell_clean, trim_cell_is_clean.
Qed.

Lemma trim_col_twice (c : column) : trim_col (trim_col c) = trim_col c.
Proof.
  unfold trim_col. cbn [label cells]. now rewrite map_trim_cell_twice.
Qed.

Lemma trim_strings_twice_df (d : DataFrame) :
  map (fun c => if is_object (col_dtype c) then trim_col c else c)
      (map (fun c => if is_object (col_dtype c) then trim_col c else c) d)
  = map (fun c => if is_object (col_dtype c) then trim_col c else c) d.
Proof.
  rewrite map_map. apply map_ext. intros c.
  destruct (is_object (col_dtype c)) eqn:E; [|now rewrite E].
  destruct (is_object (col_dtype (trim_col c))); [apply trim_col_twice|reflexivity].
Qed.

Lemma trim_strings_labels (p : ETLPipeline) :
  NoDup (df_columns (df p)) ->
  df_columns (df (trim_strings p)) = df_columns (df p).
Proof.
  intros Hnd. rewrite trim_strings_df by assumption.
  unfold df_columns. rewrite map_map. apply map_ext. intros c.
  now destruct (is_object (col_dtype c)).
Qed.

End TrimTwice.

(** Trimming is idempotent on the table: a second [trim_strings] leaves
    every column as the first one made it (its log entry apart). *)
Theorem trim_strings_idempotent {pandas : Pandas} (p : ETLPipeline) :
  NoDup (df_columns (df p)) ->
  df (trim_strings (trim_strings p)) = df (trim_strings p).
Proof.
  intros Hnd.
  rewrite (trim_strings_df (trim_strings p))
    by (rewrite trim_strings_labels; assumption).
  rewrite (trim_strings_df p) by assumption.
  apply trim_strings_twice_df.
Qed.

Lemma trim_strings_idempotent_witness :
  let p := init [mkColumn "a" Object [Str " x "; NA; Str "None"];
                 mkColumn "n" Int64 [Num 1%Q; Num 2%Q; Num 3%Q]] in
  NoDup (df_columns (df p))
  /\ df (@trim_strings plain_pandas (@trim_strings plain_pandas p))
     = df (@trim_strings plain_pandas p).
Proof.
  cbv zeta. split.
  - repeat constructor; cbn; intuition discriminate.
  - apply (@trim_strings_idempotent plain_pandas).
    repeat constructor; cbn; intuition discriminate.
Defined.

(* ================================================================== *)
(** * Duplicate rows *)
(* ================================================================== *)

Section DuplicateFacts.

Lemma select_mask_length {A : Type} (mask : list bool) (xs : list A) :
  List.length xs = List.length mask ->
  List.length (select_mask mask xs) = count_true mask.
Proof.
  revert xs. induction mask as [|m mask IH]; intros [|x xs];
    cbn [select_mask List.length]; try reflexivity; try discriminate.
  intros H. injection H as H. unfold count_true in *. cbn [filter].
  destruct m; cbn [List.length]; now rewrite IH.
Qed.

Lemma count_true_negb (mask : list bool) :
  count_true (map negb mask) + count_true mask = List.length mask.
Proof.
  unfold count_true. induction mask as [|[] mask IH];
    cbn [map negb filter List.length]; lia.
Qed.

(** The rows of a frame all of whose columns have [n] cells. *)
Lemma df_rows_aux_filter (n : nat) (mask : list bool) (d : DataFrame) :
  Forall (fun c => List.length (cells c) = n) d ->
  List.length mask = n ->
  df_rows_aux (count_true mask) (df_filter_rows mask d)
  = select_mask mask (df_rows_aux n d).
Proof.
  revert mask d. induction n as [|n IH]; intros mask d Hall Hlen.
  - destruct mask; [reflexivity|discriminate].
  - destruct mask as [|m mask]; [discriminate|]. injection Hlen as Hlen.
    cbn [df_rows_aux select_mask].
    set (tails := map (fun c => mkColumn (label c) (col_dtype c) (tl (cells c))) d).
    assert (Htails : Forall (fun c => List.length (cells c) = n) tails).
    { unfold tails. apply Forall_map. eapply Forall_impl; [|exact Hall].
      intros c Hc. cbn beta in Hc. cbn [cells].
      destruct (cells c); cbn [tl List.length] in *; [discriminate|lia]. }
    specialize (IH mask tails Htails Hlen).
    assert (Hfilter :
      df_filter_rows mask tails
      = map (fun c => mkColumn (label c) (col_dtype c)
                               (select_mask mask (tl (cells c)))) d).
    { unfold df_filter_rows, tails. rewrite map_map. reflexivity. }
    destruct m.
    + unfold count_true. cbn [filter List.length]. fold (count_true mask).
      cbn [df_rows_aux]. f_equal.
      * unfold df_filter_rows. rewrite map_map. apply map_ext_in.
        intros c Hc. cbn [cells]. rewrite Forall_forall in Hall.
        specialize (Hall c Hc).
        destruct (cells c); cbn [List.length] in Hall; [discriminate|reflexivity].
      * rewrite <- IH, Hfilter. f_equal.
        unfold df_filter_rows. rewrite map_map. apply map_ext_in.
        intros c Hc. cbn [label col_dtype cells]. rewrite Forall_forall in Hall.
        specialize (Hall c Hc).
        destruct (cells c); cbn [List.length] in Hall; [discriminate|reflexivity].
    + unfold count_true. cbn [filter]. fold (count_true mask).
      rewrite <- IH, Hfilter. f_equal.
      unfold df_filter_rows. apply map_ext_in.
      intros c Hc. rewrite Forall_forall in Hall.
      specialize (Hall c Hc).
        destruct (cells c); cbn [List.length] in Hall; [discriminate|reflexivity].
Qed.

Lemma df_filter_rows_len (mask : list bool) (d : DataFrame) :
  rectangular d -> List.length mask = df_len d ->
  df_len (df_filter_rows mask d) = count_true mask
  /\ rectangular (df_filter_rows mask d).
Proof.
  intros Hrect Hlen. unfold rectangular in *.
  assert (Hall : Forall (fun c => List.length (cells c) = count_true mask)
                        (df_filter_rows mask d)).
  { unfold df_filter_rows. apply Forall_map.
    eapply Forall_impl; [|exact Hrect]. intros c Hc. cbn beta in Hc.
    cbn [cells]. apply select_mask_length. congruence. }
  destruct d as [|c d].
  - cbn [df_len] in Hlen. destruct mask; [|discriminate].
    split; [reflexivity|constructor].
  - assert (E : df_len (df_filter_rows mask (c :: d)) = count_true mask).
    { inversion Hall as [|? ? Hc _]. exact Hc. }
    split; [exact E|]. now rewrite E.
Qed.

Lemma df_rows_filter (mask : list bool) (d : DataFrame) :
  rectangular d -> List.length mask = df_len d ->
  df_rows (df_filter_rows mask d) = select_mask mask (df_rows d).
Proof.
  intros Hrect Hlen. unfold df_rows.
  destruct (df_filter_rows_len mask d Hrect Hlen) as [-> _].
  now apply df_rows_aux_filter.
Qed.

(** Rows kept by [drop_duplicates] differ from every row kept before
    them. *)
Lemma duplicated_from_kept (rows seen seen' : list (list value)) :
  incl seen' seen ->
  existsb (fun b : bool => b)
    (Series.duplicated_from seen'
       (select_mask (map negb (Series.duplicated_from seen rows)) rows))
  = false.
Proof.
  revert seen seen'. induction rows as [|r rows IH]; intros seen seen' Hincl;
    [reflexivity|].
  cbn [Series.duplicated_from map select_mask].
  destruct (existsb (list_eqb value_eqb r) seen) eqn:E; cbn [negb].
  - apply IH. intros x Hx. right. now apply Hincl.
  - cbn [Series.duplicated_from existsb].
    assert (E' : existsb (list_eqb value_eqb r) seen' = false).
    { destruct (existsb (list_eqb value_eqb r) seen') eqn:E'; [|reflexivity].
      apply existsb_exists in E' as [x [Hx Hxr]].
      assert (existsb (list_eqb value_eqb r) seen = true)
        by (apply existsb_exists; exists x; split; [now apply Hincl|exact Hxr]).
      congruence. }
    rewrite E'. cbn [orb]. apply IH.
    intros x [<-|Hx]; [now left|right; now apply Hincl].
Qed.

Lemma drop_duplicates_spec (d : DataFrame) :
  rectangular d ->
  no_duplicate_rows (drop_duplicates d) = true
  /\ rectangular (drop_duplicates d)
  /\ df_len (drop_duplicates d)
     + count_true (Series.duplicated (df_rows d)) = df_len d.
Proof.
  intros Hrect. unfold drop_duplicates.
  assert (Hlen : List.length (map negb (Series.duplicated (df_rows d)))
                 = df_len d).
  { rewrite length_map. unfold Series.duplicated, df_rows.
    now rewrite duplicated_from_length, df_rows_aux_length. }
  destruct (df_filter_rows_len _ d Hrect Hlen) as [Hl Hr].
  split; [|split].
  - unfold no_duplicate_rows. rewrite df_rows_filter by assumption.
    unfold Series.duplicated. rewrite duplicated_from_kept; [reflexivity|].
    intros x Hx. exact Hx.
  - exact Hr.
  - rewrite Hl, count_true_negb. rewrite length_map in Hlen. exact Hlen.
Qed.

Lemma remove_duplicates_df (p : ETLPipeline) :
  df (remove_duplicates p) = drop_duplicates (df p).
Proof.
  unfold remove_duplicates. cbv zeta. cbn [with_df df].
  now destruct (0 <? df_len (df p) - df_len (drop_duplicates (df p))).
Qed.

End DuplicateFacts.

(** After [remove_duplicates] no row of the table equals an earlier row,
    the rows dropped are as many as [duplicated] marks, and a second call
    changes neither the table nor the log. *)
Theorem remove_duplicates_no_duplicates (p : ETLPipeline) :
  rectangular (df p) ->
  no_duplicate_rows (df (remove_duplicates p)) = true
  /\ df_len (df (remove_duplicates p))
     + count_true (Series.duplicated (df_rows (df p))) = df_len (df p)
  /\ remove_duplicates (remove_duplicates p) = remove_duplicates p.
Proof.
  intros Hrect.
  destruct (drop_duplicates_spec (df p) Hrect) as (Hno & Hr & Hlen).
  rewrite remove_duplicates_df. split; [exact Hno|]. split; [exact Hlen|].
  apply remove_duplicates_clean; rewrite remove_duplicates_df; assumption.
Qed.

Lemma remove_duplicates_no_duplicates_witness :
  let p := init [mkColumn "a" Int64 [Num 1%Q; Num 2%Q; Num 1%Q; Num 1%Q];
                 mkColumn "b" Object [Str "x"; Str "y"; Str "x"; Str "z"]] in
  rectangular (df p)
  /\ df (remove_duplicates p)
     = [mkColumn "a" Int64 [Num 1%Q; Num 2%Q; Num 1%Q];
        mkColumn "b" Object [Str "x"; Str "y"; Str "z"]]
  /\ no_duplicate_rows (df (remove_duplicates p)) = true.
Proof.
  cbv zeta. split; [repeat constructor|]. split; [reflexivity|].
  apply (remove_duplicates_no_duplicates
           (init [mkColumn "a" Int64 [Num 1%Q; Num 2%Q; Num 1%Q; Num 1%Q];
                  mkColumn "b" Object [Str "x"; Str "y"; Str "x"; Str "z"]])).
  repeat constructor.
Defined.

(* ================================================================== *)
(** * What the final validation leaves *)
(* ================================================================== *)

Section ValidateFacts.

Lemma count_inf_replace_inf (d : DataFrame) : count_inf (replace_inf d) = 0.
Proof.
  induction d as [|c d IH]; [reflexivity|].
  change (replace_inf (c :: d))
    with (mkColumn (label c) (col_dtype c)
                   (map (fun v => if is_inf v then NA else v) (cells c))
          :: replace_inf d).
  rewrite count_inf_cons, IH. cbn [col_dtype cells].
  assert (E : filter is_inf (map (fun v => if is_inf v then NA else v) (cells c))
              = []).
  { induction (cells c) as [|v vs IHv]; [reflexivity|].
    cbn [map filter]. destruct v; cbn [is_inf]; exact IHv. }
  rewrite E. now destruct (is_np_number (col_dtype c)).
Qed.

Lemma count_inf_filter (f : column -> bool) (d : DataFrame) :
  count_inf d = 0 -> count_inf (filter f d) = 0.
Proof.
  induction d as [|c d IH]; [reflexivity|].
  rewrite count_inf_cons. intros H. cbn [filter].
  destruct (f c); [rewrite count_inf_cons|]; lia.
Qed.

Lemma all_null_dropped (d : DataFrame) :
  forallb (fun c => negb (all_null c))
    (filter (fun c => negb (existsb (String.eqb (label c))
                                    (map label (filter all_null d)))) d)
  = true.
Proof.
  apply forallb_forall. intros c Hc. apply filter_In in Hc as [Hin Hkeep].
  destruct (all_null c) eqn:E; [|reflexivity]. exfalso.
  apply negb_true_iff in Hkeep.
  assert (existsb (String.eqb (label c)) (map label (filter all_null d)) = true).
  { apply existsb_exists. exists (label c). split; [|apply String.eqb_refl].
    apply in_map. apply filter_In. now split. }
  congruence.
Qed.

(** The log entries of the inf replacement, then the frame and entries of
    the null-column drop. *)
Lemma validate_output_cases (p : ETLPipeline) :
  exists d1 l1,
    (count_inf d1 = 0)
    /\ (d1 = df p /\ l1 = [] /\ count_inf (df p) = 0
        \/ d1 = replace_inf (df p)
           /\ l1 = [replaced_infinities (count_inf (df p))]
           /\ 0 < count_inf (df p))
    /\ (filter all_null d1 = []
        /\ validate_output p
           = mkETL d1 (transformations p ++ l1) (outlier_counts p)
        \/ filter all_null d1 <> []
           /\ validate_output p
              = mkETL (filter (fun c => negb (existsb (String.eqb (label c))
                                                (map label (filter all_null d1))))
                              d1)
                      (transformations p ++ l1
                       ++ [dropped_all_null_columns
                             (map label (filter all_null d1))])
                      (outlier_counts p)).
Proof.
  unfold validate_output. cbv zeta.
  destruct (0 <? count_inf (df p)) eqn:E.
  - apply Nat.ltb_lt in E.
    exists (replace_inf (df p)), [replaced_infinities (count_inf (df p))].
    split; [apply count_inf_replace_inf|]. split; [right; now repeat split|].
    unfold log, with_df. cbn [df transformations outlier_counts].
    destruct (filter all_null (replace_inf (df p))) as [|c l] eqn:F.
    + left. split; reflexivity.
    + right. split; [discriminate|].
      cbn [df transformations outlier_counts]. now rewrite <- app_assoc.
  - apply Nat.ltb_ge in E. exists (df p), [].
    split; [lia|]. split; [left; repeat split; lia|].
    unfold log, with_df.
    destruct (filter all_null (df p)) as [|c l] eqn:F.
    + left. split; [reflexivity|]. rewrite app_nil_r. now destruct p.
    + right. split; [discriminate|]. reflexivity.
Qed.

Lemma filter_nil_forallb {A : Type} (f : A -> bool) (l : list A) :
  filter f l = [] -> forallb (fun x => negb (f x)) l = true.
Proof.
  induction l as [|x l IH]; [reflexivity|]. cbn [filter forallb].
  destruct (f x); [discriminate|]. exact IH.
Qed.

Lemma forallb_filter_nil {A : Type} (f : A -> bool) (l : list A) :
  forallb (fun x => negb (f x)) l = true -> filter f l = [].
Proof.
  induction l as [|x l IH]; [reflexivity|]. cbn [filter forallb].
  destruct (f x); [discriminate|]. exact IH.
Qed.

Lemma validate_output_post (p : ETLPipeline) :
  count_inf (df (validate_output p)) = 0
  /\ forallb (fun c => negb (all_null c)) (df (validate_output p)) = true.
Proof.
  destruct (validate_output_cases p) as (d1 & l1 & H0 & _ & [[F ->]|[F ->]]);
    cbn [df].
  - split; [exact H0|]. now apply filter_nil_forallb.
  - split; [now apply count_inf_filter|apply all_null_dropped].
Qed.

Lemma validate_output_fixed (p : ETLPipeline) :
  count_inf (df p) = 0 ->
  forallb (fun c => negb (all_null c)) (df p) = true ->
  validate_output p = p.
Proof.
  intros H0 Hnull. unfold validate_output. cbv zeta. rewrite H0.
  cbn [Nat.ltb Nat.leb]. rewrite (forallb_filter_nil _ _ Hnull). reflexivity.
Qed.

End ValidateFacts.

(** After [validate_output] no numeric column holds an infinity and no
    column is entirely missing. *)
Theorem validate_output_postcondition (p : ETLPipeline) :
  count_inf (df (validate_output p)) = 0
  /\ Forall (fun c => all_null c = false) (df (validate_output p)).
Proof.
  destruct (validate_output_post p) as [H0 Hnull]. split; [exact H0|].
  apply Forall_forall. intros c Hc. rewrite forallb_forall in Hnull.
  apply negb_true_iff. now apply Hnull.
Qed.

(** A second [validate_output] finds nothing to do: the step is idempotent
    on the whole pipeline state. *)
Theorem validate_output_idempotent (p : ETLPipeline) :
  validate_output (validate_output p) = validate_output p.
Proof.
  destruct (validate_output_post p) as [H0 Hnull].
  now apply validate_output_fixed.
Qed.

(* ================================================================== *)
(** * Outlier flags *)
(* ================================================================== *)

Section FlagFacts.



Lemma append_injective (pre a b : string) :
  (pre ++ a)%string = (pre ++ b)%string -> a = b.
Proof.
  induction pre as [|c pre IH]; cbn [String.append]; [tauto|].
  intros H. injection H as H. auto.
Qed.









End FlagFacts.





(* ================================================================== *)
(** * Missing values *)
(* ================================================================== *)

Section ImputeFacts.
Context {pandas : Pandas}.

Lemma imputed_refl (d : DataFrame) : Forall2 imputed d d.
Proof. induction d; constructor; [repeat split; lia|assumption]. Qed.

Lemma imputed_trans (d1 d2 d3 : DataFrame) :
  Forall2 imputed d1 d2 -> Forall2 imputed d2 d3 -> Forall2 imputed d1 d3.
Proof.
  intros H12. revert d3. induction H12 as [|a b d1 d2 Hab _ IH]; intros d3 H23.
  - inversion H23. constructor.
  - inversion H23 as [|? c ? d3' Hbc H23']. subst. constructor; [|auto].
    destruct Hab as (A1 & A2 & A3 & A4), Hbc as (B1 & B2 & B3 & B4).
    repeat split; try congruence; lia.
Qed.

Lemma count_na_fillna (fill : value) (s : list value) :
  Series.count_na (Series.fillna fill s) <= Series.count_na s.
Proof.
  unfold Series.count_na, Series.fillna. induction s as [|v s IH];
    cbn [map filter List.length]; [lia|].
  destruct (isna v) eqn:E; [|rewrite E; exact IH].
  destruct (isna fill); cbn [List.length]; lia.
Qed.

Lemma count_na_ffill_from (last : value) (s : list value) :
  Series.count_na (Series.ffill_from last s) <= Series.count_na s
  /\ List.length (Series.ffill_from last s) = List.length s.
Proof.
  unfold Series.count_na. revert last. induction s as [|v s IH]; intros last;
    cbn [Series.ffill_from filter List.length]; [split; lia|].
  destruct (isna v) eqn:E; cbn [filter List.length].
  - destruct (IH last) as [H1 H2]. destruct (isna last); cbn [List.length]; lia.
  - rewrite E. destruct (IH v) as [H1 H2]. lia.
Qed.

Lemma select_mask_le (f : value -> bool) (mask : list bool) (s : list value) :
  List.length (filter f (select_mask mask s)) <= List.length (filter f s)
  /\ List.length (select_mask mask s) <= List.length s.
Proof.
  revert s. induction mask as [|m mask IH]; intros [|v s];
    cbn [select_mask filter List.length]; try (split; lia).
  destruct (IH s) as [H1 H2].
  destruct m; cbn [filter List.length]; destruct (f v); cbn [List.length]; lia.
Qed.

Lemma df_filter_rows_imputed (mask : list bool) (d : DataFrame) :
  Forall2 imputed d (df_filter_rows mask d).
Proof.
  unfold df_filter_rows. induction d as [|c d IH]; cbn [map]; constructor;
    [|exact IH].
  unfold imputed, Series.count_na. cbn [label col_dtype cells].
  destruct (select_mask_le isna mask (cells c)). now repeat split.
Qed.

(** Overwriting a column that is there with a series that is no longer and
    has no more missing cells. *)
Lemma df_set_imputed (d : DataFrame) (col : string) (vs : list value) :
  df_get d col <> None ->
  List.length vs <= List.length (df_cells d col) ->
  Series.count_na vs <= Series.count_na (df_cells d col) ->
  Forall2 imputed d (df_set d col (df_dtype d col) vs).
Proof.
  unfold df_cells, df_dtype, df_get.
  induction d as [|c d IH]; cbn [find df_set]; [congruence|].
  destruct (String.eqb_spec (label c) col) as [E|Hne].
  - intros _ Hlen Hna. constructor; [|apply imputed_refl].
    unfold imputed. cbn [label col_dtype cells]. now repeat split.
  - intros Hget Hlen Hna. constructor; [repeat split; lia|]. now apply IH.
Qed.

Lemma count_na_present (d : DataFrame) (col : string) :
  Series.count_na (df_cells d col) <> 0 -> df_get d col <> None.
Proof.
  unfold df_cells. destruct (df_get d col); [discriminate|].
  intros H. now contradiction H.
Qed.

Lemma fillna_length (fill : value) (s : list value) :
  List.length (Series.fillna fill s) = List.length s.
Proof. unfold Series.fillna. apply length_map. Qed.

Lemma handle_missing_column_imputed (p : ETLPipeline) (col : string) :
  Forall2 imputed (df p) (df (handle_missing_column p col)).
Proof.
  unfold handle_missing_column. cbv zeta.
  destruct (Nat.eqb_spec (Series.count_na (df_cells (df p) col)) 0) as [|Hne];
    [apply imputed_refl|].
  pose proof (count_na_present (df p) col Hne) as Hget.
  destruct (is_numeric_dtype (df_dtype (df p) col)).
  - destruct (Float.gtb _ _); cbn [log with_df df];
      (apply df_set_imputed;
       [exact Hget | rewrite fillna_length; lia | apply count_na_fillna]).
  - destruct (is_datetime64_any_dtype (df_dtype (df p) col)).
    + destruct (Float.ltb _ _); cbn [log with_df df].
      * apply df_filter_rows_imputed.
      * destruct (count_na_ffill_from NA (df_cells (df p) col)) as [H1 H2].
        apply df_set_imputed; [exact Hget| |exact H1].
        unfold Series.ffill. lia.
    + destruct (Series.mode (df_cells (df p) col)) as [|m ms];
        [apply imputed_refl|].
      cbn [log with_df df].
      apply df_set_imputed;
        [exact Hget | rewrite fillna_length; lia | apply count_na_fillna].
Qed.

Lemma handle_missing_fold_imputed (cols : list string) (p : ETLPipeline) :
  Forall2 imputed (df p) (df (fold_left handle_missing_column cols p)).
Proof.
  revert p. induction cols as [|col cols IH]; intros p; cbn [fold_left];
    [apply imputed_refl|].
  eapply imputed_trans; [apply handle_missing_column_imputed|apply IH].
Qed.

End ImputeFacts.

(** [handle_missing_values] keeps the columns of the table, their order,
    names and dtypes; no column gains a row and no column gains a missing
    cell. *)
Theorem handle_missing_values_keeps_columns {pandas : Pandas} (p : ETLPipeline) :
  Forall2 imputed (df p) (df (handle_missing_values p)).
Proof. apply handle_missing_fold_imputed. Qed.

(* ================================================================== *)
(** * Dtype optimisation *)
(* ================================================================== *)

Section OptimizeFacts.
Context {pandas : Pandas}.

(** A loop that rewrites the listed columns one by one. *)
Lemma fold_columns_map (upd : column -> column)
    (set : DataFrame -> string -> DataFrame) (cols : list string)
    (d : DataFrame) :
  (forall d col, NoDup (df_columns d) -> In col (df_columns d) ->
     set d col = map (fun c => if String.eqb (label c) col then upd c else c) d) ->
  (forall c, label (upd c) = label c) ->
  NoDup (df_columns d) -> NoDup cols -> incl cols (df_columns d) ->
  fold_left set cols d
  = map (fun c => if existsb (String.eqb (label c)) cols then upd c else c) d.
Proof.
  intros Hset Hlabel. revert d.
  induction cols as [|k ks IH]; intros d Hnd Hks Hincl.
  - cbn [fold_left existsb]. now rewrite map_id.
  - cbn [fold_left]. inversion Hks as [|x l Hk Hks']; subst.
    assert (Hin : In k (df_columns d)) by (apply Hincl; now left).
    rewrite Hset by assumption.
    set (f := fun c => if String.eqb (label c) k then upd c else c).
    assert (Hlab : df_columns (map f d) = df_columns d).
    { unfold df_columns. rewrite map_map. apply map_ext. intros c.
      unfold f. destruct (String.eqb (label c) k); [apply Hlabel|reflexivity]. }
    rewrite IH; [|now rewrite Hlab|assumption|].
    + rewrite map_map. apply map_ext. intros c. unfold f. cbn [existsb].
      destruct (String.eqb_spec (label c) k) as [E|Hne]; cbn [orb].
      * rewrite Hlabel.
        destruct (existsb (String.eqb (label c)) ks) eqn:Ex; [|reflexivity].
        exfalso. apply existsb_exists in Ex as [k' [Hk' Ek']].
        apply String.eqb_eq in Ek'. subst. congruence.
      * reflexivity.
    + rewrite Hlab. intros x Hx. apply Hincl. now right.
Qed.

Lemma select_dtypes_incl (f : dtype -> bool) (d : DataFrame) :
  incl (select_dtypes f d) (df_columns d).
Proof.
  intros k Hk. apply select_dtypes_In in Hk as [c [Hc [<- _]]].
  unfold df_columns. now apply in_map.
Qed.

Lemma downcast_integer_cases (cur : dtype) (vs : list value) :
  itemsize (downcast_integer cur vs) <= itemsize cur
  /\ (downcast_integer cur vs = cur
      \/ In (downcast_integer cur vs) [Int8; Int16; Int32; Int64]).
Proof.
  unfold downcast_integer.
  destruct (find _ _) as [d|] eqn:E; [|split; [lia|now left]].
  apply find_some in E as [Hin H]. apply andb_prop in H as [H _].
  apply Nat.leb_le in H. split; [exact H|now right].
Qed.

Lemma downcast_integer_not_float64 (cur : dtype) (vs : list value) :
  is_int64_or_int32 cur = true ->
  is_float64 (downcast_integer cur vs) = false.
Proof.
  intros Hcur. destruct (downcast_integer_cases cur vs) as [_ [->|Hin]].
  - now destruct cur.
  - cbn [In] in Hin. destruct Hin as [<-|[<-|[<-|[<-|[]]]]]; reflexivity.
Qed.

Lemma optimize_dtypes_df (p : ETLPipeline) :
  NoDup (df_columns (df p)) ->
  df (optimize_dtypes p) = map optimize_col (df p).
Proof.
  intros Hnd. unfold optimize_dtypes. cbv zeta. cbn [log with_df df].
  set (d1 := fold_left _ (select_dtypes is_int64_or_int32 (df p)) (df p)).
  assert (E1 : d1 = map (fun c => if is_int64_or_int32 (col_dtype c)
                                  then downcast_int_col c else c) (df p)).
  { unfold d1.
    rewrite (fold_columns_map downcast_int_col).
    - apply map_ext_in. intros c Hc. now rewrite select_dtypes_member.
    - intros d col Hd Hcol. rewrite df_set_map by assumption.
      apply map_ext_in. intros c Hc.
      destruct (String.eqb_spec (label c) col) as [<-|_]; [|reflexivity].
      unfold downcast_int_col. now rewrite df_cells_In, df_dtype_In.
    - reflexivity.
    - assumption.
    - now apply select_dtypes_NoDup.
    - apply select_dtypes_incl. }
  assert (Hlab1 : df_columns d1 = df_columns (df p)).
  { rewrite E1. unfold df_columns. rewrite map_map. apply map_ext. intros c.
    now destruct (is_int64_or_int32 (col_dtype c)). }
  assert (Hnd1 : NoDup (df_columns d1)) by (now rewrite Hlab1).
  set (step := fun d col =>
                 if negb (PyStr.startswith "is_outlier_" col)
                 then let '(dt, vs) := downcast_float (df_cells d col) in
                      df_set d col dt vs
                 else d).
  change (fold_left step (select_dtypes is_float64 d1) d1
          = map optimize_col (df p)).
  rewrite (fold_columns_map
             (fun c => if negb (PyStr.startswith "is_outlier_" (label c))
                       then downcast_float_col c else c)).
  - clearbody d1.
    erewrite map_ext_in;
      [|intros c' Hc'; rewrite (select_dtypes_member is_float64 d1 c' Hnd1 Hc');
        reflexivity].
    rewrite E1, map_map. apply map_ext. intros c.
    unfold optimize_col.
    destruct (is_int64_or_int32 (col_dtype c)) eqn:Ei.
    + cbn [downcast_int_col col_dtype].
      now rewrite downcast_integer_not_float64.
    + destruct (is_float64 (col_dtype c)); cbn [andb]; reflexivity.
  - intros d col Hd Hcol. unfold step.
    destruct (PyStr.startswith "is_outlier_" col) eqn:Es; cbn [negb].
    + rewrite <- (map_id d) at 1. apply map_ext_in. intros c Hc.
      destruct (String.eqb_spec (label c) col) as [->|_]; [|reflexivity].
      now rewrite Es.
    + destruct (downcast_float (df_cells d col)) as [dt vs] eqn:Ed.
      rewrite df_set_map by assumption.
      apply map_ext_in. intros c Hc.
      destruct (String.eqb_spec (label c) col) as [<-|_]; [|reflexivity].
      rewrite Es. cbn [negb]. unfold downcast_float_col.
      rewrite df_cells_In in Ed by assumption. now rewrite Ed.
  - intros c. destruct (negb _); [|reflexivity].
    unfold downcast_float_col. now destruct (downcast_float (cells c)).
  - exact Hnd1.
  - now apply select_dtypes_NoDup.
  - apply select_dtypes_incl.
Qed.

Lemma optimize_col_optimized (c : column) : optimized c (optimize_col c).
Proof.
  unfold optimized, optimize_col.
  destruct (is_int64_or_int32 (col_dtype c)) eqn:Ei.
  - cbn [downcast_int_col label cells col_dtype].
    split; [reflexivity|]. split; [|split].
    + intros _. split; [reflexivity|apply downcast_integer_cases].
    + discriminate.
    + intros Hf. destruct (col_dtype c); discriminate.
  - destruct (is_float64 (col_dtype c)) eqn:Ef; cbn [andb].
    + split.
      { destruct (negb _); [|reflexivity]. unfold downcast_float_col.
        now destruct (downcast_float (cells c)). }
      split; [discriminate|]. split; [discriminate|].
      intros _ ->. reflexivity.
    + split; [reflexivity|]. split; [intros _; split; [reflexivity|lia]|].
      split; [reflexivity|discriminate].
Qed.

End OptimizeFacts.

(** [optimize_dtypes] on a table with unique column names keeps the
    columns, their order and names; a column that is not float64 keeps
    every cell and gets no wider dtype; a column that is neither int64,
    int32 nor float64, and a float64 column named like an outlier flag,
    stay exactly as they are. *)
Theorem optimize_dtypes_keeps_values {pandas : Pandas} (p : ETLPipeline) :
  NoDup (df_columns (df p)) ->
  Forall2 optimized (df p) (df (optimize_dtypes p))
  /\ transformations (optimize_dtypes p)
     = transformations p ++ [optimized_dtypes].
Proof.
  intros Hnd. split; [|reflexivity].
  rewrite optimize_dtypes_df by assumption.
  induction (df p) as [|c d IH]; cbn [map]; constructor;
    [apply optimize_col_optimized|].
  apply IH. unfold df_columns in Hnd. cbn [map] in Hnd.
  now inversion Hnd.
Qed.

Lemma optimize_dtypes_keeps_values_witness :
  let p := init [mkColumn "n" Int64 [Num 1%Q; Num 300%Q];
                 mkColumn "s" Object [Str "a"; Str "b"]] in
  NoDup (df_columns (df p))
  /\ Forall2 optimized (df p)
             (df (@optimize_dtypes plain_pandas p))
  /\ df (@optimize_dtypes plain_pandas p)
     = [mkColumn "n" Int16 [Num 1%Q; Num 300%Q];
        mkColumn "s" Object [Str "a"; Str "b"]].
Proof.
  cbv zeta. split; [repeat constructor; cbn; intuition discriminate|].
  split; [|reflexivity].
  apply (@optimize_dtypes_keeps_values plain_pandas).
  repeat constructor; cbn; intuition discriminate.
Defined.

(* ================================================================== *)
(** * The price-per-unit column *)
(* ================================================================== *)

Section PricePerUnitFacts.





End PricePerUnitFacts.



(* ================================================================== *)
(** * The order of the log *)
(* ================================================================== *)

Section LogOrderFacts.
Context {pandas : Pandas}.

Lemma standardize_columns_step p :
  only_appends (from_step 1) standardize_columns p.
Proof.
  unfold only_appends, standardize_columns.
  destruct (build_rename_map _) as [|e m].
  - exists []. now rewrite app_nil_r.
  - eexists. cbn [log transformations with_df]. split; reflexivity.
Qed.

Lemma trim_strings_step p : only_appends (from_step 2) trim_strings p.
Proof.
  unfold only_appends. rewrite trim_strings_log.
  destruct (select_dtypes is_object (df p)); eexists; split; reflexivity.
Qed.

Lemma remove_duplicates_step p :
  only_appends (from_step 3) remove_duplicates p.
Proof.
  unfold only_appends, remove_duplicates. cbv zeta.
  destruct (0 <? _).
  - eexists. cbn [log transformations with_df]. split; reflexivity.
  - exists []. cbn [transformations with_df]. now rewrite app_nil_r.
Qed.

Lemma handle_missing_column_step p col :
  exists l,
    transformations (handle_missing_column p col) = transformations p ++ l
    /\ forallb (from_step 4) l = true.
Proof.
  unfold handle_missing_column. cbv zeta.
  destruct (_ =? 0); [exists []; now rewrite app_nil_r|].
  destruct (is_numeric_dtype _).
  - destruct (Float.gtb _ _); eexists; cbn [log transformations with_df];
      split; reflexivity.
  - destruct (is_datetime64_any_dtype _).
    + destruct (Float.ltb _ _); eexists; cbn [log transformations with_df];
        split; reflexivity.
    + destruct (Series.mode _); [exists []; now rewrite app_nil_r|].
      eexists; cbn [log transformations with_df]; split; reflexivity.
Qed.

Lemma handle_missing_fold_step (cols : list string) p :
  exists l,
    transformations (fold_left handle_missing_column cols p)
    = transformations p ++ l
    /\ forallb (from_step 4) l = true.
Proof.
  revert p. induction cols as [|col cols IH]; intros p; cbn [fold_left].
  - exists []. now rewrite app_nil_r.
  - destruct (handle_missing_column_step p col) as [l1 [E1 H1]].
    destruct (IH (handle_missing_column p col)) as [l2 [E2 H2]].
    exists (l1 ++ l2). rewrite E2, E1, <- app_assoc. split; [reflexivity|].
    now rewrite forallb_app, H1, H2.
Qed.

Lemma handle_missing_values_step p :
  only_appends (from_step 4) handle_missing_values p.
Proof. apply handle_missing_fold_step. Qed.

Lemma convert_dates_step p : only_appends (from_step 5) convert_dates p.
Proof.
  unfold only_appends, convert_dates. cbv zeta.
  destruct (fold_left _ _ _) as [d converted].
  destruct converted.
  - exists []. cbn [transformations with_df]. now rewrite app_nil_r.
  - eexists. cbn [log transformations with_df]. split; reflexivity.
Qed.

Lemma detect_outliers_fold_log (cols : list string) (q : ETLPipeline) :
  transformations (fold_left detect_outliers_column cols q) = transformations q.
Proof.
  revert q. induction cols as [|col cols IH]; intros q; cbn [fold_left];
    [reflexivity|].
  rewrite IH.
  destruct (detect_outliers_column_cases q col) as [[_ ->]|[_ [vs ->]]];
    reflexivity.
Qed.

Lemma detect_outliers_step p : only_appends (from_step 6) detect_outliers p.
Proof.
  unfold only_appends, detect_outliers. cbv zeta.
  destruct (outlier_counts _).
  - exists []. rewrite detect_outliers_fold_log. now rewrite app_nil_r.
  - eexists. cbn [log transformations]. rewrite detect_outliers_fold_log.
    split; reflexivity.
Qed.

Lemma feature_engineering_step p :
  only_appends (from_step 8) feature_engineering p.
Proof.
  unfold only_appends, feature_engineering. cbv zeta.
  set (cols := select_dtypes is_datetime64_naive (df p)).
  destruct (extract_date_parts_loop cols p) as (Ht & _ & _). cbv zeta in Ht.
  assert (Hparts : forallb (from_step 8) (map extracted_date_parts_from cols)
                   = true).
  { clear Ht. generalize cols. intros cs.
    induction cs as [|c cs IHc]; [reflexivity|exact IHc]. }
  destruct (price_per_unit_cases (fold_left extract_date_parts cols p))
    as [->|[E _]].
  - eexists. split; [exact Ht|exact Hparts].
  - eexists. rewrite E, Ht, <- app_assoc. split; [reflexivity|].
    now rewrite forallb_app, Hparts.
Qed.

Lemma validate_output_step p : only_appends (from_step 9) validate_output p.
Proof.
  unfold only_appends, validate_output. cbv zeta.
  destruct (0 <? count_inf (df p)).
  - destruct (filter all_null _) as [|c l].
    + eexists. cbn [map log transformations with_df]. split; reflexivity.
    + eexists. cbn [map log transformations with_df df].
      rewrite <- app_assoc. split; reflexivity.
  - destruct (filter all_null _) as [|c l].
    + exists []. cbn [map]. now rewrite app_nil_r.
    + eexists. cbn [map log transformations with_df]. split; reflexivity.
Qed.

(** Entries of a later step may follow an ordered log of earlier steps. *)
Lemma in_step_order_app (k k' : nat) (l l' : list Transformation) :
  k <= k' ->
  in_step_order l -> Forall (fun t => step_of t <= k) l ->
  forallb (from_step k') l' = true ->
  in_step_order (l ++ l') /\ Forall (fun t => step_of t <= k') (l ++ l').
Proof.
  intros Hk Hsorted Hbound Hl'.
  assert (Hl : Forall (fun t => step_of t = k') l').
  { apply Forall_forall. intros t Ht. rewrite forallb_forall in Hl'.
    apply Nat.eqb_eq. now apply Hl'. }
  clear Hl'. split.
  - unfold in_step_order in *.
    induction Hsorted as [|a l Hs IH Ha]; cbn [app].
    + induction Hl as [|b l' Hb Hl IHl]; constructor; [exact IHl|].
      eapply Forall_impl; [|exact Hl]. intros t Ht. cbn beta in Ht. lia.
    + inversion Hbound as [|? ? Hak Hbound']. subst.
      constructor; [now apply IH|].
      apply Forall_app. split; [exact Ha|].
      eapply Forall_impl; [|exact Hl]. intros t Ht. cbn beta in Ht. lia.
  - apply Forall_app. split.
    + eapply Forall_impl; [|exact Hbound]. intros t Ht. cbn beta in Ht. lia.
    + eapply Forall_impl; [|exact Hl]. intros t Ht. cbn beta in Ht. lia.
Qed.

Lemma from_step_Forall (k : nat) (l : list Transformation) (P : nat -> Prop) :
  P k -> forallb (from_step k) l = true -> Forall (fun t => P (step_of t)) l.
Proof.
  intros HP H. apply Forall_forall. intros t Ht. rewrite forallb_forall in H.
  specialize (H t Ht). apply Nat.eqb_eq in H. now rewrite H.
Qed.

End LogOrderFacts.

(** [run] only appends to the log, and what it appends comes in the order
    of the steps: entries of steps 1 to 6, then [optimized_dtypes] exactly
    once, then entries of steps 8 and 9. *)
Theorem run_log_in_step_order {pandas : Pandas} (p : ETLPipeline) :
  exists before after,
    transformations (run p)
    = transformations p ++ before ++ optimized_dtypes :: after
    /\ in_step_order (before ++ optimized_dtypes :: after)
    /\ Forall (fun t => step_of t < 7) before
    /\ Forall (fun t => 7 < step_of t) after.
Proof.
  unfold run.
  destruct (standardize_columns_step p) as [l1 [E1 H1]].
  set (p1 := standardize_columns p) in *.
  destruct (trim_strings_step p1) as [l2 [E2 H2]].
  set (p2 := trim_strings p1) in *.
  destruct (remove_duplicates_step p2) as [l3 [E3 H3]].
  set (p3 := remove_duplicates p2) in *.
  destruct (handle_missing_values_step p3) as [l4 [E4 H4]].
  set (p4 := handle_missing_values p3) in *.
  destruct (convert_dates_step p4) as [l5 [E5 H5]].
  set (p5 := convert_dates p4) in *.
  destruct (detect_outliers_step p5) as [l6 [E6 H6]].
  set (p6 := detect_outliers p5) in *.
  set (p7 := optimize_dtypes p6) in *.
  assert (E7 : transformations p7 = transformations p6 ++ [optimized_dtypes])
    by reflexivity.
  destruct (feature_engineering_step p7) as [l8 [E8 H8]].
  set (p8 := feature_engineering p7) in *.
  destruct (validate_output_step p8) as [l9 [E9 H9]].
  exists (l1 ++ l2 ++ l3 ++ l4 ++ l5 ++ l6), (l8 ++ l9).
  assert (Hlog : transformations (validate_output p8)
                 = transformations p ++ (l1 ++ l2 ++ l3 ++ l4 ++ l5 ++ l6)
                   ++ optimized_dtypes :: l8 ++ l9).
  { rewrite E9, E8, E7, E6, E5, E4, E3, E2, E1.
    repeat rewrite <- app_assoc. reflexivity. }
  split; [exact Hlog|].
  assert (O0 : in_step_order [] /\ Forall (fun t => step_of t <= 0) [])
    by (split; constructor).
  destruct O0 as [S0 B0].
  destruct (in_step_order_app 0 1 [] l1 ltac:(lia) S0 B0 H1) as [S1 B1].
  destruct (in_step_order_app 1 2 _ l2 ltac:(lia) S1 B1 H2) as [S2 B2].
  destruct (in_step_order_app 2 3 _ l3 ltac:(lia) S2 B2 H3) as [S3 B3].
  destruct (in_step_order_app 3 4 _ l4 ltac:(lia) S3 B3 H4) as [S4 B4].
  destruct (in_step_order_app 4 5 _ l5 ltac:(lia) S4 B4 H5) as [S5 B5].
  destruct (in_step_order_app 5 6 _ l6 ltac:(lia) S5 B5 H6) as [S6 B6].
  destruct (in_step_order_app 6 7 _ [optimized_dtypes] ltac:(lia) S6 B6 eq_refl)
    as [S7 B7].
  destruct (in_step_order_app 7 8 _ l8 ltac:(lia) S7 B7 H8) as [S8 B8].
  destruct (in_step_order_app 8 9 _ l9 ltac:(lia) S8 B8 H9) as [S9 B9].
  cbn [app] in *. repeat rewrite <- app_assoc in *. cbn [app] in *.
  split; [exact S9|]. split.
  - eapply Forall_impl; [|exact B6]. intros t Ht. cbn beta in Ht. lia.
  - apply Forall_app. split.
    + apply (from_step_Forall 8 l8 (fun n => 7 < n)); [lia|exact H8].
    + apply (from_step_Forall 9 l9 (fun n => 7 < n)); [lia|exact H9].
Qed.

(* ================================================================== *)
(** * Date conversion *)
(* ================================================================== *)



(* ================================================================== *)
(** * Column classification *)
(* ================================================================== *)

Module PyRun.

(** Running a read-only computation and then another. *)
Lemma bind_result {A B : Type} (m : Py.M A) (f : A -> Py.M B) d :
  Py.read_only m ->
  Py.result (Py.bind m f) d
  = match Py.result m d with
    | Some a => Py.result (f a) d
    | None => None
    end.
Proof.
  intros Hro. unfold Py.result. rewrite PyFacts.bind_run by assumption.
  now destruct (fst (m d)).
Qed.

Lemma for_each_result {X Y : Type} (x : X) xs (body : X -> Py.M (list Y)) d :
  (forall x, Py.read_only (body x)) ->
  Py.result (Py.for_each (x :: xs) body) d
  = match Py.result (body x) d with
    | Some ys =>
        match Py.result (Py.for_each xs body) d with
        | Some rest => Some (ys ++ rest)
        | None => None
        end
    | None => None
    end.
Proof. apply PyFacts.for_each_cons. Qed.

Lemma fold_m_result {S X : Type} (step : S -> X -> Py.M S) (x : X) xs s d :
  (forall s x, Py.read_only (step s x)) ->
  Py.result (Py.fold_m step (x :: xs) s) d
  = match Py.result (step s x) d with
    | Some s' => Py.result (Py.fold_m step xs s') d
    | None => None
    end.
Proof. intros Hro. cbn [Py.fold_m]. now apply bind_result. Qed.

(** A loop whose body appends to one list: it raises exactly when one
    iteration does, and otherwise every appended element comes from the
    iteration of some listed item. *)
Lemma for_each_spec {X Y : Type} (xs : list X) (body : X -> Py.M (list Y))
    (d : DataFrame) (P : X -> Y -> Prop) (Q : X -> Prop) :
  (forall x, Py.read_only (body x)) ->
  (forall x, In x xs ->
     match Py.result (body x) d with
     | Some ys => Forall (P x) ys
     | None => Q x
     end) ->
  match Py.result (Py.for_each xs body) d with
  | Some ys => Forall (fun y => exists x, In x xs /\ P x y) ys
  | None => exists x, In x xs /\ Q x
  end.
Proof.
  intros Hro. induction xs as [|x xs IH]; intros Hbody.
  - cbn. constructor.
  - rewrite for_each_result by assumption.
    pose proof (Hbody x (or_introl eq_refl)) as Hx.
    destruct (Py.result (body x) d) as [ys|]; [|exists x; split; [now left|exact Hx]].
    assert (IH' := IH (fun y Hy => Hbody y (or_intror Hy))).
    destruct (Py.result (Py.for_each xs body) d) as [rest|].
    + apply Forall_app. split.
      * eapply Forall_impl; [|exact Hx]. intros y Hy. exists x. split;
          [now left|exact Hy].
      * eapply Forall_impl; [|exact IH']. intros y [x' [Hin Hy]].
        exists x'. split; [now right|exact Hy].
    + destruct IH' as [x' [Hin Hq]]. exists x'. split; [now right|exact Hq].
Qed.

End PyRun.

Section ClassifyFacts.

Lemma classify_fold (d : DataFrame) (L : list column) (acc : ColumnTypes) :
  NoDup (df_columns d) -> incl L d ->
  Py.result
    (Py.fold_m
       (fun result col =>
          if PyStr.startswith "is_outlier_" col then Py.ret result
          else
            Py.bind (Py.getitem col) (fun c =>
            if is_datetime64_any_dtype (col_dtype c) then
              Py.ret (mkColumnTypes (numeric result) (categorical result)
                                    (datetime result ++ [col]))
            else
              Py.bind (Py.getitem col) (fun c =>
              if is_numeric_dtype (col_dtype c) then
                Py.ret (mkColumnTypes (numeric result ++ [col])
                                      (categorical result) (datetime result))
              else
                Py.ret (mkColumnTypes (numeric result)
                                      (categorical result ++ [col])
                                      (datetime result)))))
       (map label L) acc) d
  = Some
      (mkColumnTypes
         (numeric acc
          ++ classified (fun t => negb (is_datetime64_any_dtype t)
                                  && is_numeric_dtype t) L)
         (categorical acc
          ++ classified (fun t => negb (is_datetime64_any_dtype t)
                                  && negb (is_numeric_dtype t)) L)
         (datetime acc ++ classified is_datetime64_any_dtype L)).
Proof.
  intros Hnd. revert acc. unfold classified.
  match goal with |- context [Py.fold_m ?f _ _] => set (step := f) end.
  assert (Hro : forall s x, Py.read_only (step s x))
    by (intros s x; unfold step; read_only).
  induction L as [|c L IH]; intros acc Hincl.
  - cbn. rewrite !app_nil_r. now destruct acc.
  - assert (Hc : In c d) by (apply Hincl; now left).
    assert (HL : incl L d) by (intros x Hx; apply Hincl; now right).
    cbn [map filter]. rewrite PyRun.fold_m_result by assumption.
    assert (Hstep :
      Py.result (step acc (label c)) d
      = Some (if PyStr.startswith "is_outlier_" (label c) then acc
              else if is_datetime64_any_dtype (col_dtype c)
                   then mkColumnTypes (numeric acc) (categorical acc)
                                      (datetime acc ++ [label c])
                   else if is_numeric_dtype (col_dtype c)
                        then mkColumnTypes (numeric acc ++ [label c])
                                           (categorical acc) (datetime acc)
                        else mkColumnTypes (numeric acc)
                                           (categorical acc ++ [label c])
                                           (datetime acc))).
    { unfold step, Py.result, Py.bind, Py.getitem, Py.ret.
      destruct (PyStr.startswith "is_outlier_" (label c)); [reflexivity|].
      rewrite (df_get_In d c Hnd Hc).
      destruct (is_datetime64_any_dtype (col_dtype c)); [reflexivity|].
      rewrite (df_get_In d c Hnd Hc).
      now destruct (is_numeric_dtype (col_dtype c)). }
    rewrite Hstep, (IH _ HL).
    destruct (PyStr.startswith "is_outlier_" (label c)); cbn [negb andb];
      [reflexivity|].
    destruct (is_datetime64_any_dtype (col_dtype c)); cbn [negb andb];
      [cbn [numeric categorical datetime map]; now rewrite <- app_assoc|].
    destruct (is_numeric_dtype (col_dtype c)); cbn [negb];
      cbn [numeric categorical datetime map]; now rewrite <- app_assoc.
Qed.

Lemma classify_columns_result (d : DataFrame) :
  NoDup (df_columns d) ->
  Py.result classify_columns d
  = Some
      (mkColumnTypes
         (classified (fun t => negb (is_datetime64_any_dtype t)
                               && is_numeric_dtype t) d)
         (classified (fun t => negb (is_datetime64_any_dtype t)
                               && negb (is_numeric_dtype t)) d)
         (classified is_datetime64_any_dtype d)).
Proof.
  intros Hnd. unfold classify_columns.
  rewrite PyRun.bind_result by apply PyFacts.columns_ro.
  unfold Py.result at 1, Py.columns. cbn [fst]. unfold df_columns.
  rewrite (classify_fold d d (mkColumnTypes [] [] []) Hnd (incl_refl d)).
  reflexivity.
Qed.

Lemma classified_count (d : DataFrame) :
  List.length (classified (fun t => negb (is_datetime64_any_dtype t)
                                    && is_numeric_dtype t) d)
  + List.length (classified (fun t => negb (is_datetime64_any_dtype t)
                                      && negb (is_numeric_dtype t)) d)
  + List.length (classified is_datetime64_any_dtype d)
  + List.length (flag_labels d)
  = List.length d.
Proof.
  unfold classified, flag_labels, df_columns.
  induction d as [|c d IH]; [reflexivity|].
  cbn [map filter List.length].
  destruct (PyStr.startswith "is_outlier_" (label c)); cbn [negb andb];
    cbn [map List.length]; [lia|].
  destruct (is_datetime64_any_dtype (col_dtype c)); cbn [negb andb];
    cbn [map List.length]; [lia|].
  destruct (is_numeric_dtype (col_dtype c)); cbn [negb];
    cbn [map List.length]; lia.
Qed.

End ClassifyFacts.

(** On a table with unique column names [classify_columns] never raises
    and sorts the columns into three lists that keep the column order:
    datetime columns, then of the rest the numeric ones, and all others as
    categorical; a column whose name starts with [is_outlier_] is in no
    list, every other column in exactly one. *)
Theorem classify_columns_partition (d : DataFrame) :
  NoDup (df_columns d) ->
  Py.result classify_columns d
  = Some
      (mkColumnTypes
         (classified (fun t => negb (is_datetime64_any_dtype t)
                               && is_numeric_dtype t) d)
         (classified (fun t => negb (is_datetime64_any_dtype t)
                               && negb (is_numeric_dtype t)) d)
         (classified is_datetime64_any_dtype d))
  /\ List.length (classified (fun t => negb (is_datetime64_any_dtype t)
                                       && is_numeric_dtype t) d)
     + List.length (classified (fun t => negb (is_datetime64_any_dtype t)
                                         && negb (is_numeric_dtype t)) d)
     + List.length (classified is_datetime64_any_dtype d)
     + List.length (flag_labels d)
     = List.length d.
Proof.
  intros Hnd. split; [now apply classify_columns_result|apply classified_count].
Qed.

Lemma classify_columns_partition_witness :
  let d := [ mkColumn "when" (Datetime false) [NA];
             mkColumn "x" Int64 [Num 1%Q];
             mkColumn "is_outlier_x" Int64 [Num 0%Q];
             mkColumn "name" Object [Str "a"];
             mkColumn "ok" Bool [Num 1%Q] ] in
  NoDup (df_columns d)
  /\ Py.result classify_columns d
     = Some (mkColumnTypes ["x"; "ok"] ["name"] ["when"]).
Proof.
  cbv zeta.
  assert (Hnd : NoDup (df_columns
            [ mkColumn "when" (Datetime false) [NA];
              mkColumn "x" Int64 [Num 1%Q];
              mkColumn "is_outlier_x" Int64 [Num 0%Q];
              mkColumn "name" Object [Str "a"];
              mkColumn "ok" Bool [Num 1%Q] ])).
  { repeat constructor; cbn; intuition discriminate. }
  split; [exact Hnd|].
  destruct (classify_columns_partition _ Hnd) as [E _]. rewrite E.
  reflexivity.
Defined.

(* ================================================================== *)
(** * The tables of the insight engine *)
(* ================================================================== *)

Section TableFacts.
Context {pandas : Pandas} {analytics : Analytics}.

(** A loop whose iterations append lists with known keys. *)
Lemma for_each_map {X Y K : Type} (xs : list X) (body : X -> Py.M (list Y))
    (d : DataFrame) (key : Y -> K) (keys : X -> list K) (R Q : X -> Prop) :
  (forall x, Py.read_only (body x)) ->
  (forall x, In x xs ->
     match Py.result (body x) d with
     | Some ys => map key ys = keys x /\ R x
     | None => Q x
     end) ->
  match Py.result (Py.for_each xs body) d with
  | Some ys => map key ys = flat_map keys xs /\ Forall R xs
  | None => exists x, In x xs /\ Q x
  end.
Proof.
  intros Hro. induction xs as [|x xs IH]; intros Hbody.
  - split; [reflexivity|constructor].
  - rewrite PyRun.for_each_result by assumption.
    pose proof (Hbody x (or_introl eq_refl)) as Hx.
    destruct (Py.result (body x) d) as [ys|];
      [|exists x; split; [now left|exact Hx]].
    assert (IH' := IH (fun y Hy => Hbody y (or_intror Hy))).
    destruct (Py.result (Py.for_each xs body) d) as [rest|].
    + destruct Hx as [Hx Rx], IH' as [IH' Rxs]. cbn [flat_map].
      split; [now rewrite map_app, Hx, IH'|now constructor].
    + destruct IH' as [x' [Hin Hq]]. exists x'. split; [now right|exact Hq].
Qed.

Lemma has_column_get (d : DataFrame) (col : string) :
  has_column d col = false <-> df_get d col = None.
Proof.
  unfold has_column, df_get. induction d as [|c d IH]; cbn [existsb find];
    [tauto|].
  destruct (String.eqb (label c) col); cbn [orb]; [|exact IH].
  split; discriminate.
Qed.

Lemma dropna_nil (s : list value) :
  Series.dropna s = [] <-> forallb isna s = true.
Proof.
  unfold Series.dropna, notna. induction s as [|v s IH]; cbn [filter forallb];
    [tauto|].
  destruct (isna v); cbn [negb andb]; [exact IH|]. split; discriminate.
Qed.

Lemma flat_map_filter {X : Type} (f : X -> bool) (xs : list X) :
  flat_map (fun x => if f x then [x] else []) xs = filter f xs.
Proof.
  induction xs as [|x xs IH]; [reflexivity|]. cbn [flat_map filter].
  rewrite IH. now destruct (f x).
Qed.

Lemma flat_map_singleton {X : Type} (xs : list X) :
  flat_map (fun x => [x]) xs = xs.
Proof.
  induction xs as [|x xs IH]; [reflexivity|]. cbn [flat_map app].
  now rewrite IH.
Qed.

Lemma stats_for_columns (d : DataFrame) (col : string) :
  match Py.result (stats_for col) d with
  | Some recs =>
      map st_column recs = (if has_values d col then [col] else [])
      /\ has_column d col = true
  | None => has_column d col = false
  end.
Proof.
  unfold Py.result, stats_for, Py.bind, Py.getitem, Py.len, Py.ret,
    has_values, df_cells.
  destruct (df_get d col) as [c|] eqn:G; cbn [fst];
    [|now apply has_column_get].
  assert (Hc : has_column d col = true).
  { destruct (has_column d col) eqn:Hc; [reflexivity|].
    apply has_column_get in Hc. congruence. }
  destruct (Series.dropna (cells c)) as [|v vs] eqn:E; cbn [fst].
  - apply dropna_nil in E. now rewrite E.
  - rewrite G. cbn [fst map st_column]. split; [|exact Hc].
    destruct (forallb isna (cells c)) eqn:F; [|reflexivity].
    apply dropna_nil in F. congruence.
Qed.

End TableFacts.

(** [descriptive_stats] raises exactly when a requested column is not in
    the table; otherwise it returns one record for each requested column
    that has a value, in the order of the request, and none for a column
    with nothing but missing cells. *)
Theorem descriptive_stats_columns
    {pandas : Pandas} {analytics : Analytics}
    (numeric_cols : list string) (d : DataFrame) :
  match Py.result (descriptive_stats numeric_cols) d with
  | Some recs =>
      map st_column recs = filter (has_values d) numeric_cols
      /\ Forall (fun col => has_column d col = true) numeric_cols
  | None => exists col, In col numeric_cols /\ has_column d col = false
  end.
Proof.
  unfold descriptive_stats.
  pose proof (for_each_map numeric_cols stats_for d st_column
                (fun col => if has_values d col then [col] else [])
                (fun col => has_column d col = true)
                (fun col => has_column d col = false)
                stats_for_ro (fun col _ => stats_for_columns d col)) as H.
  destruct (Py.result (Py.for_each numeric_cols stats_for) d) as [recs|];
    [|exact H].
  destruct H as [H1 H2]. split; [now rewrite H1, flat_map_filter|exact H2].
Qed.

Section DistributionFacts.
Context {pandas : Pandas} {analytics : Analytics}.

Lemma bin_labels_length (digits n : nat) (edges : list value) :
  List.length (bin_labels digits n edges) = n.
Proof. unfold bin_labels. now rewrite length_map, length_seq. Qed.

End DistributionFacts.

(** [distribution_analysis] raises only when a requested column is not in
    the table (a failure while binning a column is swallowed and that
    column is skipped); every entry it returns belongs to a requested
    column, reports between 1 and 50 bins, and has one label per count. *)
Theorem distribution_analysis_bins
    {pandas : Pandas} {analytics : Analytics}
    (numeric_cols : list string) (d : DataFrame) :
  match Py.result (distribution_analysis numeric_cols) d with
  | Some entries =>
      Forall (fun e => In (db_column e) numeric_cols
                       /\ 1 <= db_n_bins e <= 50
                       /\ List.length (db_bins e) = List.length (db_counts e))
             entries
  | None => exists col, In col numeric_cols /\ has_column d col = false
  end.
Proof.
  unfold distribution_analysis.
  match goal with |- context [Py.for_each _ ?f] => set (body := f) end.
  assert (Hro : forall col, Py.read_only (body col))
    by (intros col; unfold body; read_only).
  pose proof (PyRun.for_each_spec numeric_cols body d
                (fun col e => db_column e = col
                              /\ 1 <= db_n_bins e <= 50
                              /\ List.length (db_bins e)
                                 = List.length (db_counts e))
                (fun col => has_column d col = false) Hro) as H.
  assert (Hbody : forall col, In col numeric_cols ->
            match Py.result (body col) d with
            | Some ys =>
                Forall (fun e => db_column e = col
                                 /\ 1 <= db_n_bins e <= 50
                                 /\ List.length (db_bins e)
                                    = List.length (db_counts e)) ys
            | None => has_column d col = false
            end).
  { intros col _. unfold body, Py.result, Py.bind, Py.getitem, Py.try_except,
      Py.of_option, Py.ret.
    destruct (df_get d col) as [c|] eqn:G; cbn [fst];
      [|now apply has_column_get].
    destruct (List.length (Series.dropna (cells c)) <? 2); cbn [fst];
      [constructor|].
    destruct (Float.gtb _ _).
    - destruct (ceil_int _) as [k|]; cbn [fst]; [|constructor].
      destruct (np_histogram _ _) as [[counts edges]|]; cbn [fst];
        [|constructor].
      constructor; [|constructor]. cbn [db_column db_n_bins db_bins db_counts].
      split; [reflexivity|]. split; [lia|apply bin_labels_length].
    - destruct (np_histogram _ _) as [[counts edges]|]; cbn [fst];
        [|constructor].
      constructor; [|constructor]. cbn [db_column db_n_bins db_bins db_counts].
      split; [reflexivity|]. split; [lia|apply bin_labels_length]. }
  specialize (H Hbody).
  destruct (Py.result (Py.for_each numeric_cols body) d) as [entries|];
    [|exact H].
  eapply Forall_impl; [|exact H].
  intros e [col [Hin [E Hrest]]]. split; [now rewrite E|exact Hrest].
Qed.

Section FrequencyFacts.
Context {pandas : Pandas} {analytics : Analytics}.

Lemma timestamp_eqb_refl (t : Timestamp) : timestamp_eqb t t = true.
Proof. unfold timestamp_eqb. now rewrite !Z.eqb_refl. Qed.

Lemma value_eqb_refl (v : value) : value_eqb v v = true.
Proof.
  destruct v; cbn [value_eqb]; try reflexivity.
  - apply Qeq_bool_iff. reflexivity.
  - apply Bool.eqb_reflx.
  - apply String.eqb_refl.
  - apply String.eqb_refl.
  - apply timestamp_eqb_refl.
Qed.

Lemma unique_In (v : value) (xs : list value) :
  In v (Series.unique xs) -> In v xs.
Proof.
  revert v. induction xs as [|x xs IH]; intros v; cbn [Series.unique In];
    [tauto|].
  intros [->|H]; [now left|]. apply filter_In in H as [H _]. right. auto.
Qed.

Lemma count_occ_positive (v : value) (xs : list value) :
  In v xs -> 0 < Series.count_occ_value v xs.
Proof.
  unfold Series.count_occ_value. induction xs as [|x xs IH]; cbn [In filter];
    [tauto|].
  intros [->|H].
  - rewrite value_eqb_refl. cbn [List.length]. lia.
  - destruct (value_eqb v x); cbn [List.length]; [lia|auto].
Qed.

Lemma Sorted_firstn {A : Type} (R : A -> A -> Prop) (n : nat) (l : list A) :
  Sorted R l -> Sorted R (firstn n l).
Proof.
  revert l. induction n as [|n IH]; intros l Hs; cbn [firstn]; [constructor|].
  destruct l as [|x l]; [constructor|].
  apply Sorted_inv in Hs as [Hs Hhd]. constructor; [now apply IH|].
  destruct l as [|y l]; [destruct n; constructor|].
  destruct n; cbn [firstn]; constructor. now inversion Hhd.
Qed.

Lemma Sorted_map {A B : Type} (f : A -> B) (R : B -> B -> Prop) (l : list A) :
  Sorted (fun a b => R (f a) (f b)) l -> Sorted R (map f l).
Proof.
  induction 1 as [|x l Hs IH Hhd]; cbn [map]; constructor; [exact IH|].
  destruct Hhd; cbn [map]; constructor. assumption.
Qed.

Lemma Forall_firstn {A : Type} (P : A -> Prop) (n : nat) (l : list A) :
  Forall P l -> Forall P (firstn n l).
Proof.
  revert l. induction n as [|n IH]; intros l H; cbn [firstn]; [constructor|].
  destruct H as [|x l Hx H]; constructor; [exact Hx|now apply IH].
Qed.

(** The pairs [value_counts] returns. *)
Lemma value_counts_spec (xs : list value) :
  List.length (Series.value_counts xs) = Series.nunique xs
  /\ Sorted (fun a b => snd b <= snd a) (Series.value_counts xs)
  /\ Forall (fun p => In (fst p) xs /\ isna (fst p) = false /\ 0 < snd p)
            (Series.value_counts xs).
Proof.
  unfold Series.value_counts, Series.nunique.
  split; [now rewrite sort_by_length, length_map|]. split.
  - eapply Sorted_ind with (P := fun l => Sorted _ l);
      [constructor| |].
    2:{ apply (sort_by_Sorted _ (fun a b : value * nat => snd b <=? snd a)
                 (fun _ => True)).
        - intros a b _ _.
          destruct (Nat.leb_spec (snd b) (snd a)); [now left|right].
          apply Nat.leb_le. lia.
        - apply Forall_forall. intros ? _. exact I. }
    intros a l Hl IH Hhd. constructor; [exact IH|].
    destruct Hhd; constructor. now apply Nat.leb_le.
  - apply sort_by_Forall. apply Forall_forall. intros p Hp.
    apply in_map_iff in Hp as [v [<- Hv]]. cbn [fst snd].
    apply unique_In in Hv. pose proof Hv as Hv'.
    unfold Series.dropna in Hv'. apply filter_In in Hv' as [Hin Hna].
    split; [exact Hin|]. split.
    + unfold notna in Hna. now apply negb_true_iff.
    + now apply count_occ_positive.
Qed.

Lemma frequency_table_body (d : DataFrame) (col : string) :
  match
    Py.result
      (Py.bind (Py.getitem col) (fun c =>
       let vc := firstn config.TOP_N_CATEGORIES
                        (Series.value_counts (cells c)) in
       Py.bind (Py.getitem col) (fun c' =>
       let total := List.length (filter notna (cells c')) in
       Py.bind (Py.getitem col) (fun c'' =>
       Py.ret
         [ mkFreq col (map fst vc) (map snd vc)
                  (map (fun cnt =>
                          if 0 <? total
                          then Float.round 1 (percent cnt total)
                          else Num 0%Q)
                       (map snd vc))
                  (Series.nunique (cells c'')) ])))) d
  with
  | Some tabs =>
      map ft_column tabs = [col] /\ Forall (frequency_table_ok d) tabs
  | None => has_column d col = false
  end.
Proof.
  unfold Py.result, Py.bind, Py.getitem, Py.ret.
  destruct (df_get d col) as [c|] eqn:G; cbn [fst];
    [|now apply has_column_get].
  cbn [fst map ft_column]. split; [reflexivity|].
  constructor; [|constructor].
  destruct (value_counts_spec (cells c)) as (Hlen & Hsorted & Hall).
  unfold frequency_table_ok, df_cells.
  cbn [ft_values ft_counts ft_percentages ft_unique_count ft_column].
  rewrite G, !length_map.
  split; [reflexivity|]. split; [reflexivity|].
  split; [apply firstn_le_length|].
  split; [rewrite <- Hlen, length_firstn; lia|].
  split; [reflexivity|]. split; [|split].
  - unfold descending. apply Sorted_map. now apply Sorted_firstn.
  - apply Forall_map. apply Forall_firstn.
    eapply Forall_impl; [|exact Hall]. intros p (_ & _ & H). exact H.
  - apply Forall_map. apply Forall_firstn.
    eapply Forall_impl; [|exact Hall]. intros p (H1 & H2 & _). now split.
Qed.

End FrequencyFacts.

(** [frequency_tables] raises only when a requested column is not in
    the table; otherwise it returns one table per requested column, in the
    order of the request.  Each table lists at most [TOP_N_CATEGORIES]
    values of its column, none of them missing, with one count and one
    percentage per value; the counts are positive and come largest first;
    [unique_count] is the number of distinct values of the column and is
    never below the number of values listed. *)
Theorem frequency_tables_shape
    {pandas : Pandas} {analytics : Analytics}
    (categorical_cols : list string) (d : DataFrame) :
  match Py.result (frequency_tables categorical_cols) d with
  | Some tabs =>
      map ft_column tabs = categorical_cols
      /\ Forall (frequency_table_ok d) tabs
  | None => exists col, In col categorical_cols /\ has_column d col = false
  end.
Proof.
  unfold frequency_tables.
  match goal with |- context [Py.for_each _ ?f] => set (body := f) end.
  assert (Hro : forall col, Py.read_only (body col))
    by (intros col; unfold body; read_only).
  pose proof (for_each_map categorical_cols body d ft_column
                (fun col => [col]) (fun _ => True)
                (fun col => has_column d col = false) Hro) as Hkeys.
  pose proof (PyRun.for_each_spec categorical_cols body d
                (fun _ f => frequency_table_ok d f)
                (fun col => has_column d col = false) Hro) as Hok.
  assert (Hbody : forall col,
            match Py.result (body col) d with
            | Some tabs =>
                map ft_column tabs = [col] /\ Forall (frequency_table_ok d) tabs
            | None => has_column d col = false
            end)
    by (intros col; exact (frequency_table_body d col)).
  destruct (Py.result (Py.for_each categorical_cols body) d) as [tabs|].
  - split.
    + destruct Hkeys as [Hkeys _].
      * intros col _. specialize (Hbody col).
        destruct (Py.result (body col) d); [|exact Hbody].
        split; [apply Hbody|exact I].
      * now rewrite Hkeys, flat_map_singleton.
    + eapply Forall_impl; [|apply Hok].
      * intros f [col [_ H]]. exact H.
      * intros col _. specialize (Hbody col).
        destruct (Py.result (body col) d); [apply Hbody|exact Hbody].
  - apply Hok. intros col _. specialize (Hbody col).
    destruct (Py.result (body col) d); [apply Hbody|exact Hbody].
Qed.

(* ================================================================== *)
(** * Chart sizes *)
(* ================================================================== *)

Section ChartSizeFacts.
Context {pandas : Pandas} {analytics : Analytics}.

Lemma subsampled_bounds (m : nat) : 2 <= m -> 2 <= subsampled m <= 399.
Proof.
  intros Hm. unfold subsampled. destruct (Nat.ltb_spec 200 m) as [H|H]; [|lia].
  destruct (subsample_length (repeat tt m)) as [_ Hb];
    rewrite repeat_length in *; [exact H|lia].
Qed.

Lemma getitems_pair (d : DataFrame) (c1 c2 : string) :
  Py.result (Py.getitems [c1; c2]) d
  = match df_get d c1, df_get d c2 with
    | Some a, Some b => Some [a; b]
    | _, _ => None
    end.
Proof.
  unfold Py.result, Py.getitems, Py.bind, Py.getitem, Py.ret.
  destruct (df_get d c1); cbn [fst]; [|reflexivity].
  destruct (df_get d c2); reflexivity.
Qed.

Lemma nan_to_zero_notna (vs : list value) :
  forallb notna (map nan_to_zero vs) = true.
Proof.
  induction vs as [|v vs IH]; [reflexivity|]. cbn [map forallb].
  rewrite IH. unfold nan_to_zero. now destruct v.
Qed.

Lemma line_chart_shape (dt_col num_col : string) (d : DataFrame) :
  match Py.result (line_chart dt_col num_col) d with
  | Some charts =>
      exists a b,
        df_get d dt_col = Some a /\ df_get d num_col = Some b
        /\ let m := List.length (complete_pairs a b) in
           (m < 2 -> charts = [])
           /\ (2 <= m ->
               exists ch,
                 charts = [ch]
                 /\ chart_type_of ch = "line"
                 /\ n_points ch = subsampled m
                 /\ 2 <= n_points ch <= 399
                 /\ List.length (chart_labels ch) = n_points ch
                 /\ forallb notna (chart_values ch) = true)
  | None => has_column d dt_col = false \/ has_column d num_col = false
  end.
Proof.
  unfold line_chart.
  rewrite PyRun.bind_result by apply PyFacts.getitems_ro.
  rewrite getitems_pair.
  destruct (df_get d dt_col) as [a|] eqn:Ga;
    [|left; now apply has_column_get].
  destruct (df_get d num_col) as [b|] eqn:Gb;
    [|right; now apply has_column_get].
  cbn [nth]. unfold sort_pairs.
  set (rows := sort_by _ (complete_pairs a b)).
  assert (Hrows : List.length rows = List.length (complete_pairs a b))
    by apply sort_by_length.
  destruct (Nat.ltb_spec (List.length rows) 2) as [Hm|Hm].
  - unfold Py.result, Py.ret. cbn [fst]. exists a, b.
    split; [reflexivity|]. split; [reflexivity|]. cbv zeta.
    rewrite <- Hrows. split; [reflexivity|lia].
  - rewrite length_map.
    pose proof (subsampled_bounds (List.length rows) Hm) as Hb.
    unfold subsampled in *.
    destruct (Nat.ltb_spec 200 (List.length rows)) as [Hbig|Hsmall];
      unfold Py.result, Py.ret; cbn [fst]; exists a, b;
      (split; [reflexivity|]); (split; [reflexivity|]); cbv zeta;
      rewrite <- Hrows; (split; [lia|]); intros _;
      destruct (Nat.ltb_spec 200 (List.length rows)); try lia;
      eexists; (split; [reflexivity|]);
      cbn [chart_type_of _build_chart_config n_points chart_labels
           chart_values ds_data];
      rewrite !length_map.
    + assert (Hstep : 0 < List.length rows / 200)
        by (apply Nat.div_str_pos; lia).
      rewrite !slice_step_length by exact Hstep. rewrite !length_map.
      split; [reflexivity|]. split; [reflexivity|]. split; [exact Hb|].
      split; [reflexivity|apply nan_to_zero_notna].
    + split; [reflexivity|]. split; [reflexivity|]. split; [lia|].
      split; [reflexivity|apply nan_to_zero_notna].
Qed.

Lemma category_chart_shape (cat_col : string) (d : DataFrame) :
  match Py.result (category_chart cat_col) d with
  | Some charts =>
      List.length charts <= 1
      /\ (charts = [] <-> Series.nunique (df_cells d cat_col) = 0)
      /\ Forall (fun ch =>
                   chart_type_of ch = "pie"
                   /\ 1 <= n_points ch <= config.MAX_PIE_CATEGORIES
                   /\ n_points ch
                      = Nat.min config.MAX_PIE_CATEGORIES
                                (Series.nunique (df_cells d cat_col))
                   /\ List.length (chart_labels ch) = n_points ch)
                charts
  | None => has_column d cat_col = false
  end.
Proof.
  unfold Py.result, category_chart, Py.bind, Py.getitem, Py.ret, df_cells.
  destruct (df_get d cat_col) as [c|] eqn:G; cbn [fst];
    [|now apply has_column_get].
  destruct (value_counts_spec (cells c)) as (Hlen & _ & _).
  pose proof (length_firstn config.MAX_PIE_CATEGORIES
                (Series.value_counts (cells c))) as Hfirst.
  rewrite Hlen in Hfirst.
  destruct (firstn config.MAX_PIE_CATEGORIES (Series.value_counts (cells c)))
    as [|x vc] eqn:E; cbn [fst].
  - cbn [List.length] in Hfirst. split; [cbn; lia|]. split; [|constructor].
    split; [intros _|reflexivity]. unfold config.MAX_PIE_CATEGORIES in Hfirst.
    lia.
  - split; [cbn; lia|]. split.
    { split; [discriminate|]. intros H0. rewrite H0 in Hfirst.
      cbn [List.length] in Hfirst. unfold config.MAX_PIE_CATEGORIES in Hfirst.
      lia. }
    constructor; [|constructor].
    cbn [chart_type_of _build_chart_config n_points chart_labels ds_data].
    rewrite !length_map.
    assert (H : List.length (x :: vc) <= config.MAX_PIE_CATEGORIES)
      by (rewrite <- E; apply firstn_le_length).
    split.
    { apply Nat.leb_le in H. rewrite H. reflexivity. }
    split; [cbn [List.length] in *; lia|]. split; [exact Hfirst|reflexivity].
Qed.

End ChartSizeFacts.

(** The time-series rule for one datetime and one numeric column raises
    exactly when one of the two columns is not in the table.  It draws no
    chart when fewer than two rows have both cells, and otherwise one line
    chart with a label per point and no missing value; the chart plots
    every complete row up to 200 rows and ceil(m / (m // 200)) of m rows
    beyond, which is never fewer than 2 nor more than 399 points. *)
Theorem line_chart_points
    {pandas : Pandas} {analytics : Analytics}
    (dt_col num_col : string) (d : DataFrame) :
  match Py.result (line_chart dt_col num_col) d with
  | Some charts =>
      exists a b,
        df_get d dt_col = Some a /\ df_get d num_col = Some b
        /\ let m := List.length (complete_pairs a b) in
           (m < 2 -> charts = [])
           /\ (2 <= m ->
               exists ch,
                 charts = [ch]
                 /\ chart_type_of ch = "line"
                 /\ n_points ch = subsampled m
                 /\ 2 <= n_points ch <= 399
                 /\ List.length (chart_labels ch) = n_points ch
                 /\ forallb notna (chart_values ch) = true)
  | None => has_column d dt_col = false \/ has_column d num_col = false
  end.
Proof. apply line_chart_shape. Qed.

(** The single-categorical rule raises exactly when its column is not in
    the table.  It draws no chart for a column without values, and
    otherwise one chart, always of type pie, with a label per slice, at
    least one slice and at most [MAX_PIE_CATEGORIES] of them: the branch
    that would answer a bar chart is never taken. *)
Theorem category_chart_slices
    {pandas : Pandas} {analytics : Analytics}
    (cat_col : string) (d : DataFrame) :
  match Py.result (category_chart cat_col) d with
  | Some charts =>
      List.length charts <= 1
      /\ (charts = [] <-> Series.nunique (df_cells d cat_col) = 0)
      /\ Forall (fun ch =>
                   chart_type_of ch = "pie"
                   /\ 1 <= n_points ch <= config.MAX_PIE_CATEGORIES
                   /\ n_points ch
                      = Nat.min config.MAX_PIE_CATEGORIES
                                (Series.nunique (df_cells d cat_col))
                   /\ List.length (chart_labels ch) = n_points ch)
                charts
  | None => has_column d cat_col = false
  end.
Proof. apply category_chart_shape. Qed.

(* ================================================================== *)
(** * The full report *)
(* ================================================================== *)

Section ReportFacts.
Context {pandas : Pandas} {analytics : Analytics}.

(** The result of [generate_full_insights] in terms of the results of the
    functions it calls, all on the table as it was passed. *)
Lemma generate_full_insights_result (d : DataFrame) :
  Py.result generate_full_insights d
  = match Py.result classify_columns d with
    | None => None
    | Some ct =>
    match Py.result (descriptive_stats (numeric ct)) d with
    | None => None
    | Some stats =>
    match Py.result (correlation_matrix (numeric ct)) d with
    | None => None
    | Some corr =>
    match Py.result (distribution_analysis (numeric ct)) d with
    | None => None
    | Some dist =>
    match Py.result (frequency_tables (categorical ct)) d with
    | None => None
    | Some freq =>
    match Py.result (auto_select_charts ct corr) d with
    | None => None
    | Some charts =>
    match Py.result (generate_nlg_insights ct stats corr freq) d with
    | None => None
    | Some nlg =>
        Some (mkFull ct stats corr dist freq charts nlg
                (mkShape (df_len d) (List.length (df_columns d))
                         (List.length (numeric ct))
                         (List.length (categorical ct))
                         (List.length (datetime ct))))
    end end end end end end end.
Proof.
  unfold generate_full_insights.
  rewrite PyRun.bind_result by apply PyFacts.len_ro.
  unfold Py.result at 1, Py.len at 1. cbn [fst].
  rewrite PyRun.bind_result by apply PyFacts.columns_ro.
  unfold Py.result at 1, Py.columns at 1. cbn [fst].
  rewrite PyRun.bind_result by apply classify_columns_ro.
  destruct (Py.result classify_columns d) as [ct|]; [|reflexivity].
  rewrite PyRun.bind_result by apply descriptive_stats_ro.
  destruct (Py.result (descriptive_stats (numeric ct)) d) as [stats|];
    [|reflexivity].
  rewrite PyRun.bind_result by apply correlation_matrix_ro.
  destruct (Py.result (correlation_matrix (numeric ct)) d) as [corr|];
    [|reflexivity].
  rewrite PyRun.bind_result by apply distribution_analysis_ro.
  destruct (Py.result (distribution_analysis (numeric ct)) d) as [dist|];
    [|reflexivity].
  rewrite PyRun.bind_result by apply frequency_tables_ro.
  destruct (Py.result (frequency_tables (categorical ct)) d) as [freq|];
    [|reflexivity].
  rewrite PyRun.bind_result by apply auto_select_charts_ro.
  destruct (Py.result (auto_select_charts ct corr) d) as [charts|];
    [|reflexivity].
  rewrite PyRun.bind_result by apply generate_nlg_insights_ro.
  destruct (Py.result (generate_nlg_insights ct stats corr freq) d) as [nlg|];
    [|reflexivity].
  rewrite PyRun.bind_result by apply PyFacts.len_ro.
  unfold Py.result at 1, Py.len at 1. cbn [fst].
  rewrite PyRun.bind_result by apply PyFacts.columns_ro.
  unfold Py.result at 1, Py.columns at 1. cbn [fst].
  reflexivity.
Qed.

End ReportFacts.

(** Every part of the report [generate_full_insights] returns is what the
    function for that part returns on the table as it was passed, fed with
    the parts computed before it: the statistics, correlations and
    distributions of the columns classified numeric, the frequency tables
    of those classified categorical, the charts chosen from the
    classification and the correlations, and the narrative written from all
    of them. *)
Theorem generate_full_insights_parts
    {pandas : Pandas} {analytics : Analytics}
    (d : DataFrame) (r : FullInsights) :
  Py.result generate_full_insights d = Some r ->
  let ct := fi_column_types r in
  Py.result classify_columns d = Some ct
  /\ Py.result (descriptive_stats (numeric ct)) d
     = Some (fi_descriptive_stats r)
  /\ Py.result (correlation_matrix (numeric ct)) d = Some (fi_correlation r)
  /\ Py.result (distribution_analysis (numeric ct)) d
     = Some (fi_distributions r)
  /\ Py.result (frequency_tables (categorical ct)) d
     = Some (fi_frequency_tables r)
  /\ Py.result (auto_select_charts ct (fi_correlation r)) d
     = Some (fi_charts r)
  /\ Py.result (generate_nlg_insights ct (fi_descriptive_stats r)
                  (fi_correlation r) (fi_frequency_tables r)) d
     = Some (fi_insights r).
Proof.
  rewrite generate_full_insights_result. cbv zeta.
  destruct (Py.result classify_columns d) as [ct|]; [|discriminate].
  destruct (Py.result (descriptive_stats (numeric ct)) d) as [stats|] eqn:E1;
    [|discriminate].
  destruct (Py.result (correlation_matrix (numeric ct)) d) as [corr|] eqn:E2;
    [|discriminate].
  destruct (Py.result (distribution_analysis (numeric ct)) d) as [dist|] eqn:E3;
    [|discriminate].
  destruct (Py.result (frequency_tables (categorical ct)) d) as [freq|] eqn:E4;
    [|discriminate].
  destruct (Py.result (auto_select_charts ct corr) d) as [charts|] eqn:E5;
    [|discriminate].
  destruct (Py.result (generate_nlg_insights ct stats corr freq) d)
    as [nlg|] eqn:E6; [|discriminate].
  intros H. injection H as <-.
  cbn [fi_column_types fi_descriptive_stats fi_correlation fi_distributions
       fi_frequency_tables fi_charts fi_insights].
  repeat split; assumption.
Qed.

Lemma generate_full_insights_parts_witness :
  let d := [mkColumn "name" Object [Str "a"; Str "b"; Str "a"]] in
  exists r,
    Py.result (@generate_full_insights plain_pandas plain_analytics) d = Some r
    /\ Py.result classify_columns d = Some (fi_column_types r)
    /\ fi_column_types r = mkColumnTypes [] ["name"] [].
Proof.
  cbv zeta. eexists. split; [vm_compute; reflexivity|].
  split; [|reflexivity].
  eapply (@generate_full_insights_parts plain_pandas plain_analytics).
  vm_compute. reflexivity.
Defined.

(** The shape summary of the report counts the table as it was passed: its
    rows, its columns, and the columns of each class; on a table with
    unique column names the three class counts and the number of columns
    named like an outlier flag add up to the number of columns. *)
Theorem generate_full_insights_summary
    {pandas : Pandas} {analytics : Analytics}
    (d : DataFrame) (r : FullInsights) :
  NoDup (df_columns d) ->
  Py.result generate_full_insights d = Some r ->
  let s := fi_summary r in
  total_rows s = df_len d
  /\ total_columns s = List.length d
  /\ numeric_columns s = List.length (numeric (fi_column_types r))
  /\ categorical_columns s = List.length (categorical (fi_column_types r))
  /\ datetime_columns s = List.length (datetime (fi_column_types r))
  /\ numeric_columns s + categorical_columns s + datetime_columns s
     + List.length (flag_labels d)
     = total_columns s.
Proof.
  intros Hnd. rewrite generate_full_insights_result. cbv zeta.
  rewrite (classify_columns_result d Hnd).
  destruct (Py.result (descriptive_stats _) d) as [stats|]; [|discriminate].
  destruct (Py.result (correlation_matrix _) d) as [corr|]; [|discriminate].
  destruct (Py.result (distribution_analysis _) d) as [dist|]; [|discriminate].
  destruct (Py.result (frequency_tables _) d) as [freq|]; [|discriminate].
  destruct (Py.result (auto_select_charts _ _) d) as [charts|]; [|discriminate].
  destruct (Py.result (generate_nlg_insights _ _ _ _) d) as [nlg|];
    [|discriminate].
  intros H. injection H as <-.
  cbn [fi_summary fi_column_types total_rows total_columns numeric_columns
       categorical_columns datetime_columns numeric categorical datetime].
  unfold df_columns. rewrite length_map.
  repeat split. apply classified_count.
Qed.

Lemma generate_full_insights_summary_witness :
  let d := [mkColumn "name" Object [Str "a"; Str "b"; Str "a"];
            mkColumn "is_outlier_x" Int64 [Num 0%Q; Num 0%Q; Num 1%Q]] in
  exists r,
    (NoDup (df_columns d)
     /\ Py.result (@generate_full_insights plain_pandas plain_analytics) d
        = Some r)
    /\ numeric_columns (fi_summary r) + categorical_columns (fi_summary r)
       + datetime_columns (fi_summary r) + List.length (flag_labels d)
       = total_columns (fi_summary r).
Proof.
  cbv zeta. eexists.
  assert (Hnd : NoDup (df_columns
            [mkColumn "name" Object [Str "a"; Str "b"; Str "a"];
             mkColumn "is_outlier_x" Int64 [Num 0%Q; Num 0%Q; Num 1%Q]]))
    by (repeat constructor; cbn; intuition discriminate).
  split; [split; [exact Hnd|vm_compute; reflexivity]|].
  apply (@generate_full_insights_summary plain_pandas plain_analytics
           _ _ Hnd eq_refl).
Defined.

(* ================================================================== *)
(** * Upload validation *)
(* ================================================================== *)

(** [validate_csv] raises exactly on a table without rows, a table without
    columns being one, and then always with the message for an empty file:
    its second check can never fire.  It returns at most three warnings. *)
Theorem validate_csv_errors (d : DataFrame) :
  (validate_csv d = inl empty_csv <-> df_len d = 0)
  /\ validate_csv d <> inl no_columns
  /\ (forall ws, validate_csv d = inr ws ->
        0 < df_len d /\ List.length ws <= 3).
Proof.
  unfold validate_csv, df_empty, df_columns. rewrite length_map.
  destruct d as [|c d].
  - cbn. repeat split; try discriminate; intros; discriminate.
  - cbn [List.length df_len]. cbn [Nat.eqb orb].
    destruct (Nat.eqb_spec (List.length (cells c)) 0) as [E|Hne]; cbn [orb].
    + repeat split; try discriminate; intros; try discriminate; assumption.
    + cbv zeta. split; [split; [discriminate|intros; contradiction]|].
      split; [discriminate|]. intros ws H. injection H as <-.
      split; [lia|].
      destruct (filter _ _);
        repeat match goal with
               | |- context [if ?b then _ else _] => destruct b
               end;
        cbn; lia.
Qed.

(** The duplicate rows [validate_csv] warns about are the rows
    [remove_duplicates] drops from the same table: if it reports [n] of
    them the step logs the removal of [n] rows, and if it reports none the
    step leaves the pipeline as it is. *)
Theorem validate_csv_duplicates_removed (d : DataFrame)
    (ws : list ValidationWarning) :
  rectangular d -> validate_csv d = inr ws ->
  df_len d = df_len (df (remove_duplicates (init d))) + reported_duplicates ws
  /\ transformations (remove_duplicates (init d))
     = match reported_duplicates ws with
       | 0 => []
       | n => [removed_duplicates n]
       end.
Proof.
  intros Hrect. unfold validate_csv.
  destruct (df_empty d); [discriminate|].
  destruct (List.length (df_columns d) =? 0); [discriminate|].
  destruct (drop_duplicates_spec d Hrect) as (_ & _ & Hlen).
  cbv zeta. set (n := count_true (Series.duplicated (df_rows d))) in *.
  match goal with
  | |- inr (if 0 <? n then ?W ++ _ else _) = _ -> _ => set (w := W)
  end.
  assert (Hw : reported_duplicates w = 0).
  { unfold w. destruct (filter _ _); destruct (_ =? 1); reflexivity. }
  clearbody w. intros H. injection H as <-.
  assert (Hn : reported_duplicates
                 (if 0 <? n
                  then w ++ [duplicate_rows_found n
                               (pct_of (percent n (df_len d)))]
                  else w) = n).
  { destruct (Nat.ltb_spec 0 n) as [Hpos|Hz].
    - unfold reported_duplicates in *. rewrite map_app, list_sum_app, Hw.
      cbn. lia.
    - rewrite Hw. lia. }
  rewrite Hn. rewrite remove_duplicates_df. cbn [init df].
  split; [lia|].
  unfold remove_duplicates. cbv zeta. cbn [init df with_df].
  replace (df_len d - df_len (drop_duplicates d)) with n by lia.
  destruct n as [|n]; reflexivity.
Qed.

Lemma validate_csv_duplicates_removed_witness :
  let d := [mkColumn "a" Int64 [Num 1%Q; Num 2%Q; Num 1%Q; Num 1%Q]] in
  (rectangular d
   /\ validate_csv d = inr [single_column; duplicate_rows_found 2 50%Q])
  /\ transformations (remove_duplicates (init d)) = [removed_duplicates 2].
Proof.
  cbv zeta.
  assert (Hrect : rectangular
            [mkColumn "a" Int64 [Num 1%Q; Num 2%Q; Num 1%Q; Num 1%Q]])
    by (repeat constructor).
  split; [split; [exact Hrect|reflexivity]|].
  apply (validate_csv_duplicates_removed _ _ Hrect eq_refl).
Defined.

(* ================================================================== *)
(** * Date parts *)
(* ================================================================== *)

Section DatePartFacts.

Lemma append_suffix_neq (col s : string) :
  (col ++ s)%string = col -> s = ""%string.
Proof.
  induction col as [|c col IH]; cbn [String.append]; [tauto|].
  intros H. injection H as H. auto.
Qed.

Lemma eqb_suffix (col s : string) :
  s <> ""%string -> String.eqb (col ++ s) col = false.
Proof.
  intros Hs. apply String.eqb_neq. intros E. now apply append_suffix_neq in E.
Qed.

Lemma eqb_suffixes (col s t : string) :
  s <> t -> String.eqb (col ++ s) (col ++ t) = false.
Proof.
  intros Hs. apply String.eqb_neq. intros E. now apply append_injective in E.
Qed.

End DatePartFacts.

(** One iteration of the first loop of [feature_engineering] writes three
    columns, named after the datetime column with the suffixes [_year],
    [_month] and [_day]; each holds the date part of every timestamp of the
    column and a missing cell where the timestamp is missing, as integers
    or, if a timestamp is missing, as floats.  Every other column is left
    as it is, and one entry is logged. *)
Theorem extract_date_parts_columns (p : ETLPipeline) (col : string) :
  let s := df_cells (df p) col in
  let q := extract_date_parts p col in
  df_get (df q) (col ++ "_year")
  = Some (mkColumn (col ++ "_year") (date_part_dtype s) (date_part ts_year s))
  /\ df_get (df q) (col ++ "_month")
     = Some (mkColumn (col ++ "_month") (date_part_dtype s)
                      (date_part ts_month s))
  /\ df_get (df q) (col ++ "_day")
     = Some (mkColumn (col ++ "_day") (date_part_dtype s) (date_part ts_day s))
  /\ (forall k, k <> (col ++ "_year")%string -> k <> (col ++ "_month")%string ->
                k <> (col ++ "_day")%string ->
                df_get (df q) k = df_get (df p) k)
  /\ transformations q = transformations p ++ [extracted_date_parts_from col].
Proof.
  cbv zeta. unfold extract_date_parts. cbn [log with_df df transformations].
  set (d0 := df p).
  set (d1 := df_set d0 (col ++ "_year") (date_part_dtype (df_cells d0 col))
                    (date_part ts_year (df_cells d0 col))).
  assert (E1 : df_cells d1 col = df_cells d0 col).
  { unfold df_cells, d1. rewrite df_get_set, eqb_suffix; [reflexivity|].
    discriminate. }
  set (d2 := df_set d1 (col ++ "_month") (date_part_dtype (df_cells d1 col))
                    (date_part ts_month (df_cells d1 col))).
  assert (E2 : df_cells d2 col = df_cells d0 col).
  { unfold df_cells, d2. rewrite df_get_set, eqb_suffix by discriminate.
    exact E1. }
  assert (Hget : forall k,
            df_get (df_set d2 (col ++ "_day") (date_part_dtype (df_cells d2 col))
                           (date_part ts_day (df_cells d2 col))) k
            = if String.eqb (col ++ "_day") k
              then Some (mkColumn (col ++ "_day")
                                  (date_part_dtype (df_cells d0 col))
                                  (date_part ts_day (df_cells d0 col)))
              else if String.eqb (col ++ "_month") k
                   then Some (mkColumn (col ++ "_month")
                                       (date_part_dtype (df_cells d0 col))
                                       (date_part ts_month (df_cells d0 col)))
                   else if String.eqb (col ++ "_year") k
                        then Some (mkColumn (col ++ "_year")
                                            (date_part_dtype (df_cells d0 col))
                                            (date_part ts_year (df_cells d0 col)))
                        else df_get d0 k).
  { intros k. rewrite df_get_set, E2. unfold d2. rewrite df_get_set, E1.
    unfold d1. rewrite df_get_set. reflexivity. }
  rewrite !Hget, !String.eqb_refl.
  rewrite (eqb_suffixes col "_day" "_year") by discriminate.
  rewrite (eqb_suffixes col "_month" "_year") by discriminate.
  rewrite (eqb_suffixes col "_day" "_month") by discriminate.
  split; [reflexivity|]. split; [reflexivity|]. split; [reflexivity|].
  split; [|reflexivity].
  intros k H1 H2 H3. rewrite Hget.
  destruct (String.eqb_spec (col ++ "_day") k); [congruence|].
  destruct (String.eqb_spec (col ++ "_month") k); [congruence|].
  destruct (String.eqb_spec (col ++ "_year") k); [congruence|].
  reflexivity.
Qed.

(* ================================================================== *)
(** * The cleaned table *)
(* ================================================================== *)

(** The table [run] returns has passed the final validation: no numeric
    column of it holds an infinity and no column of it is entirely
    missing, whatever the table the pipeline was given. *)
Theorem run_output_validated {pandas : Pandas} (p : ETLPipeline) :
  count_inf (df (run p)) = 0
  /\ Forall (fun c => all_null c = false) (df (run p)).
Proof.
  unfold run.
  destruct (validate_output_post
              (feature_engineering
                 (optimize_dtypes
                    (detect_outliers
                       (convert_dates
                          (handle_missing_values
                             (remove_duplicates
                                (trim_strings (standardize_columns p)))))))))
    as [H0 Hnull].
  split; [exact H0|].
  apply Forall_forall. intros c Hc. rewrite forallb_forall in Hnull.
  apply negb_true_iff. apply Hnull. exact Hc.
Qed.

(* ================================================================== *)
(** * The charts chosen *)
(* ================================================================== *)

Section ChartChoiceFacts.
Context {pandas : Pandas} {analytics : Analytics}.

Lemma for_each_Forall {X Y : Type} (xs : list X) (body : X -> Py.M (list Y))
    (d : DataFrame) (P : Y -> Prop) :
  (forall x, Py.read_only (body x)) ->
  (forall x, match Py.result (body x) d with
             | Some ys => Forall P ys
             | None => True
             end) ->
  match Py.result (Py.for_each xs body) d with
  | Some ys => Forall P ys
  | None => True
  end.
Proof.
  intros Hro Hbody.
  pose proof (PyRun.for_each_spec xs body d (fun _ y => P y) (fun _ => True)
                Hro (fun x _ => Hbody x)) as H.
  destruct (Py.result (Py.for_each xs body) d); [|exact I].
  eapply Forall_impl; [|exact H]. intros y [x [_ Hy]]. exact Hy.
Qed.

End ChartChoiceFacts.

(** Every chart [auto_select_charts] returns is a line chart of 2 to 399
    points, a pie chart of 1 to [MAX_PIE_CATEGORIES] slices, a bar chart, a
    scatter chart or a heatmap; a heatmap comes last, and there is one
    exactly when the correlation matrix is not empty and at least two
    numeric columns were classified. *)
Theorem auto_select_charts_kinds
    {pandas : Pandas} {analytics : Analytics}
    (col_types : ColumnTypes) (corr_data : CorrelationResult) (d : DataFrame) :
  match Py.result (auto_select_charts col_types corr_data) d with
  | Some charts =>
      Forall chart_ok charts
      /\ exists others,
           Forall (fun ch => chart_type_of ch <> "heatmap") others
           /\ charts
              = others
                ++ (if negb (List.length (matrix corr_data) =? 0)
                       && (2 <=? List.length (numeric col_types))
                    then [heatmap_chart "Correlation Matrix"
                            (numeric col_types) (matrix corr_data)]
                    else [])
  | None => True
  end.
Proof.
  unfold auto_select_charts. cbv zeta.
  set (not_heatmap := fun ch => chart_ok ch /\ chart_type_of ch <> "heatmap").
  assert (Hline : forall dt_col num_col,
            match Py.result (line_chart dt_col num_col) d with
            | Some ys => Forall not_heatmap ys
            | None => True
            end).
  { intros dt_col num_col.
    pose proof (line_chart_shape dt_col num_col d) as H'.
    destruct (Py.result (line_chart dt_col num_col) d) as [ys|]; [|exact I].
    destruct H' as (a & b & _ & _ & Hsmall & Hbig).
    destruct (Nat.lt_ge_cases (List.length (complete_pairs a b)) 2) as [Hm|Hm].
    - rewrite (Hsmall Hm). constructor.
    - destruct (Hbig Hm) as (ch & -> & Ht & _ & Hb & _).
      constructor; [|constructor].
      split; [left; now split|]. rewrite Ht. discriminate. }
  assert (Hbar : forall cat_col num_col,
            match Py.result (category_bar_chart cat_col num_col) d with
            | Some ys => Forall not_heatmap ys
            | None => True
            end).
  { intros cat_col num_col.
    unfold Py.result, category_bar_chart, Py.bind, Py.getitem, Py.ret.
    destruct (df_get d cat_col) as [c|]; cbn [fst]; [|exact I].
    destruct (df_get d num_col) as [n|]; cbn [fst]; [|exact I].
    destruct (nlargest _ _); cbn [fst]; constructor; [|constructor].
    split; [right; right; left; reflexivity|discriminate]. }
  assert (Hpie : forall cat_col,
            match Py.result (category_chart cat_col) d with
            | Some ys => Forall not_heatmap ys
            | None => True
            end).
  { intros cat_col. pose proof (category_chart_shape cat_col d) as H.
    destruct (Py.result (category_chart cat_col) d) as [ys|]; [|exact I].
    destruct H as (_ & _ & H). eapply Forall_impl; [|exact H].
    intros ch (Ht & Hb & _). split; [right; left; now split|].
    rewrite Ht. discriminate. }
  assert (Hhist : forall num_col,
            match Py.result (histogram_chart num_col) d with
            | Some ys => Forall not_heatmap ys
            | None => True
            end).
  { intros num_col.
    unfold Py.result, histogram_chart, Py.bind, Py.getitem, Py.of_option,
      Py.ret.
    destruct (df_get d num_col) as [c|]; cbn [fst]; [|exact I].
    destruct (_ <? 2); cbn [fst]; [constructor|].
    destruct (np_histogram _ _) as [[counts edges]|]; cbn [fst]; [|exact I].
    constructor; [|constructor].
    split; [right; right; left; reflexivity|discriminate]. }
  assert (Hscatter : forall pair,
            match Py.result (scatter_for pair) d with
            | Some ys => Forall not_heatmap ys
            | None => True
            end).
  { intros pair. unfold scatter_for.
    rewrite PyRun.bind_result by apply PyFacts.getitems_ro.
    destruct (Py.result (Py.getitems [col1 pair; col2 pair]) d); [|exact I].
    unfold Py.result, Py.ret. cbn [fst]. constructor; [|constructor].
    split; [right; right; right; left; reflexivity|discriminate]. }
  rewrite PyRun.bind_result
    by (apply PyFacts.for_each_ro; intros ?; apply PyFacts.for_each_ro;
        intros ?; apply line_chart_ro).
  pose proof (for_each_Forall (datetime col_types)
                (fun dt_col => Py.for_each (firstn 3 (numeric col_types))
                                           (line_chart dt_col))
                d not_heatmap
                (fun dt_col => PyFacts.for_each_ro _ _ (line_chart_ro dt_col))
                (fun dt_col => for_each_Forall _ _ d not_heatmap
                                 (line_chart_ro dt_col) (Hline dt_col)))
    as H1.
  destruct (Py.result (Py.for_each (datetime col_types) _) d) as [lines|];
    [|exact I].
  rewrite PyRun.bind_result
    by (apply PyFacts.for_each_ro; intros ?; apply PyFacts.for_each_ro;
        intros ?; apply category_bar_chart_ro).
  pose proof (for_each_Forall (firstn 3 (categorical col_types))
                (fun cat_col => Py.for_each (firstn 2 (numeric col_types))
                                            (category_bar_chart cat_col))
                d not_heatmap
                (fun cat_col =>
                   PyFacts.for_each_ro _ _ (category_bar_chart_ro cat_col))
                (fun cat_col => for_each_Forall _ _ d not_heatmap
                                  (category_bar_chart_ro cat_col)
                                  (Hbar cat_col)))
    as H2.
  destruct (Py.result (Py.for_each (firstn 3 (categorical col_types)) _) d)
    as [bars|]; [|exact I].
  rewrite PyRun.bind_result
    by (apply PyFacts.for_each_ro; intros ?; apply category_chart_ro).
  pose proof (for_each_Forall (firstn 3 (categorical col_types))
                category_chart d not_heatmap category_chart_ro Hpie) as H3.
  destruct (Py.result (Py.for_each (firstn 3 (categorical col_types))
                                   category_chart) d) as [pies|]; [|exact I].
  rewrite PyRun.bind_result
    by (apply PyFacts.for_each_ro; intros ?; apply histogram_chart_ro).
  pose proof (for_each_Forall (firstn 4 (numeric col_types))
                histogram_chart d not_heatmap histogram_chart_ro Hhist) as H4.
  destruct (Py.result (Py.for_each (firstn 4 (numeric col_types))
                                   histogram_chart) d) as [hists|]; [|exact I].
  rewrite PyRun.bind_result
    by (apply PyFacts.for_each_ro; intros ?; apply scatter_for_ro).
  pose proof (for_each_Forall (firstn 3 (significant_pairs corr_data))
                scatter_for d not_heatmap scatter_for_ro Hscatter) as H5.
  destruct (Py.result (Py.for_each (firstn 3 (significant_pairs corr_data))
                                   scatter_for) d) as [scatters|]; [|exact I].
  unfold Py.result, Py.ret. cbn [fst].
  assert (Hweak : forall l, Forall not_heatmap l -> Forall chart_ok l).
  { intros l Hl. eapply Forall_impl; [|exact Hl]. intros ch [H _]. exact H. }
  assert (Hothers : Forall not_heatmap
                      (lines ++ bars ++ pies ++ hists ++ scatters)).
  { repeat (apply Forall_app; split); assumption. }
  assert (Hfinal : forall heat,
            Forall chart_ok heat ->
            heat = (if negb (List.length (matrix corr_data) =? 0)
                       && (2 <=? List.length (numeric col_types))
                    then [heatmap_chart "Correlation Matrix"
                            (numeric col_types) (matrix corr_data)]
                    else []) ->
            Forall chart_ok
                   (lines ++ bars ++ pies ++ hists ++ scatters ++ heat)
            /\ exists others,
                 Forall (fun ch => chart_type_of ch <> "heatmap") others
                 /\ lines ++ bars ++ pies ++ hists ++ scatters ++ heat
                    = others
                      ++ (if negb (List.length (matrix corr_data) =? 0)
                             && (2 <=? List.length (numeric col_types))
                          then [heatmap_chart "Correlation Matrix"
                                  (numeric col_types) (matrix corr_data)]
                          else [])).
  { intros heat Hheat Eheat. split.
    - repeat (apply Forall_app; split); try (apply Hweak; assumption).
      exact Hheat.
    - exists (lines ++ bars ++ pies ++ hists ++ scatters). split.
      + eapply Forall_impl; [|exact Hothers]. intros ch [_ H]. exact H.
      + rewrite <- Eheat, <- !app_assoc. reflexivity. }
  apply Hfinal.
  - destruct (matrix corr_data); [constructor|].
    destruct (2 <=? _); constructor; [|constructor].
    right. right. right. right. reflexivity.
  - destruct (matrix corr_data); reflexivity.
Qed.
